(** * django-activitypub: federation protocol engine

    A shallow embedding of the signing / verification code
    ([signed_requests.py]), the WebFinger resolver ([webfinger.py]), the
    actor / follower / note store ([models.py]), the routes ([urls.py]),
    the inbox dispatcher and the read-only views ([views.py]) and the
    rendering of mentions ([custom_markdown.py]), followed by the
    properties established about them.

    Conventions.
    - A Python [str] and a Python [bytes] are both a [string] (a list of
      8-bit characters); text is identified with its UTF-8 encoding, so
      [s.encode('utf-8')] is the identity.  Header names and values, URLs
      and base64 text are ASCII, where code points and bytes coincide.
    - A Python exception is a value of [exn]; code that can raise lives in
      the [result] monad, code that also touches the database or the network
      lives in the state-and-exception monad [M].
    - The double-quote character is written [dq]. *)

From Stdlib Require Import ZArith NArith List String Ascii Lia Bool DecimalString.
From stdpp Require Import gmap strings.

Open Scope string_scope.
Set Warnings "-register-all".

(* ===================================================================== *)
(** * Part I. Definitions                                                  *)
(* ===================================================================== *)

(** ** Exceptions and results *)

(** The Django models; [DoesNotExist] and [MultipleObjectsReturned] are
    classes of the model they belong to. *)
Inductive model : Type := LocalActorM | RemoteActorM | FollowerM | NoteM.

(** The exception classes the code meets.  [RequestException] stands for
    an instance of [requests.RequestException] that is neither of its two
    subclasses listed apart: a connection that failed, a URL without
    scheme.  [JSONDecodeError] is the class of the [json] module, raised by
    [json.loads]; [RequestsJSONDecodeError] is
    [requests.exceptions.JSONDecodeError], raised by [Response.json()]. *)
Inductive exn : Type :=
  | KeyError (key : string)
  | IndexError
  | TypeError
  | AttributeError
  | ValueError
  | BinasciiError
  | UnsupportedKey
  | DoesNotExist (m : model)
  | MultipleObjectsReturned (m : model)
  | IntegrityError
  | Http404
  | Resolver404
  | NoReverseMatch
  | HTTPError (status : Z)
  | RequestException
  | RequestsJSONDecodeError
  | JSONDecodeError
  | WebfingerException (cause : exn)
  | RecursionError
  | PlainException (msg : string).

(** [isinstance(e, requests.RequestException)]: [HTTPError] and the
    [JSONDecodeError] of requests are subclasses of [RequestException]. *)
Definition is_RequestException (e : exn) : bool :=
  match e with
  | RequestException | HTTPError _ | RequestsJSONDecodeError => true
  | _ => false
  end.

(** [isinstance(e, django.http.Http404)]: [Resolver404] is a subclass of
    [Http404]. *)
Definition is_Http404 (e : exn) : bool :=
  match e with
  | Http404 | Resolver404 => true
  | _ => false
  end.

Inductive result (A : Type) : Type :=
  | Return (a : A)
  | Raise (e : exn).
Arguments Return {A} a.
Arguments Raise {A} e.

Definition rbind {A B} (r : result A) (k : A -> result B) : result B :=
  match r with
  | Return a => k a
  | Raise e => Raise e
  end.

(** a library call that yields a value or raises [e] *)
Definition or_raise {A} (e : exn) (o : option A) : result A :=
  match o with
  | Some a => Return a
  | None => Raise e
  end.

Notation "'let*' x ':=' r 'in' k" := (rbind r (fun x => k))
  (at level 10, x pattern, r at level 100, k at level 200).

(** ** Python string operations used by the code *)

Module Py.

Definition dq : ascii := ascii_of_nat 34.

Definition quoted (s : string) : string := String dq (s +:+ String dq EmptyString).

Fixpoint take (n : nat) (s : string) : string :=
  match n, s with
  | S n', String c s' => String c (take n' s')
  | _, _ => EmptyString
  end.

Fixpoint drop (n : nat) (s : string) : string :=
  match n, s with
  | S n', String _ s' => drop n' s'
  | _, _ => s
  end.

Definition upper_char (c : ascii) : ascii :=
  let n := nat_of_ascii c in
  if (97 <=? n)%nat && (n <=? 122)%nat then ascii_of_nat (n - 32) else c.

Definition lower_char (c : ascii) : ascii :=
  let n := nat_of_ascii c in
  if (65 <=? n)%nat && (n <=? 90)%nat then ascii_of_nat (n + 32) else c.

Fixpoint smap (f : ascii -> ascii) (s : string) : string :=
  match s with
  | EmptyString => EmptyString
  | String c s' => String (f c) (smap f s')
  end.

(** [s.upper()] and [s.lower()], on the letters a to z and A to Z.  The
    code applies them to the method name, to header names and to the first
    four characters of a digest header.  A header value is the Latin-1
    reading of its bytes; on a character outside ASCII Python's [upper]
    yields a character outside ASCII or, for the sharp s, the two letters
    SS, so that a digest header with such a character among its first four
    equals no recomputed digest, there as here. *)
Definition upper : string -> string := smap upper_char.
Definition lower : string -> string := smap lower_char.

(** [s.startswith(p)] *)
Fixpoint startswith (p s : string) : bool :=
  match p, s with
  | EmptyString, _ => true
  | String a p', String b s' => Ascii.eqb a b && startswith p' s'
  | String _ _, EmptyString => false
  end.

(** [s.split(sep)] for a one-character separator: never empty. *)
Fixpoint split_char (sep : ascii) (s : string) : list string :=
  match s with
  | EmptyString => [EmptyString]
  | String c s' =>
      if Ascii.eqb c sep then EmptyString :: split_char sep s'
      else match split_char sep s' with
           | [] => [String c EmptyString]
           | x :: xs => String c x :: xs
           end
  end.

(** [s.split(sep, 1)]: at most one split, at the leftmost occurrence. *)
Fixpoint find_sep (sep s : string) : option (string * string) :=
  if startswith sep s then Some (EmptyString, drop (String.length sep) s)
  else match s with
       | EmptyString => None
       | String c s' =>
           match find_sep sep s' with
           | Some (a, b) => Some (String c a, b)
           | None => None
           end
       end.

Definition split_once (sep s : string) : list string :=
  match find_sep sep s with
  | Some (a, b) => [a; b]
  | None => [s]
  end.

(** [s.replace(c, '')] for a one-character [c]. *)
Fixpoint remove_char (c : ascii) (s : string) : string :=
  match s with
  | EmptyString => EmptyString
  | String a s' => if Ascii.eqb a c then remove_char c s' else String a (remove_char c s')
  end.

(** [sep.join(parts)] *)
Fixpoint join (sep : string) (parts : list string) : string :=
  match parts with
  | [] => EmptyString
  | [x] => x
  | x :: rest => x +:+ sep +:+ join sep rest
  end.

(** [x in xs] for a list of strings *)
Definition contains (x : string) (xs : list string) : bool :=
  existsb (String.eqb x) xs.

(** [xs[i]] *)
Definition index {A} (xs : list A) (i : nat) : result A :=
  match nth_error xs i with
  | Some x => Return x
  | None => Raise IndexError
  end.

(** [d[k]] on a dict with string keys *)
Definition getitem {V} (d : gmap string V) (k : string) : result V :=
  match d !! k with
  | Some v => Return v
  | None => Raise (KeyError k)
  end.

(** [c in s] for a one-character [c] *)
Fixpoint occurs (c : ascii) (s : string) : bool :=
  match s with
  | EmptyString => false
  | String a s' => Ascii.eqb a c || occurs c s'
  end.

(** every character of [s] satisfies [P] *)
Fixpoint all_chars (P : ascii -> Prop) (s : string) : Prop :=
  match s with
  | EmptyString => True
  | String c s' => P c /\ all_chars P s'
  end.

(** Truthiness of a string: the empty string is falsy. *)
Definition truthy (s : string) : bool :=
  match s with EmptyString => false | _ => true end.

End Py.

(** ** [hashlib.sha256] (FIPS 180-4), on 32-bit words kept in [Z] *)

Module SHA256.
Open Scope Z_scope.

Definition mask32 : Z := 4294967295.
Definition wrap (x : Z) : Z := Z.land x mask32.
Definition add32 (x y : Z) : Z := wrap (x + y).
Definition rotr (n x : Z) : Z := wrap (Z.lor (Z.shiftr x n) (Z.shiftl x (32 - n))).
Definition shr (n x : Z) : Z := Z.shiftr x n.
Definition not32 (x : Z) : Z := Z.lxor x mask32.

Definition Ch (x y z : Z) : Z := Z.lxor (Z.land x y) (Z.land (not32 x) z).
Definition Maj (x y z : Z) : Z :=
  Z.lxor (Z.lxor (Z.land x y) (Z.land x z)) (Z.land y z).
Definition bsig0 (x : Z) : Z := Z.lxor (Z.lxor (rotr 2 x) (rotr 13 x)) (rotr 22 x).
Definition bsig1 (x : Z) : Z := Z.lxor (Z.lxor (rotr 6 x) (rotr 11 x)) (rotr 25 x).
Definition ssig0 (x : Z) : Z := Z.lxor (Z.lxor (rotr 7 x) (rotr 18 x)) (shr 3 x).
Definition ssig1 (x : Z) : Z := Z.lxor (Z.lxor (rotr 17 x) (rotr 19 x)) (shr 10 x).

Definition K : list Z :=
  [1116352408; 1899447441; 3049323471; 3921009573; 961987163; 1508970993;
   2453635748; 2870763221; 3624381080; 310598401; 607225278; 1426881987;
   1925078388; 2162078206; 2614888103; 3248222580; 3835390401; 4022224774;
   264347078; 604807628; 770255983; 1249150122; 1555081692; 1996064986;
   2554220882; 2821834349; 2952996808; 3210313671; 3336571891; 3584528711;
   113926993; 338241895; 666307205; 773529912; 1294757372; 1396182291;
   1695183700; 1986661051; 2177026350; 2456956037; 2730485921; 2820302411;
   3259730800; 3345764771; 3516065817; 3600352804; 4094571909; 275423344;
   430227734; 506948616; 659060556; 883997877; 958139571; 1322822218;
   1537002063; 1747873779; 1955562222; 2024104815; 2227730452; 2361852424;
   2428436474; 2756734187; 3204031479; 3329325298].

Definition byte_of (c : ascii) : Z := Z.of_N (N_of_ascii c).
Definition char_of (b : Z) : ascii := ascii_of_N (Z.to_N (Z.land b 255)).

Fixpoint bytes_of (s : string) : list Z :=
  match s with
  | EmptyString => []
  | String c s' => byte_of c :: bytes_of s'
  end.

(** big-endian bytes of [x], [n] of them *)
Fixpoint be_bytes (n : nat) (x : Z) : list Z :=
  match n with
  | O => []
  | S n' => Z.land (Z.shiftr x (8 * Z.of_nat n')) 255 :: be_bytes n' x
  end.

Definition pad (msg : list Z) : list Z :=
  let len := Z.of_nat (List.length msg) in
  let zeros := Z.to_nat ((55 - len) mod 64) in
  msg ++ [128] ++ repeat 0 zeros ++ be_bytes 8 (8 * len).

Fixpoint words (n : nat) (bs : list Z) : list Z :=
  match n with
  | O => []
  | S n' =>
      match bs with
      | a :: b :: c :: d :: rest =>
          Z.lor (Z.shiftl a 24) (Z.lor (Z.shiftl b 16) (Z.lor (Z.shiftl c 8) d))
          :: words n' rest
      | _ => []
      end
  end.

(** message schedule: [rev_w] holds W[t-1], W[t-2], ... *)
Fixpoint schedule (n : nat) (rev_w : list Z) : list Z :=
  match n with
  | O => rev rev_w
  | S n' =>
      let w := add32 (add32 (ssig1 (nth 1 rev_w 0)) (nth 6 rev_w 0))
                     (add32 (ssig0 (nth 14 rev_w 0)) (nth 15 rev_w 0)) in
      schedule n' (w :: rev_w)
  end.

Record regs := Regs { ra : Z; rb : Z; rc : Z; rd : Z; re : Z; rf : Z; rg : Z; rh : Z }.

Definition round (r : regs) (kw : Z * Z) : regs :=
  let t1 := add32 (add32 (add32 (rh r) (bsig1 (re r))) (add32 (Ch (re r) (rf r) (rg r)) (fst kw))) (snd kw) in
  let t2 := add32 (bsig0 (ra r)) (Maj (ra r) (rb r) (rc r)) in
  Regs (add32 t1 t2) (ra r) (rb r) (rc r) (add32 (rd r) t1) (re r) (rf r) (rg r).

Definition compress (h : regs) (block : list Z) : regs :=
  let w := schedule 48 (rev (words 16 block)) in
  let r := fold_left round (combine K w) h in
  Regs (add32 (ra h) (ra r)) (add32 (rb h) (rb r)) (add32 (rc h) (rc r))
       (add32 (rd h) (rd r)) (add32 (re h) (re r)) (add32 (rf h) (rf r))
       (add32 (rg h) (rg r)) (add32 (rh h) (rh r)).

Fixpoint blocks (n : nat) (h : regs) (bs : list Z) : regs :=
  match n with
  | O => h
  | S n' => blocks n' (compress h (firstn 64 bs)) (skipn 64 bs)
  end.

Definition init : regs :=
  Regs 1779033703 3144134277 1013904242 2773480762
       1359893119 2600822924 528734635 1541459225.

Definition digest_bytes (msg : list Z) : list Z :=
  let p := pad msg in
  let r := blocks (List.length p / 64) init p in
  concat (map (be_bytes 4) [ra r; rb r; rc r; rd r; re r; rf r; rg r; rh r]).

Fixpoint string_of (bs : list Z) : string :=
  match bs with
  | [] => EmptyString
  | b :: rest => String (char_of b) (string_of rest)
  end.

(** [hashlib.sha256(content).digest()] *)
Definition sha256 (content : string) : string :=
  string_of (digest_bytes (bytes_of content)).

End SHA256.

(** ** [base64.standard_b64encode] and [base64.standard_b64decode] *)

Module Base64.
Open Scope N_scope.

Definition alphabet : string :=
  "ABCDEFGHIJKLMNOPQRSTUVWXYZabcdefghijklmnopqrstuvwxyz0123456789+/".

Definition pad_char : ascii := "="%char.

Definition enc (n : N) : ascii :=
  match String.get (N.to_nat n) alphabet with
  | Some c => c
  | None => pad_char
  end.

(** value of an alphabet character; [None] for every other character *)
Definition dec (c : ascii) : option N :=
  let n := N_of_ascii c in
  if (65 <=? n) && (n <=? 90) then Some (n - 65)
  else if (97 <=? n) && (n <=? 122) then Some (n - 71)
  else if (48 <=? n) && (n <=? 57) then Some (n + 4)
  else if n =? 43 then Some 62
  else if n =? 47 then Some 63
  else None.

Fixpoint encode_bytes (bs : list N) : string :=
  match bs with
  | [] => EmptyString
  | [a] =>
      String (enc (a / 4)) (String (enc (a mod 4 * 16))
        (String pad_char (String pad_char EmptyString)))
  | [a; b] =>
      String (enc (a / 4)) (String (enc (a mod 4 * 16 + b / 16))
        (String (enc (b mod 16 * 4)) (String pad_char EmptyString)))
  | a :: b :: c :: rest =>
      String (enc (a / 4)) (String (enc (a mod 4 * 16 + b / 16))
        (String (enc (b mod 16 * 4 + c / 64)) (String (enc (c mod 64))
          (encode_bytes rest))))
  end.

Fixpoint nbytes (s : string) : list N :=
  match s with
  | EmptyString => []
  | String c s' => N_of_ascii c :: nbytes s'
  end.

Fixpoint of_nbytes (bs : list N) : string :=
  match bs with
  | [] => EmptyString
  | b :: rest => String (ascii_of_N b) (of_nbytes rest)
  end.

(** [base64.standard_b64encode(data)] *)
Definition b64encode (data : string) : string := encode_bytes (nbytes data).

(** The decoder of [binascii.a2b_base64] in its default (non-strict) mode:
    characters outside the alphabet are skipped, a pad sequence that
    completes a quad ends the decoding, and a dangling partial quad is an
    error. *)
Record dstate := DState { quad_pos : N; leftchar : N; pads : N; out : list N }.

Inductive dstep : Type :=
  | Continue (st : dstate)
  | Done (st : dstate).

Definition decode_char (st : dstate) (c : ascii) : dstep :=
  if Ascii.eqb c pad_char then
    if (2 <=? quad_pos st) && (4 <=? quad_pos st + (pads st + 1))
    then Done st
    else if 2 <=? quad_pos st
         then Continue (DState (quad_pos st) (leftchar st) (pads st + 1) (out st))
         else Continue st
  else
    match dec c with
    | None => Continue st
    | Some v =>
        match quad_pos st with
        | 0 => Continue (DState 1 v 0 (out st))
        | 1 => Continue (DState 2 (v mod 16) 0 (out st ++ [leftchar st * 4 + v / 16]))
        | 2 => Continue (DState 3 (v mod 4) 0 (out st ++ [leftchar st * 16 + v / 4]))
        | _ => Continue (DState 0 0 0 (out st ++ [leftchar st * 64 + v]))
        end
    end.

Fixpoint decode_loop (st : dstate) (s : string) : result (list N) :=
  match s with
  | EmptyString =>
      if quad_pos st =? 0 then Return (out st) else Raise BinasciiError
  | String c s' =>
      match decode_char st c with
      | Done st' => Return (out st')
      | Continue st' => decode_loop st' s'
      end
  end.

(** [base64.standard_b64decode(s)] *)
Definition is_ascii (c : ascii) : bool := N_of_ascii c <? 128.

Fixpoint all_ascii (s : string) : bool :=
  match s with
  | EmptyString => true
  | String c s' => is_ascii c && all_ascii s'
  end.

(** a character that is ASCII and is neither a comma nor a double quote *)
Definition plain (c : ascii) : Prop :=
  is_ascii c = true /\ c <> ","%char /\ c <> Py.dq.

(** [base64.standard_b64decode(s)] for a [str] argument: a non-ASCII
    string is a [ValueError], otherwise the bytes go to the decoder. *)
Definition b64decode (s : string) : result string :=
  if all_ascii s then
    let* bs := decode_loop (DState 0 0 0 []) s in
    Return (of_nbytes bs)
  else Raise ValueError.

End Base64.

(** ** JSON documents (activities, actor profiles, note objects) *)

Inductive json : Type :=
  | JNull
  | JBool (b : bool)
  | JNum (n : Z)
  | JStr (s : string)
  | JArr (items : list json)
  | JObj (members : list (string * json)).

Module Json.

Fixpoint assoc (k : string) (kv : list (string * json)) : option json :=
  match kv with
  | [] => None
  | (k', v) :: rest => if String.eqb k k' then Some v else assoc k rest
  end.

(** [d.get(k)]: the value, [None] when the key is absent; only a dict has
    a [get] method. *)
Definition get (d : json) (k : string) : result json :=
  match d with
  | JObj kv => Return (default JNull (assoc k kv))
  | _ => Raise AttributeError
  end.

(** [d.get(k, dflt)] *)
Definition get_default (d : json) (k : string) (dflt : json) : result json :=
  match d with
  | JObj kv => Return (default dflt (assoc k kv))
  | _ => Raise AttributeError
  end.

(** [d[k]] for a string key [k] *)
Definition item (d : json) (k : string) : result json :=
  match d with
  | JObj kv =>
      match assoc k kv with
      | Some v => Return v
      | None => Raise (KeyError k)
      end
  | _ => Raise TypeError
  end.

(** [k in d] for a string [k]: key membership for a dict, element
    membership for a list, substring test for a str, [TypeError] otherwise *)
Fixpoint is_substring (p s : string) : bool :=
  Py.startswith p s ||
  match s with
  | EmptyString => false
  | String _ s' => is_substring p s'
  end.

Definition contains (k : string) (d : json) : result bool :=
  match d with
  | JObj kv => Return (bool_decide (is_Some (assoc k kv)))
  | JArr l => Return (existsb (fun v => match v with JStr s => String.eqb s k | _ => false end) l)
  | JStr s => Return (is_substring k s)
  | _ => Raise TypeError
  end.

(** [v == s] for a string literal [s] *)
Definition eq_str (v : json) (s : string) : bool :=
  match v with
  | JStr s' => String.eqb s' s
  | _ => false
  end.

(** the items a [for] loop over [v] visits *)
Definition iter (v : json) : result (list json) :=
  match v with
  | JArr l => Return l
  | JObj kv => Return (map (fun p => JStr (fst p)) kv)
  | JStr s => Return (map (fun c => JStr (String c EmptyString)) (list_ascii_of_string s))
  | _ => Raise TypeError
  end.

(** a value used where the code needs a [str] (a URL, a text field): any
    other value ends in an exception, rendered here as [TypeError] *)
Definition as_str (v : json) : result string :=
  match v with
  | JStr s => Return s
  | _ => Raise TypeError
  end.

(** Python truthiness of a decoded JSON value *)
Definition truthy (v : json) : bool :=
  match v with
  | JNull => false
  | JBool b => b
  | JNum n => negb (n =? 0)%Z
  | JStr s => Py.truthy s
  | JArr l => match l with [] => false | _ => true end
  | JObj kv => match kv with [] => false | _ => true end
  end.

End Json.

(** ** External collaborators

    Key objects of the [cryptography] package: a private key carries its
    [sign] method (RSA, PKCS#1 v1.5, SHA-256); a public key is one of the
    two supported classes, carrying its [verify] method ([true] when
    [verify] returns, [false] when it raises [InvalidSignature]), or a key
    of any other class. *)
Record PrivateKey : Type := { sign : string -> string }.

Inductive PublicKey : Type :=
  | RSAPublicKey (verify : string -> string -> bool)
  | Ed25519PublicKey (verify : string -> string -> bool)
  | OtherPublicKey.

(** Result of [urllib.parse.urlparse], the fields the code reads. *)
Record ParseResult : Type := { scheme : string; netloc : string; path : string }.

(** An outgoing HTTP request, as handed to [requests.post]. *)
Record Request : Type :=
  { req_url : string; req_data : option string; req_headers : gmap string string }.

(** What [requests.get] / [requests.post] yields: no response at all (a
    [RequestException]), or a response with its status and, when the body
    is JSON, the decoded body. *)
Inductive HttpResponse : Type :=
  | ConnectionFailed
  | Response (status_code : Z) (json_body : option json).

(** Everything the code obtains from outside the repository: the standard
    library and third-party packages it calls, the clock, the random
    source and the network. *)
Record Env : Type :=
  { urlparse : string -> ParseResult;
    load_pem_private_key : string -> option PrivateKey;   (* None: ValueError *)
    load_pem_public_key : string -> option PublicKey;     (* None: ValueError *)
    get_gmt_now : string;                  (* signed_requests.get_gmt_now() *)
    timezone_now : Z;                      (* django.utils.timezone.now() *)
    uuid4 : string;                        (* str(uuid.uuid4()) *)
    net_get : string -> HttpResponse;      (* requests.get(url, ...) *)
    net_post : Request -> HttpResponse;    (* requests.post(url, data, headers) *)
    json_loads : string -> option json;    (* json.loads; None: JSONDecodeError *)
    json_dumps : json -> string;           (* json.dumps *)
    strptime : string -> option Z;         (* datetime.strptime(s, '%Y-%m-%dT%H:%M:%SZ');
                                              None: ValueError *)
    strftime : Z -> string;                (* time.strftime('%Y-%m-%dT%H:%M:%SZ') *)
    py_str : json -> string;               (* str(value), as an f-string renders it *)
    timestamp : Z -> string;               (* str(time.timestamp()) *)
    mention_finditer : string -> list (string * string)
                                           (* (username, domain) groups of
                                              mention_pattern.finditer(content) *)
  }.

(** [resp.raise_for_status()] *)
Definition raise_for_status (status_code : Z) : result unit :=
  if (400 <=? status_code)%Z && (status_code <? 600)%Z
  then Raise (HTTPError status_code) else Return tt.

(** ** The database and the state monad *)

Record LocalActor : Type :=
  { la_id : nat;
    la_private_key : string;
    la_public_key : string;
    la_preferred_username : string;
    la_domain : string }.

Record RemoteActor : Type :=
  { ra_id : nat;
    ra_username : string;
    ra_domain : string;
    ra_url : string;
    ra_profile : json }.

Record Follower : Type :=
  { fo_id : nat;
    fo_remote_actor : nat;
    fo_following : nat;
    fo_follow_date : Z }.

(** A [Note] instance; [note_id] is [None] until the first [save]. *)
Record Note : Type :=
  { note_id : option nat;
    note_parent : option nat;
    note_local_actor : option nat;
    note_remote_actor : option nat;
    note_published_at : Z;
    note_updated_at : Z;
    note_content : string;
    note_content_url : string }.

(** The tables (rows in insertion order), the two many-to-many tables of
    [Note] as (note id, remote actor id) pairs, the next primary key, and
    the log of requests sent so far. *)
Record World : Type :=
  { local_actors : list LocalActor;
    remote_actors : list RemoteActor;
    followers : list Follower;
    notes : list Note;
    likes : list (nat * nat);
    announces : list (nat * nat);
    next_pk : nat;
    sent : list Request }.

Definition empty_world : World :=
  {| local_actors := []; remote_actors := []; followers := []; notes := [];
     likes := []; announces := []; next_pk := 1; sent := [] |}.

Definition M (A : Type) : Type := World -> result A * World.

Definition ret {A} (a : A) : M A := fun w => (Return a, w).
Definition raise {A} (e : exn) : M A := fun w => (Raise e, w).
Definition bind {A B} (m : M A) (k : A -> M B) : M B :=
  fun w =>
    match m w with
    | (Return a, w') => k a w'
    | (Raise e, w') => (Raise e, w')
    end.
Definition lift {A} (r : result A) : M A := fun w => (r, w).
Definition get_world : M World := fun w => (Return w, w).
Definition modify (f : World -> World) : M unit := fun w => (Return tt, f w).

(** [try: body  except <classes>: handler] *)
Definition try_except {A} (body : M A) (caught : exn -> bool) (handler : M A) : M A :=
  fun w =>
    match body w with
    | (Raise e, w') => if caught e then handler w' else (Raise e, w')
    | r => r
    end.

Notation "'let!' x ':=' m 'in' k" := (bind m (fun x => k))
  (at level 10, x pattern, m at level 100, k at level 200).

(** [for x in xs: body(x)] *)
Fixpoint for_each {A} (xs : list A) (body : A -> M unit) : M unit :=
  match xs with
  | [] => ret tt
  | x :: rest => let! _ := body x in for_each rest body
  end.

Definition set_local_actors (f : list LocalActor -> list LocalActor) (w : World) : World :=
  {| local_actors := f (local_actors w); remote_actors := remote_actors w;
     followers := followers w; notes := notes w; likes := likes w;
     announces := announces w; next_pk := next_pk w; sent := sent w |}.

Definition set_remote_actors (f : list RemoteActor -> list RemoteActor) (w : World) : World :=
  {| local_actors := local_actors w; remote_actors := f (remote_actors w);
     followers := followers w; notes := notes w; likes := likes w;
     announces := announces w; next_pk := next_pk w; sent := sent w |}.

Definition set_followers (f : list Follower -> list Follower) (w : World) : World :=
  {| local_actors := local_actors w; remote_actors := remote_actors w;
     followers := f (followers w); notes := notes w; likes := likes w;
     announces := announces w; next_pk := next_pk w; sent := sent w |}.

Definition set_notes (f : list Note -> list Note) (w : World) : World :=
  {| local_actors := local_actors w; remote_actors := remote_actors w;
     followers := followers w; notes := f (notes w); likes := likes w;
     announces := announces w; next_pk := next_pk w; sent := sent w |}.

Definition set_likes (f : list (nat * nat) -> list (nat * nat)) (w : World) : World :=
  {| local_actors := local_actors w; remote_actors := remote_actors w;
     followers := followers w; notes := notes w; likes := f (likes w);
     announces := announces w; next_pk := next_pk w; sent := sent w |}.

Definition set_announces (f : list (nat * nat) -> list (nat * nat)) (w : World) : World :=
  {| local_actors := local_actors w; remote_actors := remote_actors w;
     followers := followers w; notes := notes w; likes := likes w;
     announces := f (announces w); next_pk := next_pk w; sent := sent w |}.

Definition set_next_pk (f : nat -> nat) (w : World) : World :=
  {| local_actors := local_actors w; remote_actors := remote_actors w;
     followers := followers w; notes := notes w; likes := likes w;
     announces := announces w; next_pk := f (next_pk w); sent := sent w |}.

Definition set_sent (f : list Request -> list Request) (w : World) : World :=
  {| local_actors := local_actors w; remote_actors := remote_actors w;
     followers := followers w; notes := notes w; likes := likes w;
     announces := announces w; next_pk := next_pk w; sent := f (sent w) |}.

(** A fresh primary key. *)
Definition fresh_pk : M nat :=
  let! w := get_world in
  let! _ := modify (set_next_pk S) in
  ret (next_pk w).

(** ** [signed_requests.py] *)

Module HttpSignature.

(** [self.fields] *)
Definition t : Type := list (string * string).

Definition new : t := [].

Definition nl : string := String (ascii_of_nat 10) EmptyString.

Definition build_message (self : t) : string :=
  Py.join nl (map (fun nv => fst nv +:+ ": " +:+ snd nv) self).

Definition with_field (self : t) (field_name field_value : string) : t :=
  (self ++ [(field_name, field_value)])%list.

End HttpSignature.

Inductive validate_error : Type :=
  | MissingSignatureHeader
      (* 'Missing signature header' *)
  | DigestMismatch (digest req_digest : string)
      (* 'Digest mismatch: {digest} != {req_digest}' *)
  | MissingRequiredFields (fields : list string)
      (* 'Missing required signature fields in {fields}' *)
  | MissingDigestField
      (* 'Missing digest field' *)
  | KeyIdMismatch (expected : option string) (parsed : string)
      (* 'Key ID mismatch: expected({self.key_id}) != parsed({...})' *)
  | InvalidSignature
      (* 'Invalid signature: {f}' *)
  | UnsupportedPublicKeyType.
      (* 'Unsupported public key type: {type(self.public_key)}' *)

(** [ValidateResult]: [success=True] with an identity, or [success=False]
    with an error. *)
Inductive ValidateResult : Type :=
  | success (identity : json)
  | fail (error : validate_error).

(** [SignatureChecker]: [key_id] is [Some k] when the [id] of the
    publicKey object is the string [k], and [None] for every other value
    (a non-string never equals the parsed keyId). *)
Record SignatureChecker : Type :=
  { controller : json; key_id : option string; public_key : PublicKey }.

Section SignedRequests.

Context (E : Env).

Definition sign_message (private_key message : string) : result string :=
  let* key := or_raise ValueError (load_pem_private_key E private_key) in
  Return (Base64.b64encode (sign key message)).

(** [HttpSignature.build_signature(self, key_id, private_key)] *)
Definition HttpSignature_build_signature
    (self : HttpSignature.t) (key_id private_key : string) : result string :=
  let message := HttpSignature.build_message self in
  let* signature_string := sign_message private_key message in
  let headers := Py.join " " (map fst self) in
  let signature_parts :=
    [ "keyId=" +:+ Py.quoted key_id;
      "algorithm=" +:+ Py.quoted "rsa-sha256";
      "headers=" +:+ Py.quoted headers;
      "signature=" +:+ Py.quoted signature_string ] in
  Return (Py.join "," signature_parts).

(** [content] is [None], or a str / bytes value; [hashlib.sha256(None)]
    is a [TypeError]. *)
Definition content_digest_sha256 (content : option string) : result string :=
  match content with
  | None => Raise TypeError
  | Some c => Return ("SHA-256=" +:+ Base64.b64encode (SHA256.sha256 c))
  end.

Definition build_signature (host method target : string) : HttpSignature.t :=
  HttpSignature.with_field
    (HttpSignature.with_field HttpSignature.new
       "(request-target)" (method +:+ " " +:+ target))
    "host" host.

(** The part of [signed_post] before the network call: the header dict
    that is sent. *)
Definition signed_post_headers
    (url private_key public_key_url : string)
    (headers : option (gmap string string)) (body : option string)
    : result (gmap string string) :=
  let headers := default ∅ headers in
  let parsed_url := urlparse E url in
  let host := netloc parsed_url in
  let target := path parsed_url in
  let accept := "application/activity+json" in
  let content_type := "application/activity+json" in
  let date_header := get_gmt_now E in
  let* digest := content_digest_sha256 body in
  let* signature_header :=
    HttpSignature_build_signature
      (HttpSignature.with_field
         (HttpSignature.with_field
            (HttpSignature.with_field (build_signature host "post" target)
               "date" date_header)
            "digest" digest)
         "content-type" content_type)
      public_key_url private_key in
  let headers := <["accept" := accept]> headers in
  let headers := <["digest" := digest]> headers in
  let headers := <["date" := date_header]> headers in
  let headers := <["host" := host]> headers in
  let headers := <["content-type" := content_type]> headers in
  let headers := <["signature" := signature_header]> headers in
  let headers :=
    <["user-agent" := "shimmy's django_activitypub service - unlike mozilla"]> headers in
  Return headers.

(** [requests.post(url, data=body, headers=headers)]: the request is
    recorded in the log of sent requests; the status of the response is
    returned. *)
Definition requests_post (req : Request) : M Z :=
  let! _ := modify (set_sent (fun l => l ++ [req])%list) in
  match net_post E req with
  | ConnectionFailed => raise RequestException
  | Response status_code _ => ret status_code
  end.

Definition signed_post
    (url private_key public_key_url : string)
    (headers : option (gmap string string)) (body : option string) : M Z :=
  let! headers := lift (signed_post_headers url private_key public_key_url headers body) in
  requests_post {| req_url := url; req_data := body; req_headers := headers |}.

Definition parse_signature_header (header : string) : result (gmap string string) :=
  let parts := Py.split_char "," header in
  let headers := map (Py.split_once ("=" +:+ String Py.dq EmptyString)) parts in
  fold_left
    (fun acc x =>
       let* parsed := acc in
       let* k := Py.index x 0 in
       let* v := Py.index x 1 in
       Return (<[k := Py.remove_char Py.dq v]> parsed))
    headers (Return ∅).

(** [SignatureChecker.__init__] *)
Definition SignatureChecker_init (obj : json) : result SignatureChecker :=
  let* owner := Json.get obj "owner" in
  let* id := Json.get obj "id" in
  let* public_key := Json.get obj "publicKeyPem" in
  let* public_key :=
    match public_key with
    | JObj _ => Json.get public_key "@value"
    | _ => Return public_key
    end in
  match public_key with
  | JStr pem =>
      let* key := or_raise ValueError (load_pem_public_key E pem) in
      Return {| controller := owner;
                key_id := match id with JStr k => Some k | _ => None end;
                public_key := key |}
  | _ => Raise AttributeError
  end.

(** The request headers seen by [validate] are Django's case-insensitive
    [request.headers]: a map keyed by lower-cased names, every lookup
    lower-casing its key. *)
Definition header_in (name : string) (headers : gmap string string) : bool :=
  bool_decide (is_Some (headers !! Py.lower name)).

Definition header_item (headers : gmap string string) (name : string) : result string :=
  match headers !! Py.lower name with
  | Some v => Return v
  | None => Raise (KeyError name)
  end.

(** The two [isinstance] branches at the end of [validate]. *)
Definition verify_with (self : SignatureChecker) (signature message : string)
    : ValidateResult :=
  match public_key self with
  | RSAPublicKey verify =>
      if verify signature message then success (controller self)
      else fail InvalidSignature
  | Ed25519PublicKey verify =>
      if verify signature message then success (controller self)
      else fail InvalidSignature
  | OtherPublicKey => fail UnsupportedPublicKeyType
  end.

(** The loop [for field in fields: builder.with_field(...)] of
    [validate]. *)
Definition collect_fields (method url : string) (headers : gmap string string)
    (fields : list string) (builder : HttpSignature.t) : result HttpSignature.t :=
  fold_left
    (fun acc field =>
       let* builder := acc in
       if String.eqb field "(request-target)" then
         let parsed_url := urlparse E url in
         Return (HttpSignature.with_field builder field
                   (Py.lower method +:+ " " +:+ path parsed_url))
       else
         let* value := header_item headers field in
         Return (HttpSignature.with_field builder field value))
    fields (Return builder).

(** [validate] from [builder = HttpSignature()] on, where both branches
    of the method test meet; [digest] is the recomputed digest of a POST
    and the empty string otherwise. *)
Definition validate_signature (self : SignatureChecker) (method url : string)
    (headers : gmap string string) (digest : string) : result ValidateResult :=
  let builder := HttpSignature.new in
  let* signature_header := header_item headers "signature" in
  let* parsed := parse_signature_header signature_header in
  let* declared := Py.getitem parsed "headers" in
  let fields := Py.split_char " " declared in
  if negb (Py.contains "(request-target)" fields)
     || negb (Py.contains "date" fields) then
    Return (fail (MissingRequiredFields fields))
  else if Py.truthy digest && negb (Py.contains "digest" fields) then
    Return (fail MissingDigestField)
  else
    let* builder := collect_fields method url headers fields builder in
    let* parsed_key_id := Py.getitem parsed "keyId" in
    if negb (bool_decide (key_id self = Some parsed_key_id)) then
      Return (fail (KeyIdMismatch (key_id self) parsed_key_id))
    else
      let message := HttpSignature.build_message builder in
      let* encoded := Py.getitem parsed "signature" in
      let* signature := Base64.b64decode encoded in
      Return (verify_with self signature message).

Definition validate (self : SignatureChecker) (method url : string)
    (headers : gmap string string) (body : option string) : result ValidateResult :=
  if negb (header_in "signature" headers) then
    Return (fail MissingSignatureHeader)
  else if String.eqb (Py.lower method) "post" then
    let* digest := content_digest_sha256 body in
    let* req_digest := header_item headers "digest" in
    let req_digest := Py.upper (Py.take 4 req_digest) +:+ Py.drop 4 req_digest in
    if negb (String.eqb digest req_digest) then
      Return (fail (DigestMismatch digest req_digest))
    else validate_signature self method url headers digest
  else validate_signature self method url headers EmptyString.

End SignedRequests.

(** ** [urls.py], mounted at the root of the site *)

Module Urls.

Definition is_slug_char (c : ascii) : bool :=
  let n := nat_of_ascii c in
  ((48 <=? n)%nat && (n <=? 57)%nat) || ((65 <=? n)%nat && (n <=? 90)%nat)
  || ((97 <=? n)%nat && (n <=? 122)%nat) || (n =? 45)%nat || (n =? 95)%nat.

(** the [slug] path converter: [[-a-zA-Z0-9_]+] *)
Definition is_slug (s : string) : bool :=
  Py.truthy s && forallb is_slug_char (list_ascii_of_string s).

Record ResolverMatch : Type := { url_name : string; username : option string }.

(** [django.urls.resolve(path)] against [urlpatterns] *)
Definition resolve (path : string) : result ResolverMatch :=
  match path with
  | String "/" route =>
      if String.eqb route ".well-known/webfinger" then
        Return {| url_name := "activitypub-webfinger"; username := None |}
      else if Py.startswith "pub/" route then
        match Py.split_once "/" (Py.drop 4 route) with
        | [slug] =>
            if is_slug slug
            then Return {| url_name := "activitypub-profile"; username := Some slug |}
            else Raise Resolver404
        | [slug; tail] =>
            if negb (is_slug slug) then Raise Resolver404
            else if String.eqb tail "followers" then
              Return {| url_name := "activitypub-followers"; username := Some slug |}
            else if String.eqb tail "inbox" then
              Return {| url_name := "activitypub-inbox"; username := Some slug |}
            else if String.eqb tail "outbox" then
              Return {| url_name := "activitypub-outbox"; username := Some slug |}
            else Raise Resolver404
        | _ => Raise Resolver404
        end
      else Raise Resolver404
  | _ => Raise Resolver404
  end.

End Urls.

(** [reverse(name, kwargs={'username': username})] for the four routes
    that take a username: the path of the route, or [NoReverseMatch] when
    the [slug] converter does not match the username. *)
Definition reverse (name username : string) : result string :=
  if negb (Urls.is_slug username) then Raise NoReverseMatch
  else if String.eqb name "activitypub-profile" then
    Return ("/pub/" +:+ username)
  else if String.eqb name "activitypub-followers" then
    Return ("/pub/" +:+ username +:+ "/followers")
  else if String.eqb name "activitypub-inbox" then
    Return ("/pub/" +:+ username +:+ "/inbox")
  else if String.eqb name "activitypub-outbox" then
    Return ("/pub/" +:+ username +:+ "/outbox")
  else Raise NoReverseMatch.

(** [LocalActor.get_absolute_url] and [LocalActor.account_url] *)
Definition get_absolute_url (self : LocalActor) : result string :=
  reverse "activitypub-profile" (la_preferred_username self).

Definition account_url (self : LocalActor) : result string :=
  let* location := get_absolute_url self in
  Return ("https://" +:+ la_domain self +:+ location).

(** [Model.objects.get(...)]: exactly one row must match. *)
Definition get_one {A} (m : model) (rows : list A) (p : A -> bool) : result A :=
  match filter p rows with
  | [] => Raise (DoesNotExist m)
  | [x] => Return x
  | _ => Raise (MultipleObjectsReturned m)
  end.

Definition is_DoesNotExist (m : model) (e : exn) : bool :=
  match e, m with
  | DoesNotExist LocalActorM, LocalActorM
  | DoesNotExist RemoteActorM, RemoteActorM
  | DoesNotExist FollowerM, FollowerM
  | DoesNotExist NoteM, NoteM => true
  | _, _ => false
  end.

(** [get_object_or_404(Model, ...)] *)
Definition get_one_or_404 {A} (m : model) (rows : list A) (p : A -> bool) : result A :=
  match filter p rows with
  | [] => Raise Http404
  | [x] => Return x
  | _ => Raise (MultipleObjectsReturned m)
  end.

(** Incoming request and outgoing response of a Django view. *)
Record HttpRequest : Type :=
  { method : string;
    request_scheme : string;
    host : string;
    full_path : string;
    headers : gmap string string;
    body : string }.

Record JsonResponse : Type :=
  { status : Z; data : json; content_type : string }.

Definition json_response (data : json) (status : Z) : JsonResponse :=
  {| status := status; data := data; content_type := "application/json" |}.

(** [request.build_absolute_uri(location)] *)
Definition build_absolute_uri (request : HttpRequest) (location : option string) : string :=
  request_scheme request +:+ "://" +:+ host request +:+ default (full_path request) location.

(** ** [webfinger.py] *)

Section Webfinger.

Context (E : Env).

(** [try: body  except requests.RequestException as e:
    raise WebfingerException(e)] *)
Definition wrapping_request_errors {A} (body : result A) : result A :=
  match body with
  | Return a => Return a
  | Raise e => if is_RequestException e then Raise (WebfingerException e) else Raise e
  end.

(** [res = requests.get(url, ...); res.raise_for_status()]: the body of
    the response, decoded when it is JSON.  A URL that is no string makes
    [requests.get] raise [MissingSchema], a [RequestException]. *)
Definition get_checked (url : json) : result (option json) :=
  match url with
  | JStr u =>
      match net_get E u with
      | ConnectionFailed => Raise RequestException
      | Response status_code json_body =>
          let* _ := raise_for_status status_code in
          Return json_body
      end
  | _ => Raise RequestException
  end.

(** [res.json()] *)
Definition response_json (json_body : option json) : result json :=
  or_raise RequestsJSONDecodeError json_body.

(** [fetch_remote_profile(url)].  The function is memoised with
    [lru_cache]; against a network that answers a URL the same way every
    time the cache is not observable, except that an unhashable argument
    (a dict or a list) is a [TypeError].  The body is decoded outside the
    [try], so that what [res.json()] raises is not wrapped. *)
Definition fetch_remote_profile (url : json) : result json :=
  match url with
  | JObj _ | JArr _ => Raise TypeError
  | _ =>
      let* res := wrapping_request_errors (get_checked url) in
      response_json res
  end.

(** the generator handed to [next(..., None)]: the first link with
    [rel == 'self'] and [type == 'application/activity+json'] *)
Fixpoint first_profile_link (links : list json) : result (option json) :=
  match links with
  | [] => Return None
  | rel :: rest =>
      let* r := Json.get rel "rel" in
      if Json.eq_str r "self" then
        let* t := Json.get rel "type" in
        if Json.eq_str t "application/activity+json" then Return (Some rel)
        else first_profile_link rest
      else first_profile_link rest
  end.

Definition webfinger_url (username domain : string) : string :=
  "https://" +:+ domain +:+ "/.well-known/webfinger?resource=acct:"
    +:+ username +:+ "@" +:+ domain.

(** [finger(username, domain)]; here the body is decoded inside the
    [try]. *)
Definition finger (username domain : string) : result json :=
  let* webfinger_data :=
    wrapping_request_errors
      (let* res := get_checked (JStr (webfinger_url username domain)) in
       response_json res) in
  let* links := Json.get_default webfinger_data "links" (JArr []) in
  let* links := Json.iter links in
  let* profile_link := first_profile_link links in
  let* profile_data :=
    match profile_link with
    | Some link =>
        let* href := Json.get link "href" in
        fetch_remote_profile href
    | None => Return JNull
    end in
  Return (JObj [("webfinger", webfinger_data); ("profile", profile_data)]).

End Webfinger.

(** ** [models.py] *)

Section Models.

Context (E : Env).

Definition LocalActor_get (p : LocalActor -> bool) : M LocalActor :=
  let! w := get_world in lift (get_one LocalActorM (local_actors w) p).

Definition RemoteActor_get (p : RemoteActor -> bool) : M RemoteActor :=
  let! w := get_world in lift (get_one RemoteActorM (remote_actors w) p).

Definition Note_get (content_url : string) : M Note :=
  let! w := get_world in
  lift (get_one NoteM (notes w) (fun n => String.eqb (note_content_url n) content_url)).

(** [LocalActorManager.get_by_url] *)
Definition get_by_url (url : string) : M (option LocalActor) :=
  let parsed := urlparse E url in
  let! found := lift (Urls.resolve (path parsed)) in
  if String.eqb (Urls.url_name found) "activitypub-profile" then
    let! actor :=
      LocalActor_get (fun a =>
        bool_decide (Some (la_preferred_username a) = Urls.username found)
        && String.eqb (la_domain a) (netloc parsed)) in
    ret (Some actor)
  else ret None.

(** [LocalActor.save()] of a new actor; the freshly generated key pair is
    passed in as its two PEM texts. *)
Definition LocalActor_save_new
    (preferred_username domain private_key public_key : string) : M LocalActor :=
  let! pk := fresh_pk in
  let row := {| la_id := pk; la_private_key := private_key;
                la_public_key := public_key;
                la_preferred_username := preferred_username;
                la_domain := domain |} in
  let! _ := modify (set_local_actors (fun l => l ++ [row])%list) in
  ret row.

(** [RemoteActor.objects.create(...)]: [url] is unique and [username]
    is not nullable. *)
Definition RemoteActor_create (username : json) (domain url : string) (profile : json)
    : M RemoteActor :=
  let! w := get_world in
  match username with
  | JStr name =>
      if existsb (fun r => String.eqb (ra_url r) url) (remote_actors w)
      then raise IntegrityError
      else
        let! pk := fresh_pk in
        let row := {| ra_id := pk; ra_username := name; ra_domain := domain;
                      ra_url := url; ra_profile := profile |} in
        let! _ := modify (set_remote_actors (fun l => l ++ [row])%list) in
        ret row
  | _ => raise IntegrityError
  end.

(** [RemoteActorManager.get_or_create_with_url] *)
Definition get_or_create_with_url (url : string) : M RemoteActor :=
  try_except
    (RemoteActor_get (fun r => String.eqb (ra_url r) url))
    (is_DoesNotExist RemoteActorM)
    (let! data := lift (fetch_remote_profile E (JStr url)) in
     let parsed := urlparse E url in
     let! name := lift (Json.get data "preferredUsername") in
     RemoteActor_create name (netloc parsed) url data).

(** [RemoteActorManager.get_or_create_with_username_domain]; the result
    is [None] or an actor. *)
Definition get_or_create_with_username_domain (username domain : string)
    : M (option RemoteActor) :=
  try_except
    (let! r := RemoteActor_get (fun r =>
                 String.eqb (ra_username r) username && String.eqb (ra_domain r) domain) in
     ret (Some r))
    (is_DoesNotExist RemoteActorM)
    (let! data := lift (finger E username domain) in
     let! has_profile := lift (Json.contains "profile" data) in
     if negb has_profile then ret None
     else
       let! profile := lift (Json.item data "profile") in
       let! url := lift (Json.get profile "id") in
       match url with
       | JStr url =>
           try_except
             (let! r := RemoteActor_get (fun r => String.eqb (ra_url r) url) in
              ret (Some r))
             (is_DoesNotExist RemoteActorM)
             (let! r := RemoteActor_create (JStr username) domain url profile in
              ret (Some r))
       | _ => raise IntegrityError   (* no row has such a url, and none can be created *)
       end).

(** [Follower.objects.get_or_create(remote_actor=..., following=...)];
    the pair is covered by a unique constraint. *)
Definition Follower_get_or_create (remote_actor following : nat) : M Follower :=
  let same f := Nat.eqb (fo_remote_actor f) remote_actor
                && Nat.eqb (fo_following f) following in
  try_except
    (let! w := get_world in lift (get_one FollowerM (followers w) same))
    (is_DoesNotExist FollowerM)
    (let! w := get_world in
     if existsb same (followers w) then raise IntegrityError
     else
       let! pk := fresh_pk in
       let row := {| fo_id := pk; fo_remote_actor := remote_actor;
                     fo_following := following; fo_follow_date := timezone_now E |} in
       let! _ := modify (set_followers (fun l => l ++ [row])%list) in
       ret row).

(** [local_actor.followers.remove(remote_actor)] *)
Definition followers_remove (local_actor remote_actor : nat) : M unit :=
  modify (set_followers (filter (fun f =>
    negb (Nat.eqb (fo_following f) local_actor && Nat.eqb (fo_remote_actor f) remote_actor)))).

(** [local_actor.followers.all()]: the remote actors joined through the
    follower rows of [local_actor], in row order *)
Definition followers_all (local_actor : nat) : M (list RemoteActor) :=
  let! w := get_world in
  ret (flat_map
         (fun f =>
            if Nat.eqb (fo_following f) local_actor
            then filter (fun r => Nat.eqb (ra_id r) (fo_remote_actor f)) (remote_actors w)
            else [])
         (followers w)).

(** [note.likes.add(actor)], [note.likes.remove(actor)] and the same for
    [announces], on the rows of the many-to-many table *)
Definition m2m_add (pair : nat * nat) (rows : list (nat * nat)) : list (nat * nat) :=
  if bool_decide (pair ∈ rows) then rows else (rows ++ [pair])%list.

Definition m2m_remove (pair : nat * nat) (rows : list (nat * nat)) : list (nat * nat) :=
  filter (fun p => negb (bool_decide (p = pair))) rows.

(** [note.save()]: an insert sets both timestamps ([auto_now_add],
    [auto_now]); an update sets [updated_at] ([auto_now]). *)
Definition Note_save (note : Note) : M Note :=
  match note_id note with
  | None =>
      let! pk := fresh_pk in
      let row := {| note_id := Some pk; note_parent := note_parent note;
                    note_local_actor := note_local_actor note;
                    note_remote_actor := note_remote_actor note;
                    note_published_at := timezone_now E;
                    note_updated_at := timezone_now E;
                    note_content := note_content note;
                    note_content_url := note_content_url note |} in
      let! _ := modify (set_notes (fun l => l ++ [row])%list) in
      ret row
  | Some pk =>
      let row := {| note_id := Some pk; note_parent := note_parent note;
                    note_local_actor := note_local_actor note;
                    note_remote_actor := note_remote_actor note;
                    note_published_at := note_published_at note;
                    note_updated_at := timezone_now E;
                    note_content := note_content note;
                    note_content_url := note_content_url note |} in
      let! _ := modify (set_notes (map (fun n =>
                  if bool_decide (note_id n = Some pk) then row else n))) in
      ret row
  end.

(** [Note()] *)
Definition Note_new : Note :=
  {| note_id := None; note_parent := None; note_local_actor := None;
     note_remote_actor := None; note_published_at := 0; note_updated_at := 0;
     note_content := EmptyString; note_content_url := EmptyString |}.

(** the related objects [note.local_actor], [note.remote_actor],
    [note.parent] *)
Definition Note_local_actor (note : Note) : M (option LocalActor) :=
  match note_local_actor note with
  | None => ret None
  | Some pk =>
      let! a := LocalActor_get (fun a => Nat.eqb (la_id a) pk) in ret (Some a)
  end.

Definition Note_remote_actor (note : Note) : M (option RemoteActor) :=
  match note_remote_actor note with
  | None => ret None
  | Some pk =>
      let! a := RemoteActor_get (fun a => Nat.eqb (ra_id a) pk) in ret (Some a)
  end.

Definition Note_parent (note : Note) : M (option Note) :=
  match note_parent note with
  | None => ret None
  | Some pk =>
      let! w := get_world in
      let! p := lift (get_one NoteM (notes w)
                        (fun n => bool_decide (note_id n = Some pk))) in
      ret (Some p)
  end.

(** [parse_mentions(content)], consumed by [list(...)].  The dict
    [mentioned] is never written, so no match is skipped. *)
Definition parse_mentions (content : string) : M (list json) :=
  (fix go (keys : list (string * string)) : M (list json) :=
     match keys with
     | [] => ret []
     | key :: rest =>
         let! actor := get_or_create_with_username_domain (fst key) (snd key) in
         match actor with
         | None => raise AttributeError
         | Some a =>
             let mention :=
               JObj [("type", JStr "Mention"); ("href", JStr (ra_url a));
                     ("name", JStr (fst key +:+ "@" +:+ snd key))] in
             let! more := go rest in
             ret (mention :: more)
         end
     end) (mention_finditer E content).

(** [Note.as_json(base_uri)] *)
Definition Note_as_json (self : Note) (base_uri : string) : M json :=
  let! local_actor := Note_local_actor self in
  let! attributed :=
    match local_actor with
    | Some a =>
        let! location := lift (get_absolute_url a) in
        ret (base_uri +:+ location)
    | None =>
        let! remote_actor := Note_remote_actor self in
        match remote_actor with
        | Some r => ret (ra_url r)
        | None => raise AttributeError
        end
    end in
  let published := strftime E (note_published_at self) in
  let! tags := parse_mentions (note_content self) in
  let data :=
    [("type", JStr "Note"); ("id", JStr (note_content_url self));
     ("published", JStr published); ("attributedTo", JStr attributed);
     ("content", JStr (note_content self)); ("tags", JArr tags);
     ("to", JStr "https://www.w3.org/ns/activitystreams#Public")] in
  let! parent := Note_parent self in
  match parent with
  | Some p => ret (JObj (data ++ [("inReplyTo", JStr (note_content_url p))])%list)
  | None => ret (JObj data)
  end.

(** [signed_post(profile.get('inbox'), ...)]: the URL read from a profile
    document need not be a string; for any other value the headers are
    still computed and [requests.post] then raises [MissingSchema], a
    [RequestException]. *)
Definition signed_post_to (inbox : json) (private_key public_key_url : string)
    (body : option string) : M Z :=
  match inbox with
  | JStr url => signed_post E url private_key public_key_url None body
  | _ =>
      let! _ := lift (signed_post_headers E EmptyString private_key public_key_url
                        None body) in
      raise RequestException
  end.

(** the delivery loop shared by the three fan-out functions:
    [for follower in note.local_actor.followers.all(): signed_post(...);
     resp.raise_for_status()] *)
Definition deliver_to_followers (actor : LocalActor) (actor_url : string) (msg : json)
    : M unit :=
  let! all := followers_all (la_id actor) in
  for_each all (fun follower =>
    let! inbox := lift (Json.get (ra_profile follower) "inbox") in
    let body := Some (json_dumps E msg) in
    let! status_code :=
      signed_post_to inbox (la_private_key actor) (actor_url +:+ "#main-key") body in
    lift (raise_for_status status_code)).

Definition send_create_note_to_followers (base_url : string) (note : Note) : M unit :=
  let! local_actor := Note_local_actor note in
  match local_actor with
  | None => raise AttributeError
  | Some actor =>
      let! location := lift (get_absolute_url actor) in
      let actor_url := base_url +:+ location in
      let! object := Note_as_json note base_url in
      let create_msg :=
        JObj [("@context", JArr [JStr "https://www.w3.org/ns/activitystreams";
                                 JStr "https://w3id.org/security/v1"]);
              ("type", JStr "Create");
              ("id", JStr (base_url +:+ "/" +:+ uuid4 E));
              ("actor", JStr actor_url);
              ("object", object)] in
      deliver_to_followers actor actor_url create_msg
  end.

Definition send_update_note_to_followers (base_url : string) (note : Note) : M unit :=
  let! local_actor := Note_local_actor note in
  match local_actor with
  | None => raise AttributeError
  | Some actor =>
      let! location := lift (get_absolute_url actor) in
      let actor_url := base_url +:+ location in
      let! object := Note_as_json note base_url in
      let update_msg :=
        JObj [("@context", JArr [JStr "https://www.w3.org/ns/activitystreams"]);
              ("type", JStr "Update");
              ("id", JStr (note_content_url note +:+ "#updates/"
                             +:+ timestamp E (note_updated_at note)));
              ("actor", JStr actor_url);
              ("object", object);
              ("published", JStr (strftime E (note_published_at note)))] in
      deliver_to_followers actor actor_url update_msg
  end.

Definition send_delete_note_to_followers (base_url : string) (note : Note) : M unit :=
  let! local_actor := Note_local_actor note in
  match local_actor with
  | None => raise AttributeError
  | Some actor =>
      let! location := lift (get_absolute_url actor) in
      let actor_url := base_url +:+ location in
      let delete_msg :=
        JObj [("@context", JArr [JStr "https://www.w3.org/ns/activitystreams"]);
              ("type", JStr "Delete");
              ("actor", JStr actor_url);
              ("object", JObj [("id", JStr (note_content_url note));
                               ("type", JStr "Tombstone")])] in
      deliver_to_followers actor actor_url delete_msg
  end.

(** [NoteManager.upsert] *)
Definition upsert (base_uri : string) (local_actor : LocalActor)
    (content content_url : string) : M Note :=
  try_except
    (let! note := Note_get content_url in
     let note := {| note_id := note_id note; note_parent := note_parent note;
                    note_local_actor := note_local_actor note;
                    note_remote_actor := note_remote_actor note;
                    note_published_at := note_published_at note;
                    note_updated_at := timezone_now E;
                    note_content := content;
                    note_content_url := note_content_url note |} in
     let! note := Note_save note in
     let! _ := send_update_note_to_followers base_uri note in
     ret note)
    (is_DoesNotExist NoteM)
    (let! note := Note_save
                    {| note_id := None; note_parent := None;
                       note_local_actor := Some (la_id local_actor);
                       note_remote_actor := None;
                       note_published_at := 0; note_updated_at := 0;
                       note_content := content; note_content_url := content_url |} in
     let! _ := send_create_note_to_followers base_uri note in
     ret note).

(** [NoteManager.delete_local] *)
Definition delete_local (base_uri content_url : string) : M unit :=
  try_except
    (let! note := Note_get content_url in
     send_delete_note_to_followers base_uri note)
    (is_DoesNotExist NoteM)
    (ret tt).

(** [get_object(url)]: nothing is caught *)
Definition get_object (url : json) : result json :=
  let* res := get_checked E url in
  response_json res.

(** [NoteManager.upsert_remote].  The recursion on the parent chain has
    no guard in the source; [depth] stands for the interpreter's
    recursion limit. *)
Fixpoint upsert_remote (depth : nat) (base_uri : string) (obj : json) : M Note :=
  match depth with
  | O => raise RecursionError
  | S depth' =>
      let! id := lift (Json.item obj "id") in
      let! full_obj := lift (get_object id) in
      let! note :=
        try_except
          (let! full_id := lift (Json.item full_obj "id") in
           let! full_id := lift (Json.as_str full_id) in
           Note_get full_id)
          (is_DoesNotExist NoteM)
          (ret Note_new) in
      let! attributed := lift (Json.item full_obj "attributedTo") in
      let! attributed := lift (Json.as_str attributed) in
      let! remote_actor := get_or_create_with_url attributed in
      let! published := lift (Json.item full_obj "published") in
      let! published := lift (Json.as_str published) in
      let! published_at := lift (or_raise ValueError (strptime E published)) in
      let! updated := lift (Json.get_default full_obj "updated" JNull) in
      let! updated_at :=
        if Json.truthy updated then
          let! updated := lift (Json.as_str updated) in
          lift (or_raise ValueError (strptime E updated))
        else ret (note_updated_at note) in
      let! content := lift (Json.item full_obj "content") in
      let! content := lift (Json.as_str content) in
      let! content_url := lift (Json.item obj "id") in
      let! content_url := lift (Json.as_str content_url) in
      let! reply_url := lift (Json.get_default full_obj "inReplyTo" JNull) in
      let! parent :=
        if Json.truthy reply_url then
          match reply_url with
          | JStr reply =>
              if Py.startswith base_uri reply then
                let! p := Note_get reply in ret (note_id p)
              else
                let! parent_obj := lift (get_object reply_url) in
                let! p := upsert_remote depth' base_uri parent_obj in
                ret (note_id p)
          | _ => raise AttributeError
          end
        else ret (note_parent note) in
      Note_save {| note_id := note_id note; note_parent := parent;
                   note_local_actor := note_local_actor note;
                   note_remote_actor := Some (ra_id remote_actor);
                   note_published_at := published_at;
                   note_updated_at := updated_at;
                   note_content := content;
                   note_content_url := content_url |}
  end.

End Models.

(** ** [views.py]: the inbox *)

Section Views.

Context (E : Env).

Definition error_response (msg : string) (status : Z) : JsonResponse :=
  json_response (JObj [("error", JStr msg)]) status.

(** [validate_post_request(request, activity)]: [Some response] when the
    request is turned down, [None] when it passed. *)
Definition validate_post_request (request : HttpRequest) (activity : json)
    : M (option JsonResponse) :=
  if negb (String.eqb (method request) "POST") then
    raise (PlainException "Invalid method")
  else
    let! has_actor := lift (Json.contains "actor" activity) in
    if negb has_actor then
      ret (Some (error_response ("no actor in activity: " +:+ py_str E activity) 400))
    else
      let! actor := lift (Json.item activity "actor") in
      match fetch_remote_profile E actor with
      | Raise (WebfingerException cause) =>
          match cause with
          | HTTPError status_code =>
              if (status_code =? 410)%Z then
                let! type := lift (Json.item activity "type") in
                if Json.eq_str type "Delete"
                then ret (Some (json_response (JObj []) 410))
                else ret (Some (error_response "validate - error fetching remote profile" 401))
              else ret (Some (error_response "validate - error fetching remote profile" 401))
          | _ => raise AttributeError   (* e.error.response is None *)
          end
      | Raise e => raise e
      | Return actor_data =>
          let! public_key := lift (Json.get actor_data "publicKey") in
          let! checker := lift (SignatureChecker_init E public_key) in
          let! result :=
            lift (validate E checker (Py.lower (method request))
                    (build_absolute_uri request None) (headers request)
                    (Some (body request))) in
          match result with
          | success _ => ret None
          | fail _ => ret (Some (error_response "invalid signature" 401))
          end
      end.

(** the filter [preferred_username=username] *)
Definition named (username : string) (a : LocalActor) : bool :=
  String.eqb (la_preferred_username a) username.

Definition ok_response : JsonResponse :=
  {| status := 200; data := JObj [("ok", JBool true)];
     content_type := "application/activity+json" |}.

(** the [Follow] branch from [Follower.objects.get_or_create] on: the
    edge, then the signed [Accept] sent back to the follower *)
Definition inbox_follow_accept (request : HttpRequest) (actor : LocalActor)
    (activity : json) (remote_actor : RemoteActor) : M JsonResponse :=
  let! _ := Follower_get_or_create E (ra_id remote_actor) (la_id actor) in
  let! location :=
    lift (reverse "activitypub-profile" (la_preferred_username actor)) in
  let profile_url := build_absolute_uri request (Some location) in
  let accept_data :=
    JObj [("@context", JArr [JStr "https://www.w3.org/ns/activitystreams";
                             JStr "https://w3id.org/security/v1"]);
          ("id", JStr (build_absolute_uri request (Some ("/" +:+ uuid4 E))));
          ("type", JStr "Accept");
          ("actor", JStr profile_url);
          ("object", activity)] in
  let! inbox_url := lift (Json.get (ra_profile remote_actor) "inbox") in
  let body := Some (json_dumps E accept_data) in
  let! status_code :=
    signed_post_to E inbox_url (la_private_key actor) (profile_url +:+ "#main-key") body in
  let! _ := lift (raise_for_status status_code) in
  ret ok_response.

(** the [Follow] branch *)
Definition inbox_follow (request : HttpRequest) (actor : LocalActor) (activity : json)
    : M JsonResponse :=
  let! object := lift (Json.item activity "object") in
  let! object_url := lift (Json.as_str object) in
  let! local_actor := get_by_url E object_url in
  match local_actor with
  | None => raise AttributeError
  | Some local_actor =>
      if negb (Nat.eqb (la_id local_actor) (la_id actor)) then
        ret (error_response
               ("follow object does not match actor: " +:+ py_str E object) 400)
      else
        let! actor_url := lift (Json.item activity "actor") in
        let! actor_url := lift (Json.as_str actor_url) in
        let! remote_actor := get_or_create_with_url E actor_url in
        inbox_follow_accept request actor activity remote_actor
  end.

Definition note_or_404 (content_url : json) : M Note :=
  let! url := lift (Json.as_str content_url) in
  let! w := get_world in
  lift (get_one_or_404 NoteM (notes w)
          (fun n => String.eqb (note_content_url n) url)).

Definition remote_actor_or_404 (url : json) : M RemoteActor :=
  let! url := lift (Json.as_str url) in
  let! w := get_world in
  lift (get_one_or_404 RemoteActorM (remote_actors w)
          (fun r => String.eqb (ra_url r) url)).

(** the [Like] and [Announce] branches *)
Definition inbox_react (table : (list (nat * nat) -> list (nat * nat)) -> World -> World)
    (activity : json) : M JsonResponse :=
  let! object := lift (Json.item activity "object") in
  let! note := note_or_404 object in
  let! actor_url := lift (Json.item activity "actor") in
  let! actor_url := lift (Json.as_str actor_url) in
  let! remote_actor := get_or_create_with_url E actor_url in
  let! _ := modify (table (m2m_add (default 0 (note_id note), ra_id remote_actor))) in
  ret ok_response.

(** the [Undo] branch *)
Definition inbox_undo (actor : LocalActor) (activity : json) : M JsonResponse :=
  let! to_undo := lift (Json.item activity "object") in
  let! type := lift (Json.item to_undo "type") in
  if Json.eq_str type "Follow" then
    let! object := lift (Json.item to_undo "object") in
    let! object_url := lift (Json.as_str object) in
    let! local_actor := get_by_url E object_url in
    match local_actor with
    | None => raise AttributeError
    | Some local_actor =>
        if negb (Nat.eqb (la_id local_actor) (la_id actor)) then
          ret (error_response
                 ("undo follow object does not match actor: " +:+ py_str E object) 400)
        else
          let! actor_url := lift (Json.item to_undo "actor") in
          let! remote_actor := remote_actor_or_404 actor_url in
          let! _ := followers_remove (la_id local_actor) (ra_id remote_actor) in
          ret ok_response
    end
  else if Json.eq_str type "Like" then
    let! object := lift (Json.item to_undo "object") in
    let! note := note_or_404 object in
    let! actor_url := lift (Json.item to_undo "actor") in
    let! remote_actor := remote_actor_or_404 actor_url in
    let! _ := modify (set_likes
                (m2m_remove (default 0 (note_id note), ra_id remote_actor))) in
    ret ok_response
  else if Json.eq_str type "Announce" then
    let! object := lift (Json.item to_undo "object") in
    let! note := note_or_404 object in
    let! actor_url := lift (Json.item to_undo "actor") in
    let! remote_actor := remote_actor_or_404 actor_url in
    let! _ := modify (set_announces
                (m2m_remove (default 0 (note_id note), ra_id remote_actor))) in
    ret ok_response
  else
    ret (error_response ("unsupported undo type: " +:+ py_str E type) 400).

(** the [if]/[elif] chain on [activity['type']] *)
Definition inbox_dispatch (depth : nat) (request : HttpRequest) (actor : LocalActor)
    (activity : json) : M JsonResponse :=
  let! type := lift (Json.item activity "type") in
  if Json.eq_str type "Follow" then inbox_follow request actor activity
  else if Json.eq_str type "Like" then inbox_react set_likes activity
  else if Json.eq_str type "Announce" then inbox_react set_announces activity
  else if Json.eq_str type "Create" then
    let base_uri := request_scheme request +:+ "://" +:+ host request in
    let! object := lift (Json.item activity "object") in
    let! id := lift (Json.item object "id") in
    match id with
    | JStr id_str =>
        if Py.startswith base_uri id_str then ret ok_response
        else
          let! _ := upsert_remote E depth base_uri object in
          ret ok_response
    | _ => raise AttributeError
    end
  else if Json.eq_str type "Undo" then inbox_undo actor activity
  else if Json.eq_str type "Delete" then ret ok_response
  else
    ret (error_response ("unsupported activity type: " +:+ py_str E type) 400).

(** [inbox(request, username)]; [depth] bounds the recursion of
    [upsert_remote]. *)
Definition inbox (depth : nat) (request : HttpRequest) (username : string)
    : M JsonResponse :=
  if String.eqb (method request) "POST" then
    let! activity := lift (or_raise JSONDecodeError (json_loads E (body request))) in
    let! validate_resp := validate_post_request request activity in
    match validate_resp with
    | Some resp => ret resp
    | None =>
        let! found :=
          try_except
            (let! actor := LocalActor_get (named username) in
             ret (Some actor))
            (is_DoesNotExist LocalActorM)
            (ret None) in
        match found with
        | None => ret (json_response (JObj []) 404)
        | Some actor => inbox_dispatch depth request actor activity
        end
    end
  else ret (json_response (JObj []) 405).

(** What Django makes of a view that raises: an [Http404], the
    [Resolver404] of [resolve] included, becomes a 404 response, any other
    exception a 500 response. *)
Definition respond (outcome : result JsonResponse) : JsonResponse :=
  match outcome with
  | Return resp => resp
  | Raise e =>
      if is_Http404 e then json_response (JObj []) 404
      else json_response (JObj []) 500
  end.

End Views.

(** ** Fixtures: stand-ins for the external collaborators, used to run the
    code on concrete inputs *)

Module Fixture.

Fixpoint span (stop : ascii -> bool) (s : string) : string * string :=
  match s with
  | EmptyString => (EmptyString, EmptyString)
  | String c s' =>
      if stop c then (EmptyString, s)
      else let (a, b) := span stop s' in (String c a, b)
  end.

(** [urlparse] for URLs of the shape scheme://netloc/path?query#fragment *)
Definition simple_urlparse (url : string) : ParseResult :=
  let after_path (c : ascii) := Ascii.eqb c "?" || Ascii.eqb c "#" in
  match Py.find_sep "://" url with
  | Some (sch, rest) =>
      let (loc, tail) := span (fun c => Ascii.eqb c "/" || after_path c) rest in
      {| scheme := sch; netloc := loc; path := fst (span after_path tail) |}
  | None =>
      {| scheme := EmptyString; netloc := EmptyString;
         path := fst (span after_path url) |}
  end.

(** a toy signature scheme: the signature of a message is the message
    behind a fixed tag, and verification recomputes it *)
Definition rsa_private_key : PrivateKey := {| sign := fun message => "signed:" +:+ message |}.

Definition rsa_verify (signature message : string) : bool :=
  String.eqb signature ("signed:" +:+ message).

Definition rsa_public_key : PublicKey := RSAPublicKey rsa_verify.

Definition env (get : string -> HttpResponse) (post : Request -> HttpResponse)
    (loads : string -> option json) : Env :=
  {| urlparse := simple_urlparse;
     load_pem_private_key := fun _ => Some rsa_private_key;
     load_pem_public_key := fun _ => Some rsa_public_key;
     get_gmt_now := "Wed, 04 Nov 2026 07:00:00 GMT";
     timezone_now := 1793775600;
     uuid4 := "0f8fad5b-d9cb-469f-a165-70867728950e";
     net_get := get;
     net_post := post;
     json_loads := loads;
     json_dumps := fun _ => "{}";
     strptime := fun _ => Some 0%Z;
     strftime := fun _ => "1970-01-01T00:00:00Z";
     py_str := fun _ => "?";
     timestamp := fun _ => "0.0";
     mention_finditer := fun _ => [] |}.

Definition offline : Env :=
  env (fun _ => ConnectionFailed) (fun _ => ConnectionFailed) (fun _ => None).

Definition checker (kid : string) : SignatureChecker :=
  {| controller := JStr "https://remote.example/users/alice";
     key_id := Some kid; public_key := rsa_public_key |}.

Definition inbox_url : string := "https://local.example/pub/bob/inbox".
Definition alice_key : string := "https://remote.example/users/alice#main-key".
Definition mallory_key : string := "https://remote.example/users/mallory#main-key".

(** A POST to [inbox_url] that declares the key id [kid] and carries the
    digest header [digest_header], signed with [rsa_private_key] over
    exactly the header values it carries: the signature text, the
    Signature header, what the header parses to, and the header dict. *)
Definition request_signature (digest_header : string) : string :=
  Base64.b64encode
    (sign rsa_private_key
       (HttpSignature.build_message
          [("(request-target)", "post /pub/bob/inbox"); ("host", "local.example");
           ("date", "Wed, 04 Nov 2026 07:00:00 GMT"); ("digest", digest_header);
           ("content-type", "application/activity+json")])).

Definition request_signature_header (kid digest_header : string) : string :=
  Py.join ","
    ["keyId=" +:+ Py.quoted kid; "algorithm=" +:+ Py.quoted "rsa-sha256";
     "headers=" +:+ Py.quoted "(request-target) host date digest content-type";
     "signature=" +:+ Py.quoted (request_signature digest_header)].

Definition request_parsed (kid digest_header : string) : gmap string string :=
  <["signature" := request_signature digest_header]>
    (<["headers" := "(request-target) host date digest content-type"]>
       (<["algorithm" := "rsa-sha256"]> (<["keyId" := kid]> ∅))).

Definition request_headers (kid digest_header : string) : gmap string string :=
  <["signature" := request_signature_header kid digest_header]>
    (<["digest" := digest_header]>
       (<["date" := "Wed, 04 Nov 2026 07:00:00 GMT"]>
          (<["host" := "local.example"]>
             (<["content-type" := "application/activity+json"]> ∅)))).

(** a network that serves the given JSON documents and answers 404 for
    every other URL *)
Definition net (pages : list (string * json)) (url : string) : HttpResponse :=
  match Json.assoc url pages with
  | Some doc => Response 200 (Some doc)
  | None => Response 404 None
  end.

Definition no_post : Request -> HttpResponse := fun _ => ConnectionFailed.

(** every delivery is accepted *)
Definition accepting : Request -> HttpResponse := fun _ => Response 202 None.

(** a local actor, a remote actor with its profile document, and a note
    written by the local actor *)
Definition bob : LocalActor :=
  {| la_id := 1; la_private_key := "pem"; la_public_key := "pub";
     la_preferred_username := "bob"; la_domain := "local.example" |}.

Definition alice_url : string := "https://remote.example/users/alice".

Definition alice_profile : json :=
  JObj [("id", JStr alice_url); ("preferredUsername", JStr "alice");
        ("inbox", JStr "https://remote.example/users/alice/inbox");
        ("publicKey", JObj [("id", JStr alice_key); ("owner", JStr alice_url);
                            ("publicKeyPem", JStr "pem")])].

Definition alice : RemoteActor :=
  {| ra_id := 2; ra_username := "alice"; ra_domain := "remote.example";
     ra_url := alice_url; ra_profile := alice_profile |}.

Definition bob_note : Note :=
  {| note_id := Some 3; note_parent := None; note_local_actor := Some 1;
     note_remote_actor := None; note_published_at := 5; note_updated_at := 5;
     note_content := "hello"; note_content_url := "https://local.example/notes/1" |}.

(** bob and alice know each other, alice does not follow bob *)
Definition acquainted : World :=
  {| local_actors := [bob]; remote_actors := [alice]; followers := []; notes := [];
     likes := []; announces := []; next_pk := 3; sent := [] |}.

(** the same with bob's note stored *)
Definition with_note : World :=
  {| local_actors := [bob]; remote_actors := [alice]; followers := [];
     notes := [bob_note]; likes := []; announces := []; next_pk := 4; sent := [] |}.

(** a request to bob's inbox with the given body, signed by alice *)
Definition inbox_request (body : string) : HttpRequest :=
  {| method := "POST"; request_scheme := "https"; host := "local.example";
     full_path := "/pub/bob/inbox";
     headers := request_headers alice_key
                  ("SHA-256=" +:+ Base64.b64encode (SHA256.sha256 body));
     body := body |}.

(** only bob is known *)
Definition strangers : World :=
  {| local_actors := [bob]; remote_actors := []; followers := []; notes := [];
     likes := []; announces := []; next_pk := 2; sent := [] |}.

(** alice follows bob *)
Definition follow : json :=
  JObj [("type", JStr "Follow"); ("actor", JStr alice_url);
        ("object", JStr "https://local.example/pub/bob")].

(** alice undoes a Follow of bob *)
Definition undo_follow : json :=
  JObj [("type", JStr "Undo"); ("actor", JStr alice_url);
        ("object", JObj [("type", JStr "Follow"); ("actor", JStr alice_url);
                         ("object", JStr "https://local.example/pub/bob")])].

(** alice announces a note; the document served under the id of the note
    names bob's note as its id *)
Definition create_note : json :=
  JObj [("type", JStr "Create"); ("actor", JStr alice_url);
        ("object", JObj [("id", JStr "https://remote.example/notes/9")])].

Definition served_note : json :=
  JObj [("id", JStr "https://local.example/notes/1"); ("attributedTo", JStr alice_url);
        ("published", JStr "2026-11-04T07:00:00Z"); ("content", JStr "hijacked")].

(** the environment of the examples: alice's profile and the note document
    are served, deliveries are accepted, and a request body is one of three
    fixed texts *)
Definition federation : Env :=
  env (net [(alice_url, alice_profile);
            ("https://remote.example/notes/9", served_note);
            (webfinger_url "foo" "example.com", JObj [("links", JArr [])])])
      accepting
      (fun text =>
         if String.eqb text "follow" then Some follow
         else if String.eqb text "undo-follow" then Some undo_follow
         else if String.eqb text "create-note" then Some create_note
         else None).

End Fixture.

(** A [validate] outcome that is the digest-mismatch failure. *)
Definition is_digest_mismatch (r : result ValidateResult) : Prop :=
  exists digest req_digest, r = Return (fail (DigestMismatch digest req_digest)).

(** The value [validate] compares with the recomputed digest: the digest
    header with its first four characters upper-cased. *)
Definition normalized_digest (req_digest : string) : string :=
  Py.upper (Py.take 4 req_digest) +:+ Py.drop 4 req_digest.

(** Every lookup that [validate] makes before it compares the key ids
    finds its key: the digest header and a body on a POST, the [headers]
    parameter of the Signature header, and a request header for each
    declared field other than the pseudo-header. *)
Definition lookups_succeed (method : string) (hs : gmap string string)
    (body : option string) (parsed : gmap string string) : Prop :=
  (Py.lower method = "post" -> is_Some (hs !! "digest") /\ is_Some body)
  /\ exists declared,
       parsed !! "headers" = Some declared
       /\ Forall (fun f => f = "(request-target)" \/ is_Some (hs !! Py.lower f))
            (Py.split_char " " declared).

(** ** States of the store *)

(** At most one follower row per (remote actor, local actor) pair. *)
Definition follower_pair (f : Follower) : nat * nat :=
  (fo_remote_actor f, fo_following f).

Definition follower_unique (w : World) : Prop :=
  NoDup (map follower_pair (followers w)).

(** The follower rows of the pair ([remote], [local]). *)
Definition edges (remote local : nat) (w : World) : list Follower :=
  filter (fun f => Nat.eqb (fo_remote_actor f) remote && Nat.eqb (fo_following f) local)
         (followers w).

(** The stored notes whose content URL is [u]. *)
Definition notes_at (u : string) (w : World) : list Note :=
  filter (fun n => String.eqb (note_content_url n) u) (notes w).

(** Every stored note has a primary key, below the next one to be issued. *)
Definition notes_keyed (w : World) : Prop :=
  Forall (fun n => exists i, note_id n = Some i /\ i < next_pk w) (notes w).

(** The body of [request] decodes to a [Follow] activity whose actor is
    [actor_url]. *)
Definition is_follow_from (E : Env) (request : HttpRequest) (actor_url : string) : Prop :=
  exists activity,
    json_loads E (body request) = Some activity
    /\ Json.item activity "type" = Return (JStr "Follow")
    /\ Json.item activity "actor" = Return (JStr actor_url).

(** An exception other than [Note.DoesNotExist], and a call that raises
    none. *)
Definition not_note_miss (e : exn) : Prop := is_DoesNotExist NoteM e = false.

Definition never_note_miss {A} (r : result A) : Prop :=
  forall e, r = Raise e -> not_note_miss e.

(** The row a first [upsert] stores and the row a later one turns it into *)
Definition created_note (E : Env) (local_actor : LocalActor) (content content_url : string)
    (w : World) : Note :=
  {| note_id := Some (next_pk w); note_parent := None;
     note_local_actor := Some (la_id local_actor); note_remote_actor := None;
     note_published_at := timezone_now E; note_updated_at := timezone_now E;
     note_content := content; note_content_url := content_url |}.

Definition updated_note (E : Env) (content : string) (n : Note) : Note :=
  {| note_id := note_id n; note_parent := note_parent n;
     note_local_actor := note_local_actor n; note_remote_actor := note_remote_actor n;
     note_published_at := note_published_at n; note_updated_at := timezone_now E;
     note_content := content; note_content_url := note_content_url n |}.

(** the two branches of [upsert] *)
Definition create_branch (E : Env) (base_uri : string) (local_actor : LocalActor)
    (content content_url : string) : M Note :=
  let! note := Note_save E
                 {| note_id := None; note_parent := None;
                    note_local_actor := Some (la_id local_actor);
                    note_remote_actor := None;
                    note_published_at := 0; note_updated_at := 0;
                    note_content := content; note_content_url := content_url |} in
  let! _ := send_create_note_to_followers E base_uri note in
  ret note.

Definition update_branch (E : Env) (base_uri content : string) (found : Note) : M Note :=
  let! note := Note_save E (updated_note E content found) in
  let! _ := send_update_note_to_followers E base_uri note in
  ret note.

(** What can happen to the store: a request to an inbox, a call of one of
    the managers by the hosting application, the creation of a local
    actor; each in an environment of its own. *)
Inductive operation : Type :=
  | OpInbox (E : Env) (depth : nat) (request : HttpRequest) (username : string)
  | OpUpsert (E : Env) (base_uri : string) (local_actor : LocalActor)
      (content content_url : string)
  | OpDeleteLocal (E : Env) (base_uri content_url : string)
  | OpUpsertRemote (E : Env) (depth : nat) (base_uri : string) (obj : json)
  | OpResolveUrl (E : Env) (url : string)
  | OpResolveHandle (E : Env) (username domain : string)
  | OpNewLocalActor (preferred_username domain private_key public_key : string).

Definition run (o : operation) (w : World) : World :=
  match o with
  | OpInbox E depth request username => snd (inbox E depth request username w)
  | OpUpsert E base_uri local_actor content content_url =>
      snd (upsert E base_uri local_actor content content_url w)
  | OpDeleteLocal E base_uri content_url => snd (delete_local E base_uri content_url w)
  | OpUpsertRemote E depth base_uri obj => snd (upsert_remote E depth base_uri obj w)
  | OpResolveUrl E url => snd (get_or_create_with_url E url w)
  | OpResolveHandle E username domain =>
      snd (get_or_create_with_username_domain E username domain w)
  | OpNewLocalActor preferred_username domain private_key public_key =>
      snd (LocalActor_save_new preferred_username domain private_key public_key w)
  end.

Inductive reachable : World -> Prop :=
  | reachable_empty : reachable empty_world
  | reachable_run (o : operation) (w : World) : reachable w -> reachable (run o w).

(** [safe I X m]: the computation [m] keeps the property [I] of the store
    and raises only exceptions that satisfy [X]. *)
Definition safe {A} (I : World -> Prop) (X : exn -> Prop) (m : M A) : Prop :=
  forall w, I w ->
    I (snd (m w)) /\ forall e, fst (m w) = Raise e -> X e.

(** What [signed_post] puts on the wire for a body [b]: the digest, the
    five signed fields in their order, and the Signature header. *)
Section SignedValues.

Context (E : Env).

Definition signed_digest (b : string) : string :=
  "SHA-256=" +:+ Base64.b64encode (SHA256.sha256 b).

Definition signed_fields (url b : string) : HttpSignature.t :=
  [("(request-target)", "post " +:+ path (urlparse E url));
   ("host", netloc (urlparse E url));
   ("date", get_gmt_now E);
   ("digest", signed_digest b);
   ("content-type", "application/activity+json")].

Definition signed_signature_header (sk : PrivateKey) (url kid b : string) : string :=
  Py.join ","
    ["keyId=" +:+ Py.quoted kid;
     "algorithm=" +:+ Py.quoted "rsa-sha256";
     "headers=" +:+ Py.quoted "(request-target) host date digest content-type";
     "signature=" +:+
       Py.quoted (Base64.b64encode
                    (sign sk (HttpSignature.build_message (signed_fields url b))))].

End SignedValues.

(** ** What a successful verification rests on *)

(** The key accepts the signature: its [verify] returned without raising
    [InvalidSignature]; a key of an unsupported class accepts nothing. *)
Definition key_accepts (pk : PublicKey) (signature message : string) : Prop :=
  match pk with
  | RSAPublicKey verify => verify signature message = true
  | Ed25519PublicKey verify => verify signature message = true
  | OtherPublicKey => False
  end.

(** The value [validate] signs a declared field with: the lower-cased
    method and the path for the pseudo-header, the request header of that
    name for every other field. *)
Definition field_value (E : Env) (method url : string) (hs : gmap string string)
    (field : string) : option string :=
  if String.eqb field "(request-target)"
  then Some (Py.lower method +:+ " " +:+ path (urlparse E url))
  else hs !! Py.lower field.

(** The separator of a Signature header parameter, and the seven headers
    [signed_post] sets. *)
Definition parameter_separator : string := "=" +:+ String Py.dq EmptyString.

Definition signed_post_header_names : list string :=
  ["accept"; "digest"; "date"; "host"; "content-type"; "signature"; "user-agent"].

(** ** More of [models.py] *)

(** The filter [preferred_username=username, domain=domain] *)
Definition named_at (username domain : string) (a : LocalActor) : bool :=
  String.eqb (la_preferred_username a) username && String.eqb (la_domain a) domain.

(** ** Deliveries *)

(** Two states hold the same rows in every table; the log of sent
    requests may differ. *)
Definition same_tables (w w' : World) : Prop :=
  local_actors w' = local_actors w /\ remote_actors w' = remote_actors w
  /\ followers w' = followers w /\ notes w' = notes w /\ likes w' = likes w
  /\ announces w' = announces w /\ next_pk w' = next_pk w.

(** The request that the delivery loop of the fan-out functions sends to
    one follower: a signed POST of [body] to the [inbox] of its profile.
    [None] when the profile names no inbox or the request cannot be
    signed. *)
Definition delivery (E : Env) (private_key public_key_url body : string)
    (follower : RemoteActor) : option Request :=
  match Json.get (ra_profile follower) "inbox" with
  | Return (JStr inbox) =>
      match signed_post_headers E inbox private_key public_key_url None (Some body) with
      | Return hs => Some {| req_url := inbox; req_data := Some body; req_headers := hs |}
      | Raise _ => None
      end
  | _ => None
  end.

(** The receiving server answered, and [raise_for_status] lets the
    answer pass. *)
Definition accepted (E : Env) (req : Request) : bool :=
  match net_post E req with
  | Response status_code _ =>
      match raise_for_status status_code with Return _ => true | Raise _ => false end
  | ConnectionFailed => false
  end.

(** What [requests.post] or [raise_for_status] raises for a request that
    is not accepted. *)
Definition refusal (E : Env) (req : Request) : exn :=
  match net_post E req with
  | Response status_code _ => HTTPError status_code
  | ConnectionFailed => RequestException
  end.

(** [run], a call made in a store that has become [w], fans [msg] out to
    the followers [rs] of [actor] and returns [a]: whatever requests
    [reqs] the deliveries to [rs] amount to, when the receivers accept
    them all the call sends exactly these, in this order, and returns [a];
    when one of them is not accepted the call sends the requests up to
    that one and raises what the refused delivery raises. *)
Definition fans_out {A} (E : Env) (actor : LocalActor) (actor_url : string) (msg : json)
    (rs : list RemoteActor) (run : result A * World) (a : A) (w : World) : Prop :=
  forall reqs,
    Forall2 (fun r req =>
      delivery E (la_private_key actor) (actor_url +:+ "#main-key")
        (json_dumps E msg) r = Some req) rs reqs ->
    (Forall (fun req => accepted E req = true) reqs ->
     run = (Return a, set_sent (fun l => l ++ reqs)%list w))
    /\ (forall before req rest,
          reqs = (before ++ req :: rest)%list ->
          Forall (fun req => accepted E req = true) before ->
          accepted E req = false ->
          run = (Raise (refusal E req),
                 set_sent (fun l => l ++ before ++ [req])%list w)).

(** The [Delete] activity of [send_delete_note_to_followers] *)
Definition delete_activity (actor_url : string) (note : Note) : json :=
  JObj [("@context", JArr [JStr "https://www.w3.org/ns/activitystreams"]);
        ("type", JStr "Delete");
        ("actor", JStr actor_url);
        ("object", JObj [("id", JStr (note_content_url note));
                         ("type", JStr "Tombstone")])].

(** ** [views.py]: the four read-only views *)

(** [str(n)] for an [int] *)
Definition str_int (n : Z) : string := NilZero.string_of_int (Z.to_int n).

(** [data[k] = v] on a dict kept as its items in insertion order: the
    value of a key that is present is replaced in place, a new key goes
    to the end. *)
Fixpoint setitem (k : string) (v : json) (items : list (string * json))
    : list (string * json) :=
  match items with
  | [] => [(k, v)]
  | (k', v') :: rest =>
      if String.eqb k k' then (k', v) :: rest else (k', v') :: setitem k v rest
  end.

(** [order_by('-key')]: the rows by descending key.  The database leaves
    the order of rows with equal keys open; here they keep the order of
    their insertion. *)
Fixpoint insert_desc {A} (key : A -> Z) (x : A) (sorted : list A) : list A :=
  match sorted with
  | [] => [x]
  | y :: rest =>
      if (key y <? key x)%Z then x :: y :: rest else y :: insert_desc key x rest
  end.

Definition order_by_desc {A} (key : A -> Z) (rows : list A) : list A :=
  fold_left (fun sorted x => insert_desc key x sorted) rows [].

(** [django.core.paginator.Paginator] with its defaults (no orphans, an
    empty first page allowed) *)
Module Paginator.

Definition count {A} (object_list : list A) : nat := length object_list.

(** [ceil(max(1, count) / per_page)] *)
Definition num_pages {A} (object_list : list A) (per_page : nat) : nat :=
  let hits := Nat.max 1 (count object_list) in
  (hits + per_page - 1) / per_page.

(** [page(number).object_list], the slice [object_list[bottom:top]] *)
Definition page {A} (object_list : list A) (per_page number : nat) : list A :=
  let bottom := (number - 1) * per_page in
  let top := bottom + per_page in
  let top := if (count object_list <=? top)%nat then count object_list else top in
  firstn (top - bottom) (skipn bottom object_list).

Definition has_next {A} (object_list : list A) (per_page number : nat) : bool :=
  (number <? num_pages object_list per_page)%nat.

End Paginator.

(** [[f(x) for x in xs]] where [f] runs in the store *)
Fixpoint for_list {A B} (xs : list A) (f : A -> M B) : M (list B) :=
  match xs with
  | [] => ret []
  | x :: rest =>
      let! y := f x in
      let! ys := for_list rest f in
      ret (y :: ys)
  end.

(** What the views read besides the tables of the store: the columns of
    [LocalActor] that the engine never writes, and [int].  An image column
    is given by the URI that [request.build_absolute_uri(image.url)] makes
    of it, [None] when the column is empty. *)
Record Site : Type :=
  { la_actor_type : LocalActor -> string;
    la_name : LocalActor -> string;
    la_summary : LocalActor -> string;
    la_icon : LocalActor -> HttpRequest -> option string;
    la_image : LocalActor -> HttpRequest -> option string;
    py_int : string -> option Z                (* int(s); None: ValueError *)
  }.

(** [ActorChoices(actor_type).label] *)
Definition ActorChoices_label (actor_type : string) : result string :=
  if String.eqb actor_type "P" then Return "Person"
  else if String.eqb actor_type "S" then Return "Service"
  else Raise ValueError.

(** [re.match(r'^acct:(?P<username>.+?)@(?P<domain>.+)$', resource)]: the
    two groups of the match.  The dot matches every character but the line
    feed, and the dollar matches at the end of the text or before a line
    feed that ends it. *)
Definition line_feed : ascii := ascii_of_nat 10.

Definition acct_domain (tail : string) : option string :=
  if negb (Py.truthy tail) then None
  else if negb (Py.occurs line_feed tail) then Some tail
  else
    let domain := Py.take (String.length tail - 1) tail in
    if String.eqb (Py.drop (String.length tail - 1) tail) (String line_feed EmptyString)
       && Py.truthy domain && negb (Py.occurs line_feed domain)
    then Some domain else None.

Definition acct_match (resource : string) : option (string * string) :=
  if Py.startswith "acct:" resource then
    match Py.drop 5 resource with
    | String c rest =>
        match Py.find_sep "@" rest with
        | Some (more, tail) =>
            if Py.occurs line_feed (String c more) then None
            else
              match acct_domain tail with
              | Some domain => Some (String c more, domain)
              | None => None
              end
        | None => None
        end
    | EmptyString => None
    end
  else None.

(** [JsonResponse(data, content_type=...)] *)
Definition typed_response (data : json) (content_type : string) : JsonResponse :=
  {| status := 200; data := data; content_type := content_type |}.

Module View.

Section View.

Context (E : Env) (site : Site).

(** the [try ... except LocalActor.DoesNotExist] at the head of the views *)
Definition actor_or_none (p : LocalActor -> bool) : M (option LocalActor) :=
  try_except
    (let! actor := LocalActor_get p in ret (Some actor))
    (is_DoesNotExist LocalActorM)
    (ret None).

(** [webfinger(request)]; [GET] is [request.GET] *)
Definition webfinger (request : HttpRequest) (GET : gmap string string)
    : M JsonResponse :=
  match GET !! "resource" with
  | None => raise TypeError
  | Some resource =>
      let! target :=
        match acct_match resource with
        | Some (username, domain) => ret (inr (Some username, domain))
        | None =>
            if Py.startswith "http" resource then
              let parsed := urlparse E resource in
              if negb (String.eqb (scheme parsed) (request_scheme request))
                 || negb (String.eqb (netloc parsed) (host request))
              then ret (inl (error_response "invalid resource" 404))
              else
                let! url := lift (Urls.resolve (path parsed)) in
                if negb (String.eqb (Urls.url_name url) "activitypub-profile")
                then ret (inl (error_response "unknown resource" 404))
                else ret (inr (Urls.username url, host request))
            else ret (inl (error_response "unsupported resource" 404))
        end in
      match target with
      | inl response => ret response
      | inr (username, domain) =>
          let! found :=
            actor_or_none (fun a =>
              bool_decide (Some (la_preferred_username a) = username)
              && String.eqb (la_domain a) domain) in
          match found with
          | None => ret (error_response "no actor by that name" 404)
          | Some actor =>
              let! location :=
                lift (reverse "activitypub-profile" (la_preferred_username actor)) in
              let links :=
                [JObj [("rel", JStr "self");
                       ("type", JStr "application/activity+json");
                       ("href", JStr (build_absolute_uri request (Some location)))]] in
              let links :=
                match la_icon site actor request with
                | Some uri =>
                    (links ++ [JObj [("rel", JStr "http://webfinger.net/rel/avatar");
                                     ("type", JStr "image/jpeg");
                                     ("href", JStr uri)]])%list
                | None => links
                end in
              let data :=
                JObj [("subject", JStr ("acct:" +:+ la_preferred_username actor +:+ "@"
                                          +:+ la_domain actor));
                      ("links", JArr links)] in
              ret (typed_response data "application/jrd+json")
          end
      end
  end.

(** [profile(request, username)] *)
Definition profile (request : HttpRequest) (username : string) : M JsonResponse :=
  let! found := actor_or_none (named username) in
  match found with
  | None => ret (json_response (JObj []) 404)
  | Some actor =>
      let name := la_preferred_username actor in
      let! label := lift (ActorChoices_label (la_actor_type site actor)) in
      let! id := lift (reverse "activitypub-profile" name) in
      let! followers := lift (reverse "activitypub-followers" name) in
      let! inbox := lift (reverse "activitypub-inbox" name) in
      let! outbox := lift (reverse "activitypub-outbox" name) in
      let absolute location := build_absolute_uri request (Some location) in
      let data :=
        [("@context", JArr [JStr "https://www.w3.org/ns/activitystreams";
                            JStr "https://w3id.org/security/v1"]);
         ("type", JStr label);
         ("discoverable", JBool true);
         ("preferredUsername", JStr name);
         ("name", JStr (la_name site actor));
         ("summary", JStr (la_summary site actor));
         ("id", JStr (absolute id));
         ("followers", JStr (absolute followers));
         ("inbox", JStr (absolute inbox));
         ("outbox", JStr (absolute outbox));
         ("publicKey",
          JObj [("id", JStr (absolute id +:+ "#main-key"));
                ("owner", JStr (absolute id));
                ("publicKeyPem", JStr (la_public_key actor))])] in
      let data :=
        match la_icon site actor request with
        | Some uri =>
            setitem "icon" (JObj [("type", JStr "Image"); ("mediaType", JStr "image/jpeg");
                                  ("url", JStr uri)]) data
        | None => data
        end in
      let data :=
        match la_image site actor request with
        | Some uri =>
            setitem "image" (JObj [("type", JStr "Image"); ("mediaType", JStr "image/jpeg");
                                   ("url", JStr uri)]) data
        | None => data
        end in
      ret (typed_response (JObj data) "application/activity+json")
  end.

(** the query of the followers view: the follower rows of [actor] by
    descending date, each joined with its remote actor *)
Definition follower_query (actor : LocalActor) (w : World)
    : list (Follower * RemoteActor) :=
  flat_map
    (fun f =>
       map (fun r => (f, r))
           (filter (fun r => Nat.eqb (ra_id r) (fo_remote_actor f)) (remote_actors w)))
    (filter (fun f => Nat.eqb (fo_following f) (la_id actor))
            (order_by_desc fo_follow_date (followers w))).

(** the part that the followers and the outbox view share, from
    [page_num = int(page_num_arg)] on: [items] makes the [orderedItems] of a
    page, [invalid] is the text before the number in the error message *)
Definition collection_page {A} (query : list A) (items : list A -> M (list json))
    (collection_url invalid page_num_arg : string) (data : list (string * json))
    : M JsonResponse :=
  let! page_num := lift (or_raise ValueError (py_int site page_num_arg)) in
  if (1 <=? page_num)%Z && (page_num <=? Z.of_nat (Paginator.num_pages query 10))%Z then
    let number := Z.to_nat page_num in
    let page := Paginator.page query 10 number in
    let data :=
      if Paginator.has_next query 10 number
      then setitem "next" (JStr (collection_url +:+ "?page=" +:+ str_int (page_num + 1)))
             data
      else data in
    let data := setitem "id" (JStr (collection_url +:+ "?page=" +:+ str_int page_num))
                  data in
    let data := setitem "type" (JStr "OrderedCollectionPage") data in
    let! ordered_items := items page in
    let data := setitem "orderedItems" (JArr ordered_items) data in
    let data := setitem "partOf" (JStr collection_url) data in
    ret (typed_response (JObj data) "application/activity+json")
  else
    ret (error_response (invalid +:+ str_int page_num) 404).

(** [followers(request, username)] *)
Definition followers (request : HttpRequest) (GET : gmap string string)
    (username : string) : M JsonResponse :=
  let! found := actor_or_none (named username) in
  match found with
  | None => ret (json_response (JObj []) 404)
  | Some actor =>
      let! w := get_world in
      let query := follower_query actor w in
      let page_num_arg := GET !! "page" in
      let! location :=
        lift (reverse "activitypub-followers" (la_preferred_username actor)) in
      let followers_url := build_absolute_uri request (Some location) in
      let data :=
        [("@context", JStr "https://www.w3.org/ns/activitystreams");
         ("type", JStr "OrderedCollection");
         ("totalItems", JNum (Z.of_nat (Paginator.count query)));
         ("id", JStr followers_url)] in
      match page_num_arg with
      | None =>
          ret (typed_response
                 (JObj (setitem "first" (JStr (followers_url +:+ "?page=1")) data))
                 "application/activity+json")
      | Some page_num_arg =>
          collection_page query
            (fun page => ret (map (fun row => JStr (ra_url (snd row))) page))
            followers_url "invalid page number " page_num_arg data
      end
  end.

(** the query of the outbox view: the notes of [actor] by descending
    publication date *)
Definition note_query (actor : LocalActor) (w : World) : list Note :=
  filter (fun n => bool_decide (note_local_actor n = Some (la_id actor)))
         (order_by_desc note_published_at (notes w)).

(** [outbox(request, username)] *)
Definition outbox (request : HttpRequest) (GET : gmap string string)
    (username : string) : M JsonResponse :=
  let! found := actor_or_none (named username) in
  match found with
  | None => ret (json_response (JObj []) 404)
  | Some actor =>
      let! w := get_world in
      let query := note_query actor w in
      let page_num_arg := GET !! "page" in
      let! location :=
        lift (reverse "activitypub-outbox" (la_preferred_username actor)) in
      let outbox_url := build_absolute_uri request (Some location) in
      let data :=
        [("@context", JStr "https://www.w3.org/ns/activitystreams");
         ("type", JStr "OrderedCollection");
         ("totalItems", JNum (Z.of_nat (Paginator.count query)));
         ("id", JStr outbox_url)] in
      match page_num_arg with
      | None =>
          ret (typed_response
                 (JObj (setitem "first" (JStr (outbox_url +:+ "?page=1")) data))
                 "application/activity+json")
      | Some page_num_arg =>
          let base_uri := request_scheme request +:+ "://" +:+ host request in
          collection_page query
            (fun page => for_list page (fun note => Note_as_json E note base_uri))
            outbox_url "invalid page number: " page_num_arg data
      end
  end.

End View.

End View.

(** The document that [Note.as_json] makes of a note of [actor], whose
    user name is a slug, when the note mentions nobody and replies to
    nothing. *)
Definition note_document (E : Env) (base_uri : string) (actor : LocalActor) (note : Note)
    : json :=
  JObj [("type", JStr "Note"); ("id", JStr (note_content_url note));
        ("published", JStr (strftime E (note_published_at note)));
        ("attributedTo",
         JStr (base_uri +:+ "/pub/" +:+ la_preferred_username actor));
        ("content", JStr (note_content note)); ("tags", JArr []);
        ("to", JStr "https://www.w3.org/ns/activitystreams#Public")].

(** ** [custom_markdown.py]: rendering a mention *)

(** An [xml.etree.ElementTree.Element]: tag, text, attributes and
    children. *)
Inductive Element : Type :=
  | Elem (tag : string) (text : option string) (attrib : list (string * string))
         (children : list Element).

Definition is_WebfingerException (e : exn) : bool :=
  match e with WebfingerException _ => true | _ => false end.

(** [MentionPattern.handleMatch(m)]; [group] is [m.group] *)
Definition handleMatch (E : Env) (group : nat -> string) : M Element :=
  let! remote_actor :=
    try_except
      (get_or_create_with_username_domain E (group 5) (group 6))
      (fun e => is_DoesNotExist RemoteActorM e || is_WebfingerException e)
      (ret None) in
  match remote_actor with
  | Some remote_actor =>
      ret (Elem "span" None []
             [Elem "span" (Some (group 3)) [] [];
              Elem "a" (Some (group 4))
                [("class", "ap-mention"); ("href", ra_url remote_actor);
                 ("target", "_blank")] [];
              Elem "span" (Some (group 7)) [] []])
  | None => ret (Elem "span" (Some (group 2)) [] [])
  end.

(** The [Mention] tag that [parse_mentions] yields for a match resolved
    to [actor]. *)
Definition mention_tag (key : string * string) (actor : RemoteActor) : json :=
  JObj [("type", JStr "Mention"); ("href", JStr (ra_url actor));
        ("name", JStr (fst key +:+ "@" +:+ snd key))].

(** ** Activities at the inbox *)

(** The request is a POST whose body decodes to [activity], it passes
    [validate_post_request], and [username] names the stored actor
    [actor]. *)
Definition verified_for (E : Env) (request : HttpRequest) (username : string)
    (activity : json) (actor : LocalActor) (w : World) : Prop :=
  method request = "POST"
  /\ json_loads E (body request) = Some activity
  /\ fst (validate_post_request E request activity w) = Return None
  /\ get_one LocalActorM (local_actors w) (named username) = Return actor.

(** An activity of type [kind] from [actor_url] about [object_url], and
    the [Undo] of such an activity. *)
Definition reaction (kind : string) (activity : json) (object_url actor_url : string)
    : Prop :=
  Json.item activity "type" = Return (JStr kind)
  /\ Json.item activity "object" = Return (JStr object_url)
  /\ Json.item activity "actor" = Return (JStr actor_url).

Definition undo_of (kind : string) (activity : json) (object_url actor_url : string)
    : Prop :=
  Json.item activity "type" = Return (JStr "Undo")
  /\ exists to_undo,
       Json.item activity "object" = Return to_undo
       /\ reaction kind to_undo object_url actor_url.

(** ** Remote notes *)

(** [doc] is the note document that [get_object] gets under the id of
    [obj]: it carries the same id, an author, a publication date that
    parses, a content, no [updated] field, and [reply] as its [inReplyTo]
    field ([JNull] when it has none). *)
Definition serves_note (E : Env) (obj doc : json) (url attributed : string)
    (published_at : Z) (content : string) (reply : json) : Prop :=
  Json.item obj "id" = Return (JStr url)
  /\ get_object E (JStr url) = Return doc
  /\ Json.item doc "id" = Return (JStr url)
  /\ Json.item doc "attributedTo" = Return (JStr attributed)
  /\ (exists published,
        Json.item doc "published" = Return (JStr published)
        /\ strptime E published = Some published_at)
  /\ Json.get_default doc "updated" JNull = Return JNull
  /\ Json.item doc "content" = Return (JStr content)
  /\ Json.get_default doc "inReplyTo" JNull = Return reply.

(** [doc] is the note document that [get_object] gets under the id
    [url] of [obj], and it names [full_url] as its own id; it carries an
    author, a publication date that parses and a content, and neither an
    [updated] nor an [inReplyTo] field. *)
Definition serves_note_as (E : Env) (obj doc : json) (url full_url attributed : string)
    (published_at : Z) (content : string) : Prop :=
  Json.item obj "id" = Return (JStr url)
  /\ get_object E (JStr url) = Return doc
  /\ Json.item doc "id" = Return (JStr full_url)
  /\ Json.item doc "attributedTo" = Return (JStr attributed)
  /\ (exists published,
        Json.item doc "published" = Return (JStr published)
        /\ strptime E published = Some published_at)
  /\ Json.get_default doc "updated" JNull = Return JNull
  /\ Json.item doc "content" = Return (JStr content)
  /\ Json.get_default doc "inReplyTo" JNull = Return JNull.

(** ** More fixtures *)

Module Scenario.
Import Fixture.

Definition carol_url : string := "https://other.example/users/carol".
Definition carol_key : string := "https://other.example/users/carol#main-key".

Definition carol_profile : json :=
  JObj [("id", JStr carol_url); ("preferredUsername", JStr "carol");
        ("inbox", JStr "https://other.example/users/carol/inbox");
        ("publicKey", JObj [("id", JStr carol_key); ("owner", JStr carol_url);
                            ("publicKeyPem", JStr "pem")])].

Definition carol : RemoteActor :=
  {| ra_id := 4; ra_username := "carol"; ra_domain := "other.example";
     ra_url := carol_url; ra_profile := carol_profile |}.

(** alice, then carol, follow bob, who has written a note *)
Definition followed : World :=
  {| local_actors := [bob]; remote_actors := [alice; carol];
     followers := [{| fo_id := 5; fo_remote_actor := 2; fo_following := 1;
                      fo_follow_date := 10 |};
                   {| fo_id := 6; fo_remote_actor := 4; fo_following := 1;
                      fo_follow_date := 20 |}];
     notes := [bob_note]; likes := []; announces := []; next_pk := 7; sent := [] |}.

(** the same store after bob has been given a user name that is no
    slug *)
Definition bob_renamed : LocalActor :=
  {| la_id := 1; la_private_key := "pem"; la_public_key := "pub";
     la_preferred_username := "bob smith"; la_domain := "local.example" |}.

Definition renamed : World :=
  {| local_actors := [bob_renamed]; remote_actors := [alice; carol];
     followers := followers followed;
     notes := [bob_note]; likes := []; announces := []; next_pk := 7; sent := [] |}.

(** the environment of the examples with a serialiser that keeps the
    type of a document and nothing else *)
Definition labelling : Env :=
  {| urlparse := urlparse federation;
     load_pem_private_key := load_pem_private_key federation;
     load_pem_public_key := load_pem_public_key federation;
     get_gmt_now := get_gmt_now federation;
     timezone_now := timezone_now federation;
     uuid4 := uuid4 federation;
     net_get := net_get federation;
     net_post := net_post federation;
     json_loads := json_loads federation;
     json_dumps := fun doc =>
       match Json.item doc "type" with
       | Return (JStr type) => type
       | _ => "?"
       end;
     strptime := strptime federation;
     strftime := strftime federation;
     py_str := py_str federation;
     timestamp := timestamp federation;
     mention_finditer := mention_finditer federation |}.

(** the server of alice answers every delivery with a 500, every other
    server accepts *)
Definition alice_is_down : Env :=
  env (net [(alice_url, alice_profile); (carol_url, carol_profile)])
      (fun req =>
         if String.eqb (req_url req) "https://remote.example/users/alice/inbox"
         then Response 500 None else Response 202 None)
      (fun _ => None).

(** the WebFinger document of carol, served by her own server and by a
    mirror; its second link is the profile link, its third entry is no
    link at all *)
Definition carol_webfinger : json :=
  JObj [("subject", JStr "acct:carol@other.example");
        ("links",
         JArr [JObj [("rel", JStr "http://webfinger.net/rel/profile-page");
                     ("type", JStr "text/html");
                     ("href", JStr "https://other.example/@carol")];
               JObj [("rel", JStr "self"); ("type", JStr "application/activity+json");
                     ("href", JStr carol_url)];
               JStr "not a link"])].

Definition handles : Env :=
  env (net [(webfinger_url "carol" "other.example", carol_webfinger);
            (webfinger_url "carol" "mirror.example", carol_webfinger);
            (carol_url, carol_profile)])
      accepting (fun _ => None).

(** two notes of alice: a plain one, and one that names itself as the
    note it replies to *)
Definition plain_note : json :=
  JObj [("id", JStr "https://remote.example/notes/7"); ("attributedTo", JStr alice_url);
        ("published", JStr "2026-11-04T07:00:00Z"); ("content", JStr "good morning")].

Definition looping_note : json :=
  JObj [("id", JStr "https://remote.example/notes/8"); ("attributedTo", JStr alice_url);
        ("published", JStr "2026-11-04T07:00:00Z"); ("content", JStr "again");
        ("inReplyTo", JStr "https://remote.example/notes/8")].

(** a note of alice that is served under one URL and names another as
    its id *)
Definition moved_note : json :=
  JObj [("id", JStr "https://remote.example/notes/6"); ("attributedTo", JStr alice_url);
        ("published", JStr "2026-11-04T07:00:00Z"); ("content", JStr "moved")].

Definition remote_notes : Env :=
  env (net [(alice_url, alice_profile);
            ("https://remote.example/notes/7", plain_note);
            ("https://remote.example/notes/8", looping_note);
            ("https://remote.example/old/6", moved_note)])
      accepting (fun _ => None).

(** activities of alice, and the request bodies that decode to them *)
Definition like : json :=
  JObj [("type", JStr "Like"); ("actor", JStr alice_url);
        ("object", JStr "https://local.example/notes/1")].

Definition undo_like : json :=
  JObj [("type", JStr "Undo"); ("actor", JStr alice_url); ("object", like)].

Definition announce_unknown : json :=
  JObj [("type", JStr "Announce"); ("actor", JStr alice_url);
        ("object", JStr "https://local.example/notes/404")].

Definition delete_actor : json :=
  JObj [("type", JStr "Delete"); ("actor", JStr alice_url); ("object", JStr alice_url)].

Definition follow_dave : json :=
  JObj [("type", JStr "Follow"); ("actor", JStr alice_url);
        ("object", JStr "https://local.example/pub/dave")].

Definition reactions : Env :=
  env (net [(alice_url, alice_profile)]) accepting
      (fun text =>
         if String.eqb text "like" then Some like
         else if String.eqb text "undo-like" then Some undo_like
         else if String.eqb text "announce-unknown" then Some announce_unknown
         else if String.eqb text "delete-actor" then Some delete_actor
         else if String.eqb text "follow-dave" then Some follow_dave
         else None).

(** a second local actor beside bob *)
Definition dave : LocalActor :=
  {| la_id := 4; la_private_key := "pem"; la_public_key := "pub";
     la_preferred_username := "dave"; la_domain := "local.example" |}.

Definition two_locals : World :=
  {| local_actors := [bob; dave]; remote_actors := [alice]; followers := [];
     notes := [bob_note]; likes := []; announces := []; next_pk := 5; sent := [] |}.

(** bob's note and a reply to it by alice *)
Definition mixed : World :=
  {| local_actors := [bob]; remote_actors := [alice]; followers := [];
     notes := [bob_note;
               {| note_id := Some 4; note_parent := Some 3; note_local_actor := None;
                  note_remote_actor := Some 2; note_published_at := 9;
                  note_updated_at := 9; note_content := "hi bob";
                  note_content_url := "https://remote.example/notes/5" |}];
     likes := []; announces := []; next_pk := 5; sent := [] |}.

(** the groups of a match of the mention pattern on the text
    [ @alice@remote.example ] *)
Definition mention_groups (n : nat) : string :=
  match n with
  | 2 => " @alice@remote.example "
  | 3 => " "
  | 4 => "@alice@remote.example"
  | 5 => "alice"
  | 6 => "remote.example"
  | 7 => " "
  | _ => EmptyString
  end.

(** an environment without network in which every text mentions alice
    twice *)
Definition mentioning : Env :=
  {| urlparse := simple_urlparse;
     load_pem_private_key := fun _ => Some rsa_private_key;
     load_pem_public_key := fun _ => Some rsa_public_key;
     get_gmt_now := "Wed, 04 Nov 2026 07:00:00 GMT";
     timezone_now := 1793775600;
     uuid4 := "0f8fad5b-d9cb-469f-a165-70867728950e";
     net_get := fun _ => ConnectionFailed;
     net_post := fun _ => ConnectionFailed;
     json_loads := fun _ => None;
     json_dumps := fun _ => "{}";
     strptime := fun _ => Some 0%Z;
     strftime := fun _ => "1970-01-01T00:00:00Z";
     py_str := fun _ => "?";
     timestamp := fun _ => "0.0";
     mention_finditer := fun _ => [("alice", "remote.example");
                                   ("alice", "remote.example")] |}.

(** the site of the examples: every actor is a person without images,
    and [int] reads the digits 1 to 3 *)
Definition site : Site :=
  {| la_actor_type := fun _ => "P";
     la_name := fun a => la_preferred_username a;
     la_summary := fun _ => EmptyString;
     la_icon := fun _ _ => None;
     la_image := fun _ _ => None;
     py_int := fun s =>
       if String.eqb s "1" then Some 1%Z
       else if String.eqb s "2" then Some 2%Z
       else if String.eqb s "3" then Some 3%Z
       else None |}.

(** a GET request to this site *)
Definition get_request (location : string) : HttpRequest :=
  {| method := "GET"; request_scheme := "https"; host := "local.example";
     full_path := location; headers := ∅; body := EmptyString |}.

End Scenario.

(* ===================================================================== *)
(** * Part II. Properties                                                  *)
(* ===================================================================== *)

(** ** Strings *)

Module PyFacts.
Import Py.
#[local] Arguments String.append !_ _ / : simpl nomatch.

Lemma occurs_app c a b : occurs c (a +:+ b) = occurs c a || occurs c b.
Proof. induction a as [|x a IH]; simpl; [done|]. by rewrite IH, orb_assoc. Qed.

Lemma split_char_no c s : occurs c s = false -> split_char c s = [s].
Proof.
  induction s as [|x s IH]; simpl; [done|].
  intros [Hx Hs]%orb_false_iff. by rewrite Hx, IH.
Qed.

Lemma split_char_app c a b :
  occurs c a = false -> split_char c (a +:+ String c b) = a :: split_char c b.
Proof.
  induction a as [|x a IH]; simpl.
  - intros _. by rewrite Ascii.eqb_refl.
  - intros [Hx Ha]%orb_false_iff. by rewrite Hx, IH.
Qed.

Lemma remove_char_no c s : occurs c s = false -> remove_char c s = s.
Proof.
  induction s as [|x s IH]; simpl; [done|].
  intros [Hx Hs]%orb_false_iff. by rewrite Hx, IH.
Qed.

Lemma remove_char_app c a b :
  remove_char c (a +:+ b) = remove_char c a +:+ remove_char c b.
Proof.
  induction a as [|x a IH]; simpl; [done|].
  destruct (Ascii.eqb x c); simpl; by rewrite IH.
Qed.

Lemma app_empty_r s : s +:+ EmptyString = s.
Proof. induction s as [|x s IH]; simpl; [reflexivity|]. by rewrite IH. Qed.

Lemma remove_char_quoted_tail s :
  occurs dq s = false -> remove_char dq (s +:+ String dq EmptyString) = s.
Proof.
  intros H. rewrite remove_char_app, remove_char_no by done.
  change (remove_char dq (String dq EmptyString)) with EmptyString.
  apply app_empty_r.
Qed.

Lemma all_chars_occurs (P : ascii -> Prop) c s :
  ~ P c -> all_chars P s -> occurs c s = false.
Proof.
  intros Hc. induction s as [|x s IH]; simpl; [done|]. intros [Hx Hs].
  rewrite IH by done. rewrite orb_false_r. apply Ascii.eqb_neq. congruence.
Qed.

Lemma app_single c x : String c EmptyString +:+ x = String c x.
Proof. reflexivity. Qed.

End PyFacts.

(** ** Base64: decoding inverts encoding *)

Module Base64Facts.
Import Base64.
Open Scope N_scope.

Lemma enc_spec n :
  n < 64 -> dec (enc n) = Some n /\ Ascii.eqb (enc n) pad_char = false /\ plain (enc n).
Proof.
  intros Hn. destruct n as [|p].
  - vm_compute. repeat split; congruence.
  - repeat (destruct p as [p|p|]; try lia); vm_compute; repeat split; congruence.
Qed.

Lemma list_ind3 {A} (P : list A -> Prop) :
  P [] -> (forall a, P [a]) -> (forall a b, P [a; b]) ->
  (forall a b c l, P l -> P (a :: b :: c :: l)) ->
  forall l, P l.
Proof.
  intros H0 H1 H2 H3.
  fix IH 1. intros [|a [|b [|c l]]]; [exact H0 | apply H1 | apply H2 | apply H3, IH].
Qed.

Lemma sextets a b c :
  a < 256 -> b < 256 -> c < 256 ->
  a / 4 < 64 /\ a mod 4 * 16 + b / 16 < 64 /\ b mod 16 * 4 + c / 64 < 64 /\ c mod 64 < 64 /\
  a mod 4 * 16 < 64 /\ b mod 16 * 4 < 64 /\
  a / 4 * 4 + (a mod 4 * 16 + b / 16) / 16 = a /\
  (a mod 4 * 16 + b / 16) mod 16 * 16 + (b mod 16 * 4 + c / 64) / 4 = b /\
  (b mod 16 * 4 + c / 64) mod 4 * 64 + c mod 64 = c /\
  a / 4 * 4 + (a mod 4 * 16) / 16 = a /\
  (a mod 4 * 16 + b / 16) mod 16 * 16 + (b mod 16 * 4) / 4 = b.
Proof.
  intros. repeat split; zify; Z.to_euclidean_division_equations; lia.
Qed.

Ltac decode_one P D :=
  unfold decode_char at 1; rewrite P, D; cbn [quad_pos out leftchar].

Lemma decode_encode_loop bs :
  Forall (fun b => b < 256) bs ->
  forall l p o, decode_loop (DState 0 l p o) (encode_bytes bs) = Return (o ++ bs)%list.
Proof.
  induction bs as [|a|a b|a b c bs IH] using list_ind3; intros Hall l p o.
  - simpl. by rewrite app_nil_r.
  - inversion_clear Hall as [|? ? Ha _].
    destruct (sextets a 0 0 Ha) as (H0 & _ & _ & _ & H1 & _ & _ & _ & _ & E & _); try lia.
    destruct (enc_spec _ H0) as (D0 & P0 & _), (enc_spec _ H1) as (D1 & P1 & _).
    cbn [encode_bytes decode_loop]. decode_one P0 D0. decode_one P1 D1.
    rewrite E. reflexivity.
  - inversion_clear Hall as [|? ? Ha Hall']. inversion_clear Hall' as [|? ? Hb _].
    destruct (sextets a b 0 Ha Hb) as (H0 & H1 & _ & _ & _ & H2 & E0 & _ & _ & _ & E1);
      try lia.
    destruct (enc_spec _ H0) as (D0 & P0 & _), (enc_spec _ H1) as (D1 & P1 & _),
             (enc_spec _ H2) as (D2 & P2 & _).
    cbn [encode_bytes decode_loop]. decode_one P0 D0. decode_one P1 D1. decode_one P2 D2.
    rewrite E0, E1, <- app_assoc. reflexivity.
  - inversion_clear Hall as [|? ? Ha Hall']. inversion_clear Hall' as [|? ? Hb Hall].
    inversion_clear Hall as [|? ? Hc Hall'].
    destruct (sextets a b c Ha Hb Hc) as (H0 & H1 & H2 & H3 & _ & _ & E0 & E1 & E2 & _).
    destruct (enc_spec _ H0) as (D0 & P0 & _), (enc_spec _ H1) as (D1 & P1 & _),
             (enc_spec _ H2) as (D2 & P2 & _), (enc_spec _ H3) as (D3 & P3 & _).
    cbn [encode_bytes decode_loop].
    decode_one P0 D0. decode_one P1 D1. decode_one P2 D2. decode_one P3 D3.
    rewrite E0, E1, E2, IH by done. rewrite <- !app_assoc. reflexivity.
Qed.

Lemma nbytes_bounded s : Forall (fun b => b < 256) (nbytes s).
Proof. induction s; constructor; auto using N_ascii_bounded. Qed.

Lemma of_nbytes_nbytes s : of_nbytes (nbytes s) = s.
Proof. induction s; simpl; [done|]. by rewrite ascii_N_embedding, IHs. Qed.

Lemma encode_bytes_plain bs :
  Forall (fun b => b < 256) bs -> Py.all_chars plain (encode_bytes bs).
Proof.
  assert (Hpad : plain pad_char) by (vm_compute; repeat split; congruence).
  induction bs as [|a|a b|a b c bs IH] using list_ind3; intros Hall.
  - exact I.
  - inversion_clear Hall as [|? ? Ha _].
    destruct (sextets a 0 0 Ha) as (H0 & _ & _ & _ & H1 & _); try lia.
    cbn [encode_bytes Py.all_chars]. repeat split; try apply enc_spec; done.
  - inversion_clear Hall as [|? ? Ha Hall']. inversion_clear Hall' as [|? ? Hb _].
    destruct (sextets a b 0 Ha Hb) as (H0 & H1 & _ & _ & _ & H2 & _); try lia.
    cbn [encode_bytes Py.all_chars]. repeat split; try apply enc_spec; done.
  - inversion_clear Hall as [|? ? Ha Hall']. inversion_clear Hall' as [|? ? Hb Hall].
    inversion_clear Hall as [|? ? Hc Hall'].
    destruct (sextets a b c Ha Hb Hc) as (H0 & H1 & H2 & H3 & _).
    cbn [encode_bytes Py.all_chars]. repeat split; try apply enc_spec; auto.
Qed.

Lemma all_chars_ascii s : Py.all_chars plain s -> all_ascii s = true.
Proof.
  induction s as [|c s IH]; simpl; [done|]. intros [[Hc _] Hs]. by rewrite Hc, IH.
Qed.

Lemma b64decode_b64encode data : b64decode (b64encode data) = Return data.
Proof.
  unfold b64decode, b64encode.
  rewrite all_chars_ascii by apply encode_bytes_plain, nbytes_bounded.
  rewrite decode_encode_loop by apply nbytes_bounded.
  simpl. by rewrite of_nbytes_nbytes.
Qed.

Lemma b64encode_occurs c data :
  c = ","%char \/ c = Py.dq -> Py.occurs c (b64encode data) = false.
Proof.
  intros Hc. apply PyFacts.all_chars_occurs with (P := plain).
  - intros (_ & ? & ?). destruct Hc; congruence.
  - apply encode_bytes_plain, nbytes_bounded.
Qed.

End Base64Facts.

(** ** Signing and verification *)

Section SignedRequestsFacts.
Import Py PyFacts Base64Facts.

Context (E : Env).

Lemma header_item_lookup (hs : gmap string string) name v :
  hs !! lower name = Some v -> header_item hs name = Return v.
Proof. unfold header_item. by intros ->. Qed.

Lemma header_in_lookup (hs : gmap string string) name v :
  hs !! lower name = Some v -> header_in name hs = true.
Proof. unfold header_in. intros ->. by apply bool_decide_eq_true_2. Qed.

Lemma parse_built_header kid algo hs sg :
  occurs "," kid = false -> occurs dq kid = false ->
  occurs "," algo = false -> occurs dq algo = false ->
  occurs "," hs = false -> occurs dq hs = false ->
  occurs "," sg = false -> occurs dq sg = false ->
  parse_signature_header
    (Py.join "," [ "keyId=" +:+ quoted kid; "algorithm=" +:+ quoted algo;
                   "headers=" +:+ quoted hs; "signature=" +:+ quoted sg ])
  = Return (<["signature" := sg]> (<["headers" := hs]>
             (<["algorithm" := algo]> (<["keyId" := kid]> ∅)))).
Proof.
  intros K1 K2 A1 A2 H1 H2 S1 S2.
  unfold parse_signature_header.
  assert (Hq : forall p x, occurs "," p = false -> occurs "," x = false ->
                 occurs "," (p +:+ quoted x) = false).
  { intros p x Hp Hx. unfold quoted. rewrite occurs_app, Hp.
    change (occurs "," (String dq ?y)) with (occurs "," y).
    cbn [orb]. change (occurs "," (String dq (x +:+ String dq EmptyString)))
      with (occurs "," (x +:+ String dq EmptyString)).
    rewrite occurs_app, Hx. reflexivity. }
  cbn [join]. rewrite !app_single.
  rewrite split_char_app by (apply Hq; done).
  rewrite split_char_app by (apply Hq; done).
  rewrite split_char_app by (apply Hq; done).
  rewrite split_char_no by (apply Hq; done).
  cbn [map fold_left]. unfold quoted.
  change (split_once _ ("keyId=" +:+ String dq ?x)) with ["keyId"; x].
  change (split_once _ ("algorithm=" +:+ String dq ?x)) with ["algorithm"; x].
  change (split_once _ ("headers=" +:+ String dq ?x)) with ["headers"; x].
  change (split_once _ ("signature=" +:+ String dq ?x)) with ["signature"; x].
  cbn [index nth_error rbind].
  rewrite !remove_char_quoted_tail by done. reflexivity.
Qed.

End SignedRequestsFacts.

Section SignedRequestsClaims.
Import Py PyFacts Base64Facts.

Context (E : Env).

Lemma signed_post_headers_value url private_key kid hdrs0 b sk :
  load_pem_private_key E private_key = Some sk ->
  signed_post_headers E url private_key kid hdrs0 (Some b) =
  Return
    (<["user-agent" := "shimmy's django_activitypub service - unlike mozilla"]>
     (<["signature" := signed_signature_header E sk url kid b]>
      (<["content-type" := "application/activity+json"]>
       (<["host" := netloc (urlparse E url)]>
        (<["date" := get_gmt_now E]>
         (<["digest" := signed_digest b]>
          (<["accept" := "application/activity+json"]> (default ∅ hdrs0)))))))).
Proof.
  intros Hload.
  unfold signed_post_headers, HttpSignature_build_signature, sign_message.
  rewrite Hload. reflexivity.
Qed.

Lemma signed_headers_lookup url private_key kid hdrs0 b sk hs :
  load_pem_private_key E private_key = Some sk ->
  signed_post_headers E url private_key kid hdrs0 (Some b) = Return hs ->
  hs !! "signature" = Some (signed_signature_header E sk url kid b)
  /\ hs !! "digest" = Some (signed_digest b)
  /\ hs !! "date" = Some (get_gmt_now E)
  /\ hs !! "host" = Some (netloc (urlparse E url))
  /\ hs !! "content-type" = Some "application/activity+json".
Proof.
  intros Hload Hsp. rewrite (signed_post_headers_value _ _ _ _ _ sk Hload) in Hsp.
  injection Hsp as <-. repeat split; by simplify_map_eq.
Qed.

(** C1. A request signed by [signed_post] with a private key verifies,
    with unmodified headers and body, under the matching public key
    document: [validate] returns the success variant carrying the
    controller.  If only the body is replaced by one with another digest,
    [validate] returns the digest-mismatch failure.  The key id holds no
    comma and no double quote, as every key id the code builds. *)
Theorem sign_then_validate
    (url method private_key kid body : string) (hdrs0 : option (gmap string string))
    (sk : PrivateKey) (verify : string -> string -> bool)
    (chk : SignatureChecker) (hs : gmap string string) :
  load_pem_private_key E private_key = Some sk ->
  public_key chk = RSAPublicKey verify ->
  (forall message, verify (sign sk message) message = true) ->
  key_id chk = Some kid ->
  occurs "," kid = false -> occurs dq kid = false ->
  lower method = "post" ->
  signed_post_headers E url private_key kid hdrs0 (Some body) = Return hs ->
  validate E chk method url hs (Some body) = Return (success (controller chk))
  /\ forall body' d d',
       content_digest_sha256 (Some body') = Return d' ->
       content_digest_sha256 (Some body) = Return d ->
       d' <> d ->
       validate E chk method url hs (Some body') = Return (fail (DigestMismatch d' d)).
Proof.
  intros Hload Hpk Hverify Hkid Hc Hq Hm Hsp.
  destruct (signed_headers_lookup _ _ _ _ _ _ _ Hload Hsp)
    as (Lsig & Ldig & Ldate & Lhost & Lct).
  clear Hsp.
  set (dg := signed_digest body) in *.
  set (sg := Base64.b64encode (sign sk (HttpSignature.build_message (signed_fields E url body)))).
  assert (Hup : upper (take 4 dg) +:+ drop 4 dg = dg) by reflexivity.
  assert (Hparse : parse_signature_header (signed_signature_header E sk url kid body) =
            Return (<["signature" := sg]>
              (<["headers" := "(request-target) host date digest content-type"]>
                (<["algorithm" := "rsa-sha256"]> (<["keyId" := kid]> ∅))))).
  { apply parse_built_header; try done; apply b64encode_occurs; auto. }
  assert (Hin : header_in "signature" hs = true) by (by eapply header_in_lookup).
  split.
  - unfold validate. rewrite Hin, Hm.
    cbn [negb String.eqb Ascii.eqb Bool.eqb content_digest_sha256 rbind].
    fold (signed_digest body). fold dg.
    rewrite (header_item_lookup hs "digest" dg) by done.
    cbn [rbind]. rewrite Hup, String.eqb_refl. cbn [negb].
    unfold validate_signature.
    rewrite (header_item_lookup hs "signature" _ Lsig).
    cbn [rbind]. rewrite Hparse. cbn [rbind].
    unfold getitem. rewrite lookup_insert_ne, lookup_insert_eq by done.
    cbn [rbind].
    change (split_char " " "(request-target) host date digest content-type")
      with ["(request-target)"; "host"; "date"; "digest"; "content-type"].
    change (contains "(request-target)" _) with true.
    change (contains "date" _) with true.
    change (contains "digest" _) with true.
    change (truthy dg) with true.
    unfold collect_fields. cbn [negb orb andb fold_left].
    change ("(request-target)" =? "(request-target)")%string with true.
    change ("host" =? "(request-target)")%string with false.
    change ("date" =? "(request-target)")%string with false.
    change ("digest" =? "(request-target)")%string with false.
    change ("content-type" =? "(request-target)")%string with false.
    cbn [rbind].
    rewrite (header_item_lookup hs "host" _ Lhost). cbn [rbind].
    rewrite (header_item_lookup hs "date" _ Ldate). cbn [rbind].
    rewrite (header_item_lookup hs "digest" _ Ldig). cbn [rbind].
    rewrite (header_item_lookup hs "content-type" _ Lct). cbn [rbind].
    rewrite !lookup_insert_ne, lookup_insert_eq by done.
    cbn [rbind].
    rewrite Hkid, bool_decide_eq_true_2 by done. cbn [negb].
    rewrite lookup_insert_eq. cbn [rbind].
    subst sg. rewrite b64decode_b64encode. cbn [rbind].
    unfold verify_with. rewrite Hpk, Hm.
    change (HttpSignature.build_message _)
      with (HttpSignature.build_message (signed_fields E url body)).
    by rewrite Hverify.
  - intros body' d d' Hd' Hd Hne.
    injection Hd as <-. injection Hd' as <-.
    unfold validate. rewrite Hin, Hm.
    cbn [negb String.eqb Ascii.eqb Bool.eqb content_digest_sha256 rbind].
    rewrite (header_item_lookup hs "digest" dg) by done.
    cbn [rbind]. rewrite Hup.
    apply String.eqb_neq in Hne. fold (signed_digest body) in Hne. fold dg in Hne.
    by rewrite Hne.
Qed.

(** C9 (the code raises). Called without a body, that is with the
    default [body=None] of its signature, [signed_post] does not complete:
    the digest is computed unconditionally, [hashlib.sha256(None)] is a
    [TypeError], no header is produced and nothing is sent, whatever the
    URL, the key and the headers passed in, the default [headers=None]
    included. *)
Theorem signed_post_without_body_raises
    (url private_key kid : string) (hdrs0 : option (gmap string string)) (w : World) :
  signed_post_headers E url private_key kid hdrs0 None = Raise TypeError
  /\ signed_post E url private_key kid hdrs0 None w = (Raise TypeError, w).
Proof. split; reflexivity. Qed.

(** X29. For every body that is present, the empty body included,
    [signed_post] signs and sends all five fields, (request-target), host,
    date, digest and content-type, in this order: the digest and
    content-type headers are always part of the header set and of the
    canonical string, and the request goes out. *)
Theorem signed_post_always_signs_digest
    (url private_key kid b : string) (hdrs0 : option (gmap string string))
    (sk : PrivateKey) (w : World) :
  load_pem_private_key E private_key = Some sk ->
  exists hs,
    signed_post_headers E url private_key kid hdrs0 (Some b) = Return hs
    /\ hs !! "digest" = Some (signed_digest b)
    /\ hs !! "content-type" = Some "application/activity+json"
    /\ hs !! "signature" = Some (signed_signature_header E sk url kid b)
    /\ map fst (signed_fields E url b)
       = ["(request-target)"; "host"; "date"; "digest"; "content-type"]
    /\ signed_post E url private_key kid hdrs0 (Some b) w
       = requests_post E {| req_url := url; req_data := Some b; req_headers := hs |} w.
Proof.
  intros Hload. eexists. split; [by apply signed_post_headers_value|].
  repeat split; try by simplify_map_eq.
  unfold signed_post, bind, lift.
  by rewrite (signed_post_headers_value _ _ _ _ _ sk Hload).
Qed.

(** The part of [validate] after the digest check never reports a digest
    mismatch. *)
Lemma validate_signature_not_digest_mismatch chk method url hs digest :
  ~ is_digest_mismatch (validate_signature E chk method url hs digest).
Proof.
  intros (d & q & H). unfold validate_signature in H.
  destruct (header_item hs "signature"); [|done]. cbn [rbind] in H.
  destruct (parse_signature_header a) as [parsed|]; [|done]. cbn [rbind] in H.
  destruct (getitem parsed "headers") as [declared|]; [|done]. cbn [rbind] in H.
  destruct (_ || _); [done|]. destruct (_ && _); [done|].
  destruct (collect_fields _ _ _ _ _ _) as [builder|]; [|done]. cbn [rbind] in H.
  destruct (getitem parsed "keyId") as [kid|]; [|done]. cbn [rbind] in H.
  destruct (negb _); [done|].
  destruct (getitem parsed "signature") as [enc|]; [|done]. cbn [rbind] in H.
  destruct (Base64.b64decode enc) as [sg|]; [|done]. cbn [rbind] in H.
  unfold verify_with in H.
  destruct (public_key chk) as [v|v|]; [destruct (v _ _)|destruct (v _ _)|]; done.
Qed.

Lemma validate_post chk method url hs b h :
  lower method = "post" ->
  hs !! "digest" = Some h ->
  validate E chk method url hs (Some b) =
    if negb (header_in "signature" hs) then Return (fail MissingSignatureHeader)
    else if negb (String.eqb (signed_digest b) (normalized_digest h))
    then Return (fail (DigestMismatch (signed_digest b) (normalized_digest h)))
    else validate_signature E chk method url hs (signed_digest b).
Proof.
  intros Hm Hd. unfold validate. destruct (header_in "signature" hs); [|done].
  rewrite Hm.
  cbn [negb String.eqb Ascii.eqb Bool.eqb content_digest_sha256 rbind].
  by rewrite (header_item_lookup hs "digest" h Hd).
Qed.

Lemma upper_lower (s : string) : upper (lower s) = upper s.
Proof.
  induction s as [|c s IH]; [done|]. cbn [upper lower smap] in *. f_equal; [|exact IH].
  by destruct c as [[] [] [] [] [] [] [] []].
Qed.

Lemma same_label_same_normalized_digest (h h' : string) :
  lower (take 4 h') = lower (take 4 h) -> drop 4 h' = drop 4 h ->
  normalized_digest h' = normalized_digest h.
Proof.
  intros Hlabel Hrest. unfold normalized_digest.
  by rewrite <- (upper_lower (take 4 h')), Hlabel, upper_lower, Hrest.
Qed.

(** C3 (amended). On a POST with a body and a digest header, whatever
    else the request carries, [validate] recomputes the SHA-256 digest of
    the body and compares it with the header value whose first four
    characters (the algorithm label) are upper-cased, the rest being
    compared as it stands.  A mismatch yields the failure variant before
    the Signature header is parsed and the signature verified: the
    digest-mismatch failure when the request carries a Signature header,
    and the missing-signature failure of the test that comes first when it
    carries none.  On a match, verification goes on to the signature.
    Header values that differ only in the letter case of their first four
    characters get the same verdict from this check. *)
Theorem digest_check_normalises_label_only
    (chk : SignatureChecker) (method url b h : string) (hs : gmap string string) :
  lower method = "post" ->
  hs !! "digest" = Some h ->
  (normalized_digest h <> signed_digest b ->
     validate E chk method url hs (Some b)
     = Return (fail (if header_in "signature" hs
                     then DigestMismatch (signed_digest b) (normalized_digest h)
                     else MissingSignatureHeader)))
  /\ (normalized_digest h = signed_digest b ->
        validate E chk method url hs (Some b)
        = if header_in "signature" hs
          then validate_signature E chk method url hs (signed_digest b)
          else Return (fail MissingSignatureHeader))
  /\ (forall h',
        lower (take 4 h') = lower (take 4 h) -> drop 4 h' = drop 4 h ->
        is_digest_mismatch (validate E chk method url (<["digest" := h']> hs) (Some b))
        <-> is_digest_mismatch (validate E chk method url hs (Some b))).
Proof.
  intros Hm Hd.
  assert (Hverdict : forall hs' h',
            hs' !! "digest" = Some h' ->
            is_digest_mismatch (validate E chk method url hs' (Some b))
            <-> header_in "signature" hs' = true
                /\ normalized_digest h' <> signed_digest b).
  { intros hs' h' Hd'. rewrite (validate_post _ _ _ _ _ _ Hm Hd').
    destruct (header_in "signature" hs'); cbn [negb].
    2:{ split; [by intros (d & q & [=])|by intros [[=] _]]. }
    destruct (String.eqb_spec (signed_digest b) (normalized_digest h')) as [Heq|Hne];
      cbn [negb].
    - split; [|intros [_ ?]; congruence].
      intros Hmis. by apply validate_signature_not_digest_mismatch in Hmis.
    - split; [by split; [|congruence]|]. intros _. by eexists _, _. }
  split; [|split].
  - intros Hne. rewrite (validate_post _ _ _ _ _ _ Hm Hd).
    destruct (header_in "signature" hs); [|done]. cbn [negb].
    destruct (String.eqb_spec (signed_digest b) (normalized_digest h)); [congruence|done].
  - intros Heq. rewrite (validate_post _ _ _ _ _ _ Hm Hd).
    destruct (header_in "signature" hs); [|done]. cbn [negb].
    by rewrite <- Heq, String.eqb_refl.
  - intros h' Hlabel Hrest.
    pose proof (same_label_same_normalized_digest h h' Hlabel Hrest) as Hn.
    assert (Hin' : header_in "signature" (<["digest" := h']> hs)
                   = header_in "signature" hs).
    { unfold header_in. change (lower "signature") with "signature".
      by rewrite lookup_insert_ne. }
    rewrite (Hverdict (<["digest" := h']> hs) h' (lookup_insert_eq _ _ _)).
    rewrite (Hverdict hs h Hd). by rewrite Hin', Hn.
Qed.

Lemma collect_fields_present method url hs fields :
  Forall (fun f => f = "(request-target)" \/ is_Some (hs !! lower f)) fields ->
  forall b0, exists b, collect_fields E method url hs fields b0 = Return b.
Proof.
  unfold collect_fields.
  induction 1 as [|f fields Hf _ IH]; intros b0; cbn [fold_left]; [by eexists|].
  cbn [rbind]. destruct (String.eqb_spec f "(request-target)") as [->|Hne].
  - apply IH.
  - destruct Hf as [?|[v Hv]]; [done|].
    rewrite (header_item_lookup hs f v Hv). cbn [rbind]. apply IH.
Qed.

Lemma validate_signature_key_id_mismatch chk method url hs sig parsed kid digest :
  hs !! "signature" = Some sig ->
  parse_signature_header sig = Return parsed ->
  parsed !! "keyId" = Some kid ->
  key_id chk <> Some kid ->
  (forall identity,
     validate_signature E chk method url hs digest <> Return (success identity))
  /\ ((exists declared,
         parsed !! "headers" = Some declared
         /\ Forall (fun f => f = "(request-target)" \/ is_Some (hs !! lower f))
              (split_char " " declared)) ->
      exists e, validate_signature E chk method url hs digest = Return (fail e)).
Proof.
  intros Hsig Hparse Hkid Hne.
  unfold validate_signature.
  rewrite (header_item_lookup hs "signature" sig Hsig). cbn [rbind].
  rewrite Hparse. cbn [rbind].
  assert (Hk : getitem parsed "keyId" = Return kid) by (unfold getitem; by rewrite Hkid).
  split.
  - intros identity.
    destruct (getitem parsed "headers") as [declared|]; [|done]. cbn [rbind].
    destruct (_ || _); [done|]. destruct (_ && _); [done|].
    destruct (collect_fields _ _ _ _ _ _) as [builder|]; [|done]. cbn [rbind].
    rewrite Hk. cbn [rbind]. by rewrite bool_decide_eq_false_2.
  - intros (declared & Hdecl & Hall).
    unfold getitem at 1. rewrite Hdecl. cbn [rbind].
    destruct (_ || _); [by eexists|]. destruct (_ && _); [by eexists|].
    destruct (collect_fields_present method url hs _ Hall HttpSignature.new) as [b ->].
    cbn [rbind]. rewrite Hk. cbn [rbind]. rewrite bool_decide_eq_false_2 by done.
    by eexists.
Qed.

(** C4 (the code raises). A request whose Signature header declares a
    keyId other than the key id of the checker is not always answered with
    the failure variant: the lookups [headers['digest']] and
    [headers[field]] come before the comparison of the key ids, and when
    one of them fails [validate] raises [KeyError].  The same requests with
    the missing header supplied are turned down for the key id.  The key
    of the checker plays no part. *)
Theorem key_id_mismatch_raises_on_failed_lookup
    (controller : json) (pk : PublicKey) (url date digest body : string) :
  let chk := {| controller := controller; key_id := Some "k1"; public_key := pk |} in
  let sig := "keyId=" +:+ quoted "k2" +:+ ",headers="
             +:+ quoted "(request-target) date x-missing" in
  validate E chk "get" url (<["signature" := sig]> (<["date" := date]> ∅)) (Some body)
    = Raise (KeyError "x-missing")
  /\ validate E chk "get" url
       (<["x-missing" := "here"]> (<["signature" := sig]> (<["date" := date]> ∅)))
       (Some body)
     = Return (fail (KeyIdMismatch (Some "k1") "k2"))
  /\ validate E chk "post" url (<["signature" := sig]> (<["date" := date]> ∅)) (Some body)
     = Raise (KeyError "digest").
Proof. repeat split; reflexivity. Qed.

(** X28. When the Signature header of a request parses and declares a
    keyId other than the key id of the checker, [validate] never returns
    the success variant, whatever the key and its [verify] say about the
    signature bytes; and it returns the failure variant whenever the
    lookups it makes on the way succeed. *)
Theorem key_id_mismatch_is_rejected
    (chk : SignatureChecker) (method url sig kid : string)
    (hs parsed : gmap string string) (body : option string) :
  hs !! "signature" = Some sig ->
  parse_signature_header sig = Return parsed ->
  parsed !! "keyId" = Some kid ->
  key_id chk <> Some kid ->
  (forall identity, validate E chk method url hs body <> Return (success identity))
  /\ (lookups_succeed method hs body parsed ->
      exists e, validate E chk method url hs body = Return (fail e)).
Proof.
  intros Hsig Hparse Hkid Hne.
  assert (Hin : header_in "signature" hs = true) by (by eapply header_in_lookup).
  pose proof (fun digest =>
    validate_signature_key_id_mismatch chk method url hs sig parsed kid digest
      Hsig Hparse Hkid Hne) as Hvs.
  unfold validate. rewrite Hin. cbn [negb]. split.
  - intros identity.
    destruct (String.eqb (lower method) "post"); [|apply Hvs].
    destruct (content_digest_sha256 body) as [d|]; [|done]. cbn [rbind].
    destruct (header_item hs "digest") as [h|]; [|done]. cbn [rbind].
    destruct (negb _); [done|]. apply Hvs.
  - intros [Hpost Hdecl].
    destruct (String.eqb_spec (lower method) "post") as [Hm|_]; [|by apply Hvs].
    destruct (Hpost Hm) as [[h Hh] [b ->]].
    cbn [content_digest_sha256 rbind].
    rewrite (header_item_lookup hs "digest" h Hh). cbn [rbind].
    destruct (negb _); [by eexists|]. by apply Hvs.
Qed.

(** C2 (the code lets exceptions escape). [validate] raises instead of
    returning the failure variant: on a Signature parameter without its
    separator ([IndexError]), on a declared field that is no request
    header ([KeyError]), on a POST without a digest header ([KeyError]),
    and on signature text that is not base64 ([binascii.Error]). *)
Theorem validate_raises_on_malformed_input
    (controller : json) (pk : PublicKey) (chk : SignatureChecker)
    (url date body sig : string) :
  validate E chk "get" url (<["signature" := "keyId"]> ∅) (Some body)
    = Raise IndexError
  /\ validate E chk "get" url
       (<["signature" := "keyId=" +:+ quoted "k" +:+ ",headers="
                           +:+ quoted "(request-target) date x-missing"]>
          (<["date" := date]> ∅)) (Some body)
     = Raise (KeyError "x-missing")
  /\ validate E chk "post" url (<["signature" := sig]> ∅) (Some body)
     = Raise (KeyError "digest")
  /\ validate E {| controller := controller; key_id := Some "k"; public_key := pk |}
       "get" url
       (<["signature" := "keyId=" +:+ quoted "k" +:+ ",headers="
                           +:+ quoted "(request-target) date" +:+ ",signature="
                           +:+ quoted "A"]>
          (<["date" := date]> ∅)) (Some body)
     = Raise BinasciiError.
Proof. repeat split; reflexivity. Qed.

End SignedRequestsClaims.

(** *** The same on concrete requests *)

Lemma sign_then_validate_witness :
  exists hs,
    signed_post_headers Fixture.offline Fixture.inbox_url "pem" Fixture.alice_key
      None (Some "abc") = Return hs
    /\ validate Fixture.offline (Fixture.checker Fixture.alice_key) "POST"
         Fixture.inbox_url hs (Some "abc")
       = Return (success (JStr "https://remote.example/users/alice"))
    /\ validate Fixture.offline (Fixture.checker Fixture.alice_key) "POST"
         Fixture.inbox_url hs (Some "abd")
       = Return (fail (DigestMismatch
                         "SHA-256=pS0VnyYrLG3bckphhAvvw26zDIiHekAwtly+himESck="
                         "SHA-256=ungWv48Bz+pBQUDeXa4iI7ADYaOWF3qctBD/YfIAFa0=")).
Proof.
  eexists. split; [reflexivity|].
  destruct (sign_then_validate Fixture.offline Fixture.inbox_url "POST" "pem"
              Fixture.alice_key "abc" None Fixture.rsa_private_key Fixture.rsa_verify
              (Fixture.checker Fixture.alice_key) _
              eq_refl eq_refl (fun m => String.eqb_refl _) eq_refl eq_refl eq_refl eq_refl
              eq_refl) as [Hok Htamper].
  split; [exact Hok|].
  apply Htamper; [vm_compute; reflexivity | vm_compute; reflexivity | by vm_compute].
Defined.

Lemma signed_post_always_signs_digest_witness :
  exists hs,
    signed_post_headers Fixture.offline Fixture.inbox_url "pem" Fixture.alice_key
      None (Some EmptyString) = Return hs
    /\ hs !! "digest" = Some "SHA-256=47DEQpj8HBSa+/TImW+5JCeuQeRkm5NMpJWZG3hSuFU="
    /\ hs !! "content-type" = Some "application/activity+json".
Proof.
  destruct (signed_post_always_signs_digest Fixture.offline Fixture.inbox_url "pem"
              Fixture.alice_key EmptyString None Fixture.rsa_private_key empty_world
              eq_refl) as (hs & Hhs & Hd & Hct & _).
  exists hs. split; [exact Hhs|]. split; [|exact Hct].
  rewrite Hd. vm_compute. reflexivity.
Defined.

Lemma digest_check_normalises_label_only_witness :
  let stale := "sha-256=ungWv48Bz+pBQUDeXa4iI7ADYaOWF3qctBD/YfIAFa0x" in
  validate Fixture.offline (Fixture.checker Fixture.alice_key) "POST" Fixture.inbox_url
    (Fixture.request_headers Fixture.alice_key stale) (Some "abc")
  = Return (fail (DigestMismatch
                    "SHA-256=ungWv48Bz+pBQUDeXa4iI7ADYaOWF3qctBD/YfIAFa0="
                    "SHA-256=ungWv48Bz+pBQUDeXa4iI7ADYaOWF3qctBD/YfIAFa0x"))
  /\ validate Fixture.offline (Fixture.checker Fixture.alice_key) "POST" Fixture.inbox_url
       (<["digest" := stale]> ∅) (Some "abc")
     = Return (fail MissingSignatureHeader).
Proof.
  intros stale. split.
  - rewrite (proj1 (digest_check_normalises_label_only Fixture.offline
                      (Fixture.checker Fixture.alice_key) "POST" Fixture.inbox_url "abc"
                      stale (Fixture.request_headers Fixture.alice_key stale)
                      eq_refl eq_refl)) by (by vm_compute).
    vm_compute. reflexivity.
  - rewrite (proj1 (digest_check_normalises_label_only Fixture.offline
                      (Fixture.checker Fixture.alice_key) "POST" Fixture.inbox_url "abc"
                      stale (<["digest" := stale]> ∅)
                      eq_refl (lookup_insert_eq _ _ _))) by (by vm_compute).
    vm_compute. reflexivity.
Defined.

(** C3, as stated, fails: two requests, each correctly signed over its own
    headers, whose digest header values differ only in letter case; the one
    is accepted, the other is turned down for a digest mismatch. *)
Lemma digest_case_is_significant :
  let h1 := "SHA-256=ungWv48Bz+pBQUDeXa4iI7ADYaOWF3qctBD/YfIAFa0=" in
  let h2 := "SHA-256=UNGWV48BZ+PBQUDEXA4II7ADYAOWF3QCTBD/YFIAFA0=" in
  Py.lower h1 = Py.lower h2
  /\ validate Fixture.offline (Fixture.checker Fixture.alice_key) "post" Fixture.inbox_url
       (Fixture.request_headers Fixture.alice_key h1) (Some "abc")
     = Return (success (JStr "https://remote.example/users/alice"))
  /\ validate Fixture.offline (Fixture.checker Fixture.alice_key) "post" Fixture.inbox_url
       (Fixture.request_headers Fixture.alice_key h2) (Some "abc")
     = Return (fail (DigestMismatch h1 h2)).
Proof. repeat split; vm_compute; reflexivity. Qed.

Lemma key_id_mismatch_is_rejected_witness :
  let digest := "SHA-256=ungWv48Bz+pBQUDeXa4iI7ADYaOWF3qctBD/YfIAFa0=" in
  let hs := Fixture.request_headers Fixture.mallory_key digest in
  (forall identity,
     validate Fixture.offline (Fixture.checker Fixture.alice_key) "post" Fixture.inbox_url
       hs (Some "abc") <> Return (success identity))
  /\ exists e,
       validate Fixture.offline (Fixture.checker Fixture.alice_key) "post"
         Fixture.inbox_url hs (Some "abc") = Return (fail e).
Proof.
  intros digest hs.
  destruct (key_id_mismatch_is_rejected Fixture.offline
              (Fixture.checker Fixture.alice_key) "post" Fixture.inbox_url
              (Fixture.request_signature_header Fixture.mallory_key digest)
              Fixture.mallory_key hs
              (Fixture.request_parsed Fixture.mallory_key digest) (Some "abc"))
    as [Hnever Hfail].
  - vm_compute. reflexivity.
  - vm_compute. reflexivity.
  - vm_compute. reflexivity.
  - by vm_compute.
  - split; [exact Hnever|]. apply Hfail. split.
    + intros _. split; eexists; vm_compute; reflexivity.
    + exists "(request-target) host date digest content-type".
      split; [vm_compute; reflexivity|].
      change (Py.split_char " " _)
        with ["(request-target)"; "host"; "date"; "digest"; "content-type"].
      repeat (constructor;
              [first [left; reflexivity | right; eexists; vm_compute; reflexivity]|]).
      constructor.
Defined.

(** ** The resolver, the store and the inbox on concrete inputs *)

Section ResolverClaims.

Context (E : Env).

(** C8 (the code raises). When the WebFinger document of an uncached
    handle is fetched and holds no usable self link, [finger] returns its
    result with an absent profile, and the resolver by handle then raises
    [AttributeError] on it instead of returning [None]: its test for a
    missing [profile] key never fires, the key being always there. *)
Theorem resolve_handle_without_profile_link
    (username domain : string) (w : World) (status_code : Z)
    (doc links : json) (items : list json) :
  filter (fun r => String.eqb (ra_username r) username && String.eqb (ra_domain r) domain)
         (remote_actors w) = [] ->
  net_get E (webfinger_url username domain) = Response status_code (Some doc) ->
  raise_for_status status_code = Return tt ->
  Json.get_default doc "links" (JArr []) = Return links ->
  Json.iter links = Return items ->
  first_profile_link items = Return None ->
  finger E username domain = Return (JObj [("webfinger", doc); ("profile", JNull)])
  /\ get_or_create_with_username_domain E username domain w = (Raise AttributeError, w).
Proof.
  intros Hcache Hget Hstatus Hlinks Hiter Hfirst.
  assert (Hf : finger E username domain
               = Return (JObj [("webfinger", doc); ("profile", JNull)])).
  { unfold finger, get_checked. rewrite Hget, Hstatus.
    cbn [rbind response_json or_raise wrapping_request_errors].
    rewrite Hlinks. cbn [rbind]. rewrite Hiter. cbn [rbind]. by rewrite Hfirst. }
  split; [exact Hf|].
  cbv [get_or_create_with_username_domain try_except bind RemoteActor_get
       get_world lift get_one].
  rewrite Hcache. cbn [is_DoesNotExist]. by rewrite Hf.
Qed.

End ResolverClaims.

Lemma resolve_handle_without_profile_link_witness :
  finger Fixture.federation "foo" "example.com"
  = Return (JObj [("webfinger", JObj [("links", JArr [])]); ("profile", JNull)])
  /\ get_or_create_with_username_domain Fixture.federation "foo" "example.com"
       Fixture.acquainted
     = (Raise AttributeError, Fixture.acquainted).
Proof.
  apply (resolve_handle_without_profile_link Fixture.federation "foo" "example.com"
           Fixture.acquainted 200 (JObj [("links", JArr [])]) (JArr []) []);
    reflexivity.
Defined.

(** C10 (the code breaks the exclusivity). A remote document that names
    the URL of a locally authored note as its [id] makes [upsert_remote]
    load that note and set its remote author: the stored row then has both
    authors.  The same happens when the object arrives in a signed [Create]
    at the inbox. *)
Theorem upsert_remote_sets_second_author :
  let hijacked :=
    {| note_id := Some 3; note_parent := None; note_local_actor := Some 1;
       note_remote_actor := Some 2; note_published_at := 0;
       note_updated_at := timezone_now Fixture.federation;
       note_content := "hijacked";
       note_content_url := "https://remote.example/notes/9" |} in
  notes Fixture.with_note = [Fixture.bob_note]
  /\ note_local_actor Fixture.bob_note = Some 1
  /\ note_remote_actor Fixture.bob_note = None
  /\ notes (snd (upsert_remote Fixture.federation 5 "https://local.example"
                   (JObj [("id", JStr "https://remote.example/notes/9")])
                   Fixture.with_note)) = [hijacked]
  /\ fst (inbox Fixture.federation 5 (Fixture.inbox_request "create-note") "bob"
            Fixture.with_note) = Return ok_response
  /\ notes (snd (inbox Fixture.federation 5 (Fixture.inbox_request "create-note") "bob"
                   Fixture.with_note)) = [hijacked].
Proof. repeat split; vm_compute; reflexivity. Qed.

(** C7, as stated, fails: alice is known to the node but does not follow
    bob, and her signed [Undo] of her own [Follow] is acknowledged with a
    200 response, the store being left as it was. *)
Lemma undo_follow_of_non_follower_is_acknowledged :
  followers Fixture.acquainted = []
  /\ inbox Fixture.federation 5 (Fixture.inbox_request "undo-follow") "bob"
       Fixture.acquainted
     = (Return ok_response, Fixture.acquainted)
  /\ status (respond (Return ok_response)) = 200%Z.
Proof. repeat split; vm_compute; reflexivity. Qed.

(** ** The state monad: invariants and exception classes *)

Open Scope list_scope.

Section SafeRules.
Context {I : World -> Prop} {X : exn -> Prop}.

Lemma safe_ret {A} (a : A) : safe I X (ret a).
Proof. intros w Hw. split; [done|]. intros e [=]. Qed.

Lemma safe_raise {A} e : X e -> safe I X (@raise A e).
Proof. intros He w Hw. split; [done|]. by intros e' [= <-]. Qed.

Lemma safe_lift {A} (r : result A) : (forall e, r = Raise e -> X e) -> safe I X (lift r).
Proof. intros Hr w Hw. split; [done|]. exact Hr. Qed.

Lemma safe_get_world : safe I X get_world.
Proof. intros w Hw. split; [done|]. intros e [=]. Qed.

Lemma safe_modify f : (forall w, I w -> I (f w)) -> safe I X (modify f).
Proof. intros Hf w Hw. split; [by apply Hf|]. intros e [=]. Qed.

Lemma safe_bind {A B} (m : M A) (k : A -> M B) :
  safe I X m -> (forall a, safe I X (k a)) -> safe I X (bind m k).
Proof.
  intros Hm Hk w Hw. unfold bind. destruct (Hm w Hw) as [Hi Hx].
  destruct (m w) as [[a|e] w']; cbn [fst snd] in *.
  - by apply Hk.
  - split; [done|]. intros e' [= <-]. by apply Hx.
Qed.

Lemma safe_try_except {A} (body handler : M A) caught :
  safe I (fun e => caught e = true \/ X e) body -> safe I X handler ->
  safe I X (try_except body caught handler).
Proof.
  intros Hb Hh w Hw. unfold try_except. destruct (Hb w Hw) as [Hi Hx].
  destruct (body w) as [[a|e] w']; cbn [fst snd] in *.
  - split; [done|]. intros e [=].
  - destruct (caught e) eqn:Hc.
    + by apply Hh.
    + split; [done|]. intros e' [= <-]. destruct (Hx e eq_refl); congruence.
Qed.

Lemma safe_for_each {A} (xs : list A) body :
  (forall x, safe I X (body x)) -> safe I X (for_each xs body).
Proof.
  intros Hb. induction xs as [|x xs IH]; cbn [for_each].
  - apply safe_ret.
  - apply safe_bind; [apply Hb|]. intros _. apply IH.
Qed.

End SafeRules.

Lemma safe_weaken {A} (I : World -> Prop) (X X' : exn -> Prop) (m : M A) :
  (forall e, X e -> X' e) -> safe I X m -> safe I X' m.
Proof. intros HX Hm w Hw. destruct (Hm w Hw). split; auto. Qed.

Create HintDb safe discriminated.

Ltac safe_leaf := first [done | by (intros; auto) | solve [auto with safe] | solve [eauto with safe]].

Ltac safe_step :=
  lazymatch goal with
  | |- safe _ _ (bind _ _) => apply safe_bind; [|intros ?]
  | |- safe _ _ (ret _) => apply safe_ret
  | |- safe _ _ (raise _) => apply safe_raise; safe_leaf
  | |- safe _ _ (lift _) => apply safe_lift; safe_leaf
  | |- safe _ _ get_world => apply safe_get_world
  | |- safe _ _ (modify _) => apply safe_modify; safe_leaf
  | |- safe _ _ (try_except _ _ _) => apply safe_try_except; [apply (safe_weaken _ _ _ _ (fun e H => or_intror H))|]
  | |- safe _ _ (for_each _ _) => apply safe_for_each; intros ?
  | |- safe _ _ (match ?x with _ => _ end) => destruct x
  | |- safe _ _ (let _ := _ in _) => cbv zeta
  | |- safe _ _ _ => safe_leaf
  end.

Ltac safe_go := repeat safe_step.

Abbreviation keeps I m := (safe I (fun _ => True) m).

Section Keeps.
Context (I : World -> Prop).
Hypothesis I_local : forall f w, I w -> I (set_local_actors f w).
Hypothesis I_remote : forall f w, I w -> I (set_remote_actors f w).
Hypothesis I_likes : forall f w, I w -> I (set_likes f w).
Hypothesis I_announces : forall f w, I w -> I (set_announces f w).
Hypothesis I_sent : forall f w, I w -> I (set_sent f w).
Hypothesis I_next : forall w, I w -> I (set_next_pk S w).
Hypothesis I_follow : forall E r l, keeps I (Follower_get_or_create E r l).
Hypothesis I_unfollow : forall l r, keeps I (followers_remove l r).
Hypothesis I_save : forall E n, keeps I (Note_save E n).

Hint Resolve I_local I_remote I_likes I_announces I_sent I_next I_follow I_unfollow I_save : safe.

Lemma keeps_fresh_pk : keeps I fresh_pk.
Proof. unfold fresh_pk. safe_go. Qed.
Hint Resolve keeps_fresh_pk : safe.

Lemma keeps_requests_post E req : keeps I (requests_post E req).
Proof. unfold requests_post. safe_go. Qed.
Hint Resolve keeps_requests_post : safe.

Lemma keeps_signed_post E url pk kid h b : keeps I (signed_post E url pk kid h b).
Proof. unfold signed_post. safe_go. Qed.
Hint Resolve keeps_signed_post : safe.

Lemma keeps_LocalActor_get p : keeps I (LocalActor_get p).
Proof. unfold LocalActor_get. safe_go. Qed.
Lemma keeps_RemoteActor_get p : keeps I (RemoteActor_get p).
Proof. unfold RemoteActor_get. safe_go. Qed.
Lemma keeps_Note_get u : keeps I (Note_get u).
Proof. unfold Note_get. safe_go. Qed.
Hint Resolve keeps_LocalActor_get keeps_RemoteActor_get keeps_Note_get : safe.

Lemma keeps_get_by_url E url : keeps I (get_by_url E url).
Proof. unfold get_by_url. safe_go. Qed.
Hint Resolve keeps_get_by_url : safe.

Lemma keeps_LocalActor_save_new a b c d : keeps I (LocalActor_save_new a b c d).
Proof. unfold LocalActor_save_new. safe_go. Qed.

Lemma keeps_RemoteActor_create u d url p : keeps I (RemoteActor_create u d url p).
Proof. unfold RemoteActor_create. safe_go. Qed.
Hint Resolve keeps_RemoteActor_create : safe.

Lemma keeps_get_or_create_with_url E url : keeps I (get_or_create_with_url E url).
Proof. unfold get_or_create_with_url. safe_go. Qed.
Hint Resolve keeps_get_or_create_with_url : safe.

Lemma keeps_get_or_create_with_username_domain E u d :
  keeps I (get_or_create_with_username_domain E u d).
Proof. unfold get_or_create_with_username_domain. safe_go. Qed.
Hint Resolve keeps_get_or_create_with_username_domain : safe.


Lemma keeps_followers_all l : keeps I (followers_all l).
Proof. unfold followers_all. safe_go. Qed.
Hint Resolve keeps_followers_all : safe.

Lemma keeps_parse_mentions E content : keeps I (parse_mentions E content).
Proof.
  unfold parse_mentions. induction (mention_finditer E content) as [|key rest IH].
  - safe_go.
  - safe_go; try exact IH.
Qed.
Hint Resolve keeps_parse_mentions : safe.

Lemma keeps_Note_local_actor n : keeps I (Note_local_actor n).
Proof. unfold Note_local_actor. safe_go. Qed.
Lemma keeps_Note_remote_actor n : keeps I (Note_remote_actor n).
Proof. unfold Note_remote_actor. safe_go. Qed.
Lemma keeps_Note_parent n : keeps I (Note_parent n).
Proof. unfold Note_parent. safe_go. Qed.
Hint Resolve keeps_Note_local_actor keeps_Note_remote_actor keeps_Note_parent : safe.

Lemma keeps_Note_as_json E n b : keeps I (Note_as_json E n b).
Proof. unfold Note_as_json. safe_go. Qed.
Hint Resolve keeps_Note_as_json : safe.

Lemma keeps_signed_post_to E i pk kid b : keeps I (signed_post_to E i pk kid b).
Proof. unfold signed_post_to. safe_go. Qed.
Hint Resolve keeps_signed_post_to : safe.

Lemma keeps_deliver_to_followers E a u m : keeps I (deliver_to_followers E a u m).
Proof. unfold deliver_to_followers. safe_go. Qed.
Hint Resolve keeps_deliver_to_followers : safe.

Lemma keeps_send_create E b n : keeps I (send_create_note_to_followers E b n).
Proof. unfold send_create_note_to_followers. safe_go. Qed.
Lemma keeps_send_update E b n : keeps I (send_update_note_to_followers E b n).
Proof. unfold send_update_note_to_followers. safe_go. Qed.
Lemma keeps_send_delete E b n : keeps I (send_delete_note_to_followers E b n).
Proof. unfold send_delete_note_to_followers. safe_go. Qed.
Hint Resolve keeps_send_create keeps_send_update keeps_send_delete : safe.

Lemma keeps_upsert E b a c u : keeps I (upsert E b a c u).
Proof. unfold upsert. safe_go. Qed.

Lemma keeps_delete_local E b u : keeps I (delete_local E b u).
Proof. unfold delete_local. safe_go. Qed.

Lemma keeps_upsert_remote E depth b obj : keeps I (upsert_remote E depth b obj).
Proof.
  revert obj. induction depth as [|depth IH]; intros obj; cbn [upsert_remote].
  - safe_go.
  - safe_go; try apply IH.
Qed.
Hint Resolve keeps_upsert keeps_delete_local keeps_upsert_remote : safe.

Lemma keeps_validate_post_request E r a : keeps I (validate_post_request E r a).
Proof. unfold validate_post_request. safe_go. Qed.
Hint Resolve keeps_validate_post_request : safe.

Lemma keeps_inbox_follow_accept E r a act R : keeps I (inbox_follow_accept E r a act R).
Proof. unfold inbox_follow_accept. safe_go. Qed.
Hint Resolve keeps_inbox_follow_accept : safe.

Lemma keeps_inbox_follow E r a act : keeps I (inbox_follow E r a act).
Proof. unfold inbox_follow. safe_go. Qed.

Lemma keeps_note_or_404 u : keeps I (note_or_404 u).
Proof. unfold note_or_404. safe_go. Qed.
Lemma keeps_remote_actor_or_404 u : keeps I (remote_actor_or_404 u).
Proof. unfold remote_actor_or_404. safe_go. Qed.
Hint Resolve keeps_inbox_follow keeps_note_or_404 keeps_remote_actor_or_404 : safe.

Lemma keeps_inbox_react_likes E act : keeps I (inbox_react E set_likes act).
Proof. unfold inbox_react. safe_go. Qed.
Lemma keeps_inbox_react_announces E act : keeps I (inbox_react E set_announces act).
Proof. unfold inbox_react. safe_go. Qed.
Lemma keeps_inbox_undo E a act : keeps I (inbox_undo E a act).
Proof. unfold inbox_undo. safe_go. Qed.
Hint Resolve keeps_inbox_react_likes keeps_inbox_react_announces keeps_inbox_undo : safe.

Lemma keeps_inbox_dispatch E depth r a act : keeps I (inbox_dispatch E depth r a act).
Proof. unfold inbox_dispatch. safe_go. Qed.
Hint Resolve keeps_inbox_dispatch : safe.

Lemma keeps_inbox E depth r u : keeps I (inbox E depth r u).
Proof. unfold inbox. safe_go. Qed.

Lemma keeps_run o w : I w -> I (run o w).
Proof.
  intros Hw. destruct o; cbn [run].
  - by apply keeps_inbox.
  - by apply keeps_upsert.
  - by apply keeps_delete_local.
  - by apply keeps_upsert_remote.
  - by apply keeps_get_or_create_with_url.
  - by apply keeps_get_or_create_with_username_domain.
  - by apply keeps_LocalActor_save_new.
Qed.

Lemma keeps_reachable w : I empty_world -> reachable w -> I w.
Proof. intros H0. induction 1; [done|]. by apply keeps_run. Qed.

End Keeps.

(** follower uniqueness *)

Lemma same_pair_iff (f : Follower) r l :
  Is_true (Nat.eqb (fo_remote_actor f) r && Nat.eqb (fo_following f) l)
  <-> follower_pair f = (r, l).
Proof.
  unfold follower_pair. rewrite andb_True, !Is_true_true, !Nat.eqb_eq.
  split; [by intros [-> ->]|by intros [= -> ->]].
Qed.

Lemma Follower_get_or_create_run E r l w :
  match filter (fun f => Is_true (Nat.eqb (fo_remote_actor f) r && Nat.eqb (fo_following f) l))
               (followers w) with
  | [] =>
      let row := {| fo_id := next_pk w; fo_remote_actor := r; fo_following := l;
                    fo_follow_date := timezone_now E |} in
      Follower_get_or_create E r l w
      = (Return row, set_followers (fun fs => (fs ++ [row])%list) (set_next_pk S w))
  | [f] => Follower_get_or_create E r l w = (Return f, w)
  | _ => Follower_get_or_create E r l w = (Raise (MultipleObjectsReturned FollowerM), w)
  end.
Proof.
  cbv [Follower_get_or_create try_except bind get_world lift get_one fresh_pk modify ret raise].
  destruct (filter _ (followers w)) as [|f [|f' fs]] eqn:Hf; cbn [is_DoesNotExist]; try done.
  assert (Hex : existsb (fun f => Nat.eqb (fo_remote_actor f) r && Nat.eqb (fo_following f) l)
                  (followers w) = false).
  { apply not_true_is_false. intros (f & Hin & Hp)%existsb_exists.
    assert (f ∈ filter (fun f => Is_true (Nat.eqb (fo_remote_actor f) r
                                             && Nat.eqb (fo_following f) l)) (followers w)).
    { apply list_elem_of_filter. split; [by apply Is_true_true|by apply list_elem_of_In]. }
    rewrite Hf in H. by apply not_elem_of_nil in H. }
  by rewrite Hex.
Qed.

Lemma follower_unique_follow E r l : keeps follower_unique (Follower_get_or_create E r l).
Proof.
  intros w Hw. split; [|done].
  pose proof (Follower_get_or_create_run E r l w) as Hrun.
  destruct (filter _ (followers w)) as [|f [|f' fs]] eqn:Hf; cbv zeta in Hrun;
    rewrite Hrun; cbn [snd]; try done.
  unfold follower_unique in *. cbn [followers set_followers set_next_pk].
  rewrite map_app. cbn [map]. apply NoDup_app. split; [done|]. split.
  - intros p Hp ->%list_elem_of_singleton.
    apply list_elem_of_fmap in Hp as (f & Hpair & Hin).
    assert (f ∈ filter (fun f => Is_true (Nat.eqb (fo_remote_actor f) r
                                             && Nat.eqb (fo_following f) l)) (followers w)).
    { apply list_elem_of_filter. split; [|done]. by apply same_pair_iff. }
    rewrite Hf in H. by apply not_elem_of_nil in H.
  - apply NoDup_singleton.
Qed.

Lemma NoDup_map_filter {A B} (g : A -> B) (P : A -> Prop) `{!forall x, Decision (P x)} l :
  NoDup (map g l) -> NoDup (map g (filter P l)).
Proof.
  induction l as [|x l IH]; [done|]. cbn [map]. intros [Hx Hl]%NoDup_cons.
  rewrite filter_cons. destruct (decide (P x)); [|by apply IH].
  cbn [map]. apply NoDup_cons. split; [|by apply IH].
  intros Hin. apply Hx. apply list_elem_of_fmap in Hin as (y & -> & Hy).
  apply list_elem_of_filter in Hy as [_ Hy]. apply list_elem_of_fmap. by exists y.
Qed.

Lemma follower_unique_unfollow l r : keeps follower_unique (followers_remove l r).
Proof.
  intros w Hw. split; [|done]. unfold followers_remove, modify. cbn [snd].
  unfold follower_unique in *. cbn [followers set_followers].
  by apply NoDup_map_filter.
Qed.

Lemma follower_unique_save E n : keeps follower_unique (Note_save E n).
Proof.
  intros w Hw. split; [|done]. unfold Note_save.
  destruct (note_id n); cbv [bind fresh_pk get_world modify ret]; exact Hw.
Qed.

Lemma reachable_follower_unique w : reachable w -> follower_unique w.
Proof.
  apply keeps_reachable; try done.
  - apply follower_unique_follow.
  - apply follower_unique_unfollow.
  - apply follower_unique_save.
  - apply NoDup_nil_2.
Qed.

(** runs *)

Lemma validate_post_request_pure E req act :
  exists r, (forall w, validate_post_request E req act w = (r, w))
            /\ forall resp, r = Return (Some resp) -> status resp <> 200%Z.
Proof.
  cbv [validate_post_request bind lift ret raise error_response json_response].
  repeat case_match; eexists; (split; [intros w; reflexivity|]);
    intros resp' [=]; subst; cbn; done.
Qed.

Lemma get_by_url_run E url w :
  snd (get_by_url E url w) = w
  /\ forall w', local_actors w' = local_actors w ->
       fst (get_by_url E url w') = fst (get_by_url E url w).
Proof.
  cbv [get_by_url bind lift ret LocalActor_get get_world].
  destruct (Urls.resolve _); [|done]. destruct (_ =? _)%string; [|done]. cbv beta.
  split.
  - by destruct (get_one _ _ _).
  - intros w' ->. by destruct (get_one _ _ _).
Qed.

Lemma signed_post_run E url pk kid h b w :
  snd (signed_post E url pk kid h b w) = w
  \/ exists req, snd (signed_post E url pk kid h b w) = set_sent (fun l => (l ++ [req])%list) w.
Proof.
  cbv [signed_post bind lift requests_post modify raise ret].
  destruct (signed_post_headers _ _ _ _ _ _); [|by left].
  right. eexists. by destruct (net_post E _).
Qed.

Lemma get_or_create_with_url_found E url w R :
  filter (fun r => Is_true (String.eqb (ra_url r) url)) (remote_actors w) = [R] ->
  get_or_create_with_url E url w = (Return R, w).
Proof.
  intros H. cbv [get_or_create_with_url try_except bind RemoteActor_get get_world lift get_one].
  by rewrite H.
Qed.

Lemma get_or_create_with_url_success E url w R w' :
  get_or_create_with_url E url w = (Return R, w') ->
  filter (fun r => Is_true (String.eqb (ra_url r) url)) (remote_actors w') = [R]
  /\ local_actors w' = local_actors w /\ followers w' = followers w.
Proof.
  cbv [get_or_create_with_url try_except bind RemoteActor_get get_world lift get_one
       RemoteActor_create fresh_pk modify ret raise].
  destruct (filter _ (remote_actors w)) as [|r [|r' rs]] eqn:Hf; cbn [is_DoesNotExist].
  - destruct (fetch_remote_profile E (JStr url)); [|done].
    destruct (Json.get a "preferredUsername") as [[]|]; try done.
    destruct (existsb _ _); [done|]. intros [= <- <-].
    cbn [remote_actors set_remote_actors set_next_pk local_actors followers].
    rewrite filter_app, Hf. cbn [app]. rewrite filter_cons. cbn [ra_url].
    rewrite decide_True by (apply Is_true_true, String.eqb_refl). done.
  - intros [= <- <-]. done.
  - done.
Qed.

Lemma Follower_get_or_create_success E r l w f w' :
  Follower_get_or_create E r l w = (Return f, w') ->
  edges r l w' = [f]
  /\ local_actors w' = local_actors w /\ remote_actors w' = remote_actors w.
Proof.
  pose proof (Follower_get_or_create_run E r l w) as Hrun. unfold edges.
  destruct (filter _ (followers w)) as [|f0 [|f1 fs]] eqn:Hf; cbv zeta in Hrun;
    rewrite Hrun; intros [= <- <-]; [|done].
  cbn [followers set_followers set_next_pk local_actors remote_actors].
  rewrite filter_app, Hf. cbn [app]. rewrite filter_cons.
  cbn [fo_remote_actor fo_following].
  rewrite decide_True by (by rewrite !Nat.eqb_refl). done.
Qed.

Lemma Follower_get_or_create_found E r l w f :
  edges r l w = [f] -> Follower_get_or_create E r l w = (Return f, w).
Proof.
  intros H. pose proof (Follower_get_or_create_run E r l w) as Hrun.
  unfold edges in H. by rewrite H in Hrun.
Qed.

Lemma signed_post_result E url pk kid h b w w' :
  fst (signed_post E url pk kid h b w) = fst (signed_post E url pk kid h b w').
Proof.
  cbv [signed_post bind lift requests_post modify raise ret].
  destruct (signed_post_headers _ _ _ _ _ _); [|done]. by destruct (net_post E _).
Qed.

Lemma signed_post_frame E url pk kid h b w :
  local_actors (snd (signed_post E url pk kid h b w)) = local_actors w
  /\ remote_actors (snd (signed_post E url pk kid h b w)) = remote_actors w
  /\ followers (snd (signed_post E url pk kid h b w)) = followers w.
Proof. by destruct (signed_post_run E url pk kid h b w) as [->|[req ->]]. Qed.

Lemma signed_post_to_frame E i pk kid b w :
  fst (signed_post_to E i pk kid b w) = fst (signed_post_to E i pk kid b w)
  /\ local_actors (snd (signed_post_to E i pk kid b w)) = local_actors w
  /\ remote_actors (snd (signed_post_to E i pk kid b w)) = remote_actors w
  /\ followers (snd (signed_post_to E i pk kid b w)) = followers w.
Proof.
  split; [done|]. unfold signed_post_to.
  destruct i; try (cbv [bind lift raise]; by destruct (signed_post_headers _ _ _ _ _ _)).
  apply signed_post_frame.
Qed.

Lemma signed_post_to_result E i pk kid b w w' :
  fst (signed_post_to E i pk kid b w) = fst (signed_post_to E i pk kid b w').
Proof.
  unfold signed_post_to.
  destruct i; try (cbv [bind lift raise]; by destruct (signed_post_headers _ _ _ _ _ _)).
  apply signed_post_result.
Qed.

Section Follow.
Context (E : Env) (request : HttpRequest) (actor : LocalActor) (activity : json).

Abbreviation follow_tail := (inbox_follow_accept E request actor activity).

Lemma follow_tail_found R f w :
  edges (ra_id R) (la_id actor) w = [f] ->
  followers (snd (follow_tail R w)) = followers w
  /\ forall w0 f0 w0' resp w1,
       Follower_get_or_create E (ra_id R) (la_id actor) w0 = (Return f0, w0') ->
       follow_tail R w0 = (Return resp, w1) ->
       exists w2, follow_tail R w = (Return resp, w2).
Proof.
  intros Hedge. unfold inbox_follow_accept.
  cbv [bind lift ret]. rewrite (Follower_get_or_create_found E _ _ w f Hedge).
  split.
  - destruct (reverse _ _) as [location|]; [|done].
    destruct (Json.get _ _) as [i|]; [|done].
    match goal with |- context [signed_post_to E i ?pk ?kid ?b w] =>
      destruct (signed_post_to_frame E i pk kid b w) as (_ & _ & _ & Hf);
      destruct (signed_post_to E i pk kid b w) as [[st|e] w']; cbn [snd] in *
    end; [|done].
    by destruct (raise_for_status st).
  - intros w0 f0 w0' resp w1 -> Hrun.
    destruct (reverse _ _) as [location|]; [|done].
    destruct (Json.get _ _) as [i|]; [|done].
    match type of Hrun with context [signed_post_to E i ?pk ?kid ?b w0'] =>
      pose proof (signed_post_to_result E i pk kid b w0' w) as Hres;
      destruct (signed_post_to E i pk kid b w0') as [[st|e] wc];
      destruct (signed_post_to E i pk kid b w) as [[st'|e'] wc']; cbn [fst] in Hres
    end; try done.
    injection Hres as <-.
    destruct (raise_for_status st); [|done]. injection Hrun as <- <-. by eexists.
Qed.

End Follow.

Lemma follow_tail_success E request actor activity R w resp w1 :
  inbox_follow_accept E request actor activity R w = (Return resp, w1) ->
  exists f wb,
    Follower_get_or_create E (ra_id R) (la_id actor) w = (Return f, wb)
    /\ followers w1 = followers wb /\ local_actors w1 = local_actors wb
    /\ remote_actors w1 = remote_actors wb.
Proof.
  unfold inbox_follow_accept. cbv [bind lift ret].
  destruct (Follower_get_or_create _ _ _ _) as [[f|e] wb]; [|done].
  destruct (reverse _ _) as [location|]; [|done].
  destruct (Json.get _ _) as [i|]; [|done].
  match goal with |- context [signed_post_to E i ?pk ?kid ?b wb] =>
    destruct (signed_post_to_frame E i pk kid b wb) as (_ & Hl & Hr & Hf);
    destruct (signed_post_to E i pk kid b wb) as [[st|e] wc]; cbn [snd] in *
  end; [|done].
  destruct (raise_for_status st); [|done]. intros [= <- <-]. by eexists _, _.
Qed.

Lemma inbox_follow_success E request actor activity aurl w resp w1 :
  Json.item activity "actor" = Return (JStr aurl) ->
  inbox_follow E request actor activity w = (Return resp, w1) ->
  status resp = 200%Z ->
  exists R wa,
    get_or_create_with_url E aurl w = (Return R, wa)
    /\ inbox_follow_accept E request actor activity R wa = (Return resp, w1).
Proof.
  intros Hactor. unfold inbox_follow. cbv [bind lift ret raise].
  rewrite Hactor. cbn [Json.as_str].
  destruct (Json.item activity "object") as [o|]; [|done].
  destruct (Json.as_str o) as [ourl|]; [|done].
  destruct (get_by_url_run E ourl w) as [Hs _].
  destruct (get_by_url E ourl w) as [[[la|]|e] w']; cbn [snd] in Hs; subst w'; try done.
  destruct (negb _).
  { intros [= <- <-]. done. }
  destruct (get_or_create_with_url E aurl w) as [[R|e] wa]; [|done].
  intros Hrun _. by eexists _, _.
Qed.

Lemma inbox_follow_known E request actor activity aurl R f w :
  Json.item activity "actor" = Return (JStr aurl) ->
  filter (fun r => Is_true (String.eqb (ra_url r) aurl)) (remote_actors w) = [R] ->
  edges (ra_id R) (la_id actor) w = [f] ->
  followers (snd (inbox_follow E request actor activity w)) = followers w.
Proof.
  intros Hactor HR Hedge. unfold inbox_follow. cbv [bind lift ret raise].
  rewrite Hactor. cbn [Json.as_str].
  destruct (Json.item activity "object") as [o|]; [|done].
  destruct (Json.as_str o) as [ourl|]; [|done].
  destruct (get_by_url_run E ourl w) as [Hs _].
  destruct (get_by_url E ourl w) as [[[la|]|e] w']; cbn [snd] in Hs; subst w'; try done.
  destruct (negb _); [done|].
  rewrite (get_or_create_with_url_found E aurl w R HR).
  by apply (follow_tail_found E request actor activity R f w).
Qed.

Lemma inbox_follow_replay E request actor activity aurl R f w resp w1 w' :
  Json.item activity "actor" = Return (JStr aurl) ->
  inbox_follow E request actor activity w = (Return resp, w1) ->
  status resp = 200%Z ->
  local_actors w' = local_actors w ->
  filter (fun r => Is_true (String.eqb (ra_url r) aurl)) (remote_actors w') = [R] ->
  edges (ra_id R) (la_id actor) w' = [f] ->
  (forall R0 wa, get_or_create_with_url E aurl w = (Return R0, wa) -> R0 = R) ->
  exists w2, inbox_follow E request actor activity w' = (Return resp, w2).
Proof.
  intros Hactor Hrun Hst Hloc HR Hedge Hsame.
  unfold inbox_follow in *. cbv [bind lift ret raise] in *.
  rewrite Hactor in *. cbn [Json.as_str] in *.
  destruct (Json.item activity "object") as [o|]; [|done].
  destruct (Json.as_str o) as [ourl|]; [|done].
  destruct (get_by_url_run E ourl w) as [Hs Hfst]. specialize (Hfst w' Hloc).
  destruct (get_by_url_run E ourl w') as [Hs' _].
  destruct (get_by_url E ourl w) as [[[la|]|e] wx]; cbn [snd fst] in *; subst wx; try done.
  destruct (get_by_url E ourl w') as [r' wx']; cbn [snd fst] in *; subst wx' r'.
  destruct (negb _).
  { injection Hrun as <- <-. done. }
  rewrite (get_or_create_with_url_found E aurl w' R HR).
  destruct (get_or_create_with_url E aurl w) as [[R0|e] wa] eqn:Hgoc; [|done].
  rewrite (Hsame R0 wa eq_refl) in Hrun.
  destruct (follow_tail_success _ _ _ _ _ _ _ _ Hrun) as (f0 & wb & Hfg & _).
  destruct (follow_tail_found E request actor activity R f w' Hedge) as [_ Hrep].
  by eapply Hrep.
Qed.

Lemma inbox_branch E depth request username activity :
  json_loads E (body request) = Some activity ->
  exists r,
    (forall resp, r = Return (Some resp) -> status resp <> 200%Z)
    /\ (forall w, validate_post_request E request activity w = (r, w))
    /\ forall w,
      inbox E depth request username w =
      if String.eqb (method request) "POST" then
        match r with
        | Return None =>
            match get_one LocalActorM (local_actors w) (named username) with
            | Return L => inbox_dispatch E depth request L activity w
            | Raise e =>
                if is_DoesNotExist LocalActorM e
                then (Return (json_response (JObj []) 404), w)
                else (Raise e, w)
            end
        | Return (Some resp) => (Return resp, w)
        | Raise e => (Raise e, w)
        end
      else (Return (json_response (JObj []) 405), w).
Proof.
  intros Hloads.
  destruct (validate_post_request_pure E request activity) as (r & Hr & Hst).
  exists r. split; [exact Hst|]. split; [exact Hr|]. intros w'.
  unfold inbox. destruct (String.eqb (method request) "POST"); [|done].
  rewrite Hloads. cbv [or_raise]. unfold bind at 1. cbv [lift].
  unfold bind at 1. rewrite Hr. destruct r as [[resp|]|e]; try done.
  unfold bind at 1. cbv [try_except bind LocalActor_get get_world lift ret].
  destruct (get_one LocalActorM (local_actors w') (named username)) as [L|e]; [done|].
  destruct (is_DoesNotExist LocalActorM e); done.
Qed.

Lemma inbox_dispatch_follow E depth request actor activity w :
  Json.item activity "type" = Return (JStr "Follow") ->
  inbox_dispatch E depth request actor activity w = inbox_follow E request actor activity w.
Proof. intros H. unfold inbox_dispatch, bind, lift. by rewrite H. Qed.

Lemma inbox_dispatch_undo E depth request actor activity w :
  Json.item activity "type" = Return (JStr "Undo") ->
  inbox_dispatch E depth request actor activity w = inbox_undo E actor activity w.
Proof. intros H. unfold inbox_dispatch, bind, lift. by rewrite H. Qed.

(** C6. In every reachable state there is at most one follower row per
    (remote actor, local actor) pair.  And once a [Follow] sent by the actor
    [aurl] to the inbox of [username] has been acknowledged, exactly one row
    [f] joins the two; from then on a [Follow] from the same actor to the
    same inbox, whatever the request and the environment, leaves the
    follower table as it is, and the same request in the same environment
    is acknowledged again rather than refused. *)
Theorem follower_edges_are_unique :
  (forall w, reachable w -> follower_unique w)
  /\ forall E depth request username aurl resp w0 w1,
       is_follow_from E request aurl ->
       inbox E depth request username w0 = (Return resp, w1) ->
       status resp = 200%Z ->
       exists R L f,
         filter (fun r => Is_true (String.eqb (ra_url r) aurl)) (remote_actors w1) = [R]
         /\ get_one LocalActorM (local_actors w1) (named username) = Return L
         /\ edges (ra_id R) (la_id L) w1 = [f]
         /\ (forall E' depth' request',
               is_follow_from E' request' aurl ->
               followers (snd (inbox E' depth' request' username w1)) = followers w1)
         /\ exists w2, inbox E depth request username w1 = (Return resp, w2).
Proof.
  split; [exact reachable_follower_unique|].
  intros E depth request username aurl resp w0 w1 (activity & Hloads & Htype & Hactor)
    Hrun Hstatus.
  destruct (inbox_branch E depth request username activity Hloads)
    as (r & Hr & _ & Hinbox).
  pose proof (Hinbox w0) as H0. rewrite Hrun in H0.
  destruct (String.eqb (method request) "POST") eqn:Hpost;
    [|injection H0 as -> _; done].
  destruct r as [[resp'|]|e]; [injection H0 as -> _; by destruct (Hr _ eq_refl)| |done].
  destruct (get_one LocalActorM (local_actors w0) (named username)) as [L|e] eqn:HL;
    [|destruct (is_DoesNotExist _ _); [injection H0 as -> _|]; done].
  symmetry in H0. rewrite (inbox_dispatch_follow _ _ _ _ _ _ Htype) in H0.
  destruct (inbox_follow_success E request L activity aurl w0 resp w1 Hactor H0 Hstatus)
    as (R & wa & Hgoc & Htail).
  destruct (get_or_create_with_url_success E aurl w0 R wa Hgoc) as (HRa & Hla & _).
  destruct (follow_tail_success E request L activity R wa resp w1 Htail)
    as (f & wb & Hfg & Hf1 & Hl1 & Hr1).
  destruct (Follower_get_or_create_success E _ _ wa f wb Hfg) as (Hedge & Hlb & Hrb).
  assert (HR1 : filter (fun r => Is_true (String.eqb (ra_url r) aurl)) (remote_actors w1)
                = [R]) by (by rewrite Hr1, Hrb).
  assert (HL1 : local_actors w1 = local_actors w0) by (by rewrite Hl1, Hlb, Hla).
  assert (He1 : edges (ra_id R) (la_id L) w1 = [f]).
  { unfold edges in *. by rewrite Hf1. }
  exists R, L, f. split; [exact HR1|]. split; [by rewrite HL1|]. split; [exact He1|].
  split.
  - intros E' depth' request' (activity' & Hloads' & Htype' & Hactor').
    destruct (inbox_branch E' depth' request' username activity' Hloads')
      as (r' & _ & _ & ->).
    destruct (String.eqb (method request') "POST"); [|done].
    destruct r' as [[?|]|?]; try done.
    rewrite HL1, HL, (inbox_dispatch_follow _ _ _ _ _ _ Htype').
    by apply (inbox_follow_known E' request' L activity' aurl R f w1).
  - rewrite Hinbox, HL1, HL, (inbox_dispatch_follow _ _ _ _ _ _ Htype).
    apply (inbox_follow_replay E request L activity aurl R f w0 resp w1 w1); try done.
    intros R0 wa0 Hgoc0. rewrite Hgoc in Hgoc0. by injection Hgoc0.
Qed.

(** ** Notes: what [upsert] stores and sends *)

Ltac no_miss :=
  unfold never_note_miss, not_note_miss; intros;
  repeat match goal with H : _ = Raise _ |- _ => revert H end;
  cbv [Json.get Json.get_default Json.item Json.contains Json.as_str Json.iter
       get_one raise_for_status or_raise rbind];
  repeat case_match; intros; simplify_eq; done.

Lemma first_profile_link_no_miss links : never_note_miss (first_profile_link links).
Proof.
  induction links as [|rel rest IH]; cbn [first_profile_link]; [no_miss|].
  intros e. destruct (Json.get rel "rel") as [r|e'] eqn:Hr; cbn [rbind].
  - destruct (Json.eq_str r "self"); [|apply IH].
    destruct (Json.get rel "type") as [t|e''] eqn:Ht; cbn [rbind].
    + destruct (Json.eq_str t _); [done|apply IH].
    + intros [= <-]. revert Ht. no_miss.
  - intros [= <-]. revert Hr. no_miss.
Qed.

Lemma fetch_remote_profile_no_miss E url : never_note_miss (fetch_remote_profile E url).
Proof.
  unfold fetch_remote_profile, wrapping_request_errors, get_checked, response_json.
  no_miss.
Qed.

Lemma finger_no_miss E u d : never_note_miss (finger E u d).
Proof.
  unfold finger, wrapping_request_errors, get_checked, response_json. intros e.
  destruct (net_get E _) as [|st body]; cbn [rbind is_RequestException];
    [by intros [= <-]|].
  unfold raise_for_status. destruct (_ && _); cbn [rbind is_RequestException];
    [by intros [= <-]|].
  destruct body as [doc|]; cbn [or_raise rbind is_RequestException];
    [|by intros [= <-]].
  destruct (Json.get_default doc "links" (JArr [])) as [l|] eqn:Hl; cbn [rbind];
    [|intros [= <-]; revert Hl; no_miss].
  destruct (Json.iter l) as [items|] eqn:Hi; cbn [rbind];
    [|intros [= <-]; revert Hi; no_miss].
  destruct (first_profile_link items) as [link|] eqn:Hf; cbn [rbind];
    [|intros [= <-]; by apply (first_profile_link_no_miss items)].
  destruct link as [link|]; cbn [rbind]; [|done].
  destruct (Json.get link "href") as [href|] eqn:Hh; cbn [rbind];
    [|intros [= <-]; revert Hh; no_miss].
  destruct (fetch_remote_profile E href) eqn:Hp; cbn [rbind]; [done|].
  intros [= <-]. by apply (fetch_remote_profile_no_miss E href).
Qed.

Lemma signed_post_headers_no_miss E url pk kid h b :
  never_note_miss (signed_post_headers E url pk kid h b).
Proof.
  unfold signed_post_headers, HttpSignature_build_signature, sign_message,
    content_digest_sha256, never_note_miss.
  cbv [or_raise rbind]. intros e. repeat case_match; intros; simplify_eq; done.
Qed.

Lemma reverse_no_miss name username : never_note_miss (reverse name username).
Proof. unfold reverse. no_miss. Qed.

Ltac miss_leaf :=
  first [ done
        | solve [unfold not_note_miss; done]
        | solve [auto with safe]
        | solve [apply finger_no_miss]
        | solve [apply reverse_no_miss]
        | solve [apply signed_post_headers_no_miss]
        | solve [no_miss] ].

Ltac miss_step :=
  lazymatch goal with
  | |- safe _ _ (bind _ _) => apply safe_bind; [|intros ?]
  | |- safe _ _ (ret _) => apply safe_ret
  | |- safe _ _ (raise _) => apply safe_raise; miss_leaf
  | |- safe _ _ (lift _) => apply safe_lift; miss_leaf
  | |- safe _ _ get_world => apply safe_get_world
  | |- safe _ _ (modify _) => apply safe_modify; miss_leaf
  | |- safe _ _ (try_except _ _ _) =>
      apply safe_try_except; [apply (safe_weaken _ _ _ _ (fun e H => or_intror H))|]
  | |- safe _ _ (for_each _ _) => apply safe_for_each; intros ?
  | |- safe _ _ (match ?x with _ => _ end) => destruct x
  | |- safe _ _ (let _ := _ in _) => cbv zeta
  | |- safe _ _ _ => miss_leaf
  end.

Ltac miss_go := repeat miss_step.

Section NoMiss.
Context (I : World -> Prop).
Hypothesis I_remote : forall f w, I w -> I (set_remote_actors f w).
Hypothesis I_sent : forall f w, I w -> I (set_sent f w).
Hypothesis I_next : forall w, I w -> I (set_next_pk S w).
Hint Resolve I_remote I_sent I_next : safe.

Abbreviation ok m := (safe I not_note_miss m).

Lemma ok_fresh_pk : ok fresh_pk.
Proof. unfold fresh_pk. miss_go. Qed.
Hint Resolve ok_fresh_pk : safe.

Lemma ok_signed_post_to E i pk kid b : ok (signed_post_to E i pk kid b).
Proof. unfold signed_post_to, signed_post, requests_post. miss_go. Qed.
Hint Resolve ok_signed_post_to : safe.

Lemma ok_get_or_create_with_username_domain E u d :
  ok (get_or_create_with_username_domain E u d).
Proof.
  unfold get_or_create_with_username_domain, RemoteActor_get, RemoteActor_create. miss_go.
Qed.
Hint Resolve ok_get_or_create_with_username_domain : safe.

Lemma ok_parse_mentions E content : ok (parse_mentions E content).
Proof.
  unfold parse_mentions. induction (mention_finditer E content) as [|key rest IH].
  - miss_go.
  - miss_go; try exact IH.
Qed.
Hint Resolve ok_parse_mentions : safe.

Lemma ok_Note_as_json E n b : note_parent n = None -> ok (Note_as_json E n b).
Proof.
  intros Hp. unfold Note_as_json, Note_parent, Note_local_actor, Note_remote_actor,
    LocalActor_get, RemoteActor_get, get_absolute_url.
  rewrite Hp. miss_go.
Qed.

Lemma ok_deliver_to_followers E a u m : ok (deliver_to_followers E a u m).
Proof. unfold deliver_to_followers, followers_all. miss_go. Qed.
Hint Resolve ok_deliver_to_followers : safe.

Lemma ok_send_update E b n :
  note_parent n = None -> ok (send_update_note_to_followers E b n).
Proof.
  intros Hp. unfold send_update_note_to_followers, Note_local_actor, LocalActor_get,
    get_absolute_url.
  miss_go; by apply ok_Note_as_json.
Qed.

End NoMiss.

(** stepping through a computation *)
Lemma bind_lift {A B} (r : result A) (k : A -> M B) w :
  bind (lift r) k w = match r with Return a => k a w | Raise e => (Raise e, w) end.
Proof. by destruct r. Qed.

Lemma bind_run {A B} (m : M A) (k : A -> M B) w a w' :
  m w = (Return a, w') -> bind m k w = k a w'.
Proof. unfold bind. by intros ->. Qed.

(** the delivery loop *)
Lemma set_sent_nil w : set_sent (fun l => l ++ []) w = w.
Proof. destruct w. unfold set_sent. cbn. by rewrite app_nil_r. Qed.

Lemma set_sent_app a b w :
  set_sent (fun l => l ++ b) (set_sent (fun l => l ++ a) w)
  = set_sent (fun l => l ++ (a ++ b)) w.
Proof. unfold set_sent. cbn. by rewrite app_assoc. Qed.

(** the body of the loop of the three fan-out functions *)
Abbreviation post_to_follower E private_key public_key_url msg :=
  (fun follower : RemoteActor =>
     let! inbox := lift (Json.get (ra_profile follower) "inbox") in
     let! status_code :=
       signed_post_to E inbox private_key public_key_url (Some (json_dumps E msg)) in
     lift (raise_for_status status_code)).

Section DeliveryLoop.
Context (E : Env) (private_key public_key_url : string) (msg : json).

Lemma post_to_follower_run follower req w :
  delivery E private_key public_key_url (json_dumps E msg) follower = Some req ->
  post_to_follower E private_key public_key_url msg follower w
  = (if accepted E req then Return tt else Raise (refusal E req),
     set_sent (fun l => l ++ [req]) w).
Proof.
  unfold delivery, accepted, refusal.
  cbv [bind lift signed_post_to signed_post requests_post modify raise ret].
  destruct (Json.get _ _) as [[| | |inbox| |]|]; try done.
  destruct (signed_post_headers _ _ _ _ _ _) as [hs|]; [|done].
  intros [= <-]. destruct (net_post E _) as [|status_code b]; [done|].
  unfold raise_for_status. by destruct (_ && _).
Qed.

Lemma delivery_loop_run rs :
  forall reqs w,
    Forall2 (fun r req =>
      delivery E private_key public_key_url (json_dumps E msg) r = Some req) rs reqs ->
    (Forall (fun req => accepted E req = true) reqs ->
     for_each rs (post_to_follower E private_key public_key_url msg) w = (Return tt, set_sent (fun l => l ++ reqs) w))
    /\ (forall before req rest,
          reqs = before ++ req :: rest ->
          Forall (fun req => accepted E req = true) before ->
          accepted E req = false ->
          for_each rs (post_to_follower E private_key public_key_url msg) w
          = (Raise (refusal E req), set_sent (fun l => l ++ before ++ [req]) w)).
Proof.
  induction rs as [|r rs IH]; intros reqs w Hall.
  - inversion Hall; subst. split.
    + intros _. cbn [for_each]. unfold ret. by rewrite set_sent_nil.
    + intros before req rest Heq. by destruct before.
  - inversion Hall as [|? req0 ? reqs0 Hreq Hrest]; subst.
    destruct (IH reqs0 (set_sent (fun l => l ++ [req0]) w) Hrest) as [IHok IHabort].
    split.
    + intros Hacc. inversion Hacc as [|? ? Ha Haccs]; subst.
      cbn [for_each]. unfold bind at 1.
      rewrite (post_to_follower_run r req0 w Hreq), Ha.
      rewrite (IHok Haccs). by rewrite set_sent_app.
    + intros before req rest Heq Hbefore Hreq'.
      cbn [for_each]. unfold bind at 1.
      rewrite (post_to_follower_run r req0 w Hreq).
      destruct before as [|b before]; cbn [app] in Heq.
      * injection Heq as <- <-. by rewrite Hreq'.
      * injection Heq as <- ->. inversion Hbefore as [|? ? Hb Hbefore']; subst.
        rewrite Hb. rewrite (IHabort before req rest eq_refl Hbefore' Hreq').
        by rewrite set_sent_app.
Qed.

End DeliveryLoop.

(** the document of a plain note *)
Lemma Note_as_json_plain E base_uri actor n w :
  note_local_actor n = Some (la_id actor) ->
  filter (fun a => Is_true (Nat.eqb (la_id a) (la_id actor))) (local_actors w) = [actor] ->
  Urls.is_slug (la_preferred_username actor) = true ->
  mention_finditer E (note_content n) = [] -> note_parent n = None ->
  Note_as_json E n base_uri w = (Return (note_document E base_uri actor n), w).
Proof.
  intros Hauthor Hactor Hslug Hmentions Hparent.
  unfold Note_as_json.
  assert (Hla : Note_local_actor n w = (Return (Some actor), w)).
  { cbv [Note_local_actor]. rewrite Hauthor.
    cbv [bind LocalActor_get get_world lift get_one ret]. by rewrite Hactor. }
  rewrite (bind_run _ _ _ _ _ Hla). cbv beta iota.
  assert (Hloc : get_absolute_url actor = Return ("/pub/" +:+ la_preferred_username actor)).
  { unfold get_absolute_url, reverse. by rewrite Hslug. }
  assert (Hattr : (let! location := lift (get_absolute_url actor) in
                   ret (base_uri +:+ location)) w
                  = (Return (base_uri +:+ "/pub/" +:+ la_preferred_username actor), w)).
  { by rewrite bind_lift, Hloc. }
  rewrite (bind_run _ _ _ _ _ Hattr).
  unfold parse_mentions. rewrite Hmentions.
  rewrite (bind_run _ _ _ _ _ (eq_refl : ret _ w = (Return _, w))).
  unfold Note_parent. rewrite Hparent.
  by rewrite (bind_run _ _ _ _ _ (eq_refl : ret _ w = (Return _, w))).
Qed.

(** notes frame *)
Lemma send_create_notes E b n w :
  notes (snd (send_create_note_to_followers E b n w)) = notes w.
Proof.
  by apply (keeps_send_create (fun w' => notes w' = notes w)).
Qed.

Lemma send_update_notes E b n w :
  note_parent n = None ->
  notes (snd (send_update_note_to_followers E b n w)) = notes w
  /\ forall e, fst (send_update_note_to_followers E b n w) = Raise e ->
       is_DoesNotExist NoteM e = false.
Proof.
  intros Hp. by apply (ok_send_update (fun w' => notes w' = notes w)).
Qed.

Lemma upsert_fresh E base_uri actor a u w :
  notes_at u w = [] ->
  upsert E base_uri actor a u w = create_branch E base_uri actor a u w
  /\ notes (snd (upsert E base_uri actor a u w)) = notes w ++ [created_note E actor a u w].
Proof.
  intros Hnone. unfold notes_at in Hnone.
  assert (Heq : upsert E base_uri actor a u w = create_branch E base_uri actor a u w).
  { unfold upsert, try_except. unfold bind at 1. unfold Note_get at 1.
    cbv [bind get_world lift get_one]. rewrite Hnone. reflexivity. }
  split; [exact Heq|]. rewrite Heq.
  unfold create_branch, Note_save. cbn [note_id].
  cbv [bind fresh_pk get_world modify ret]. cbn [next_pk set_next_pk].
  match goal with |- context [send_create_note_to_followers E base_uri ?n ?w'] =>
    pose proof (send_create_notes E base_uri n w') as Hframe;
    destruct (send_create_note_to_followers E base_uri n w') as [[[]|e] w'']
  end; cbn [snd] in *; rewrite Hframe; reflexivity.
Qed.

Lemma replace_row_fresh (row : Note) pk (l : list Note) :
  Forall (fun n => exists i, note_id n = Some i /\ i < pk) l ->
  map (fun n => if bool_decide (note_id n = Some pk) then row else n) l = l.
Proof.
  induction 1 as [|n l (i & Hi & Hlt) _ IH]; [done|]. cbn [map]. rewrite IH.
  rewrite bool_decide_eq_false_2; [done|]. rewrite Hi. intros [= ->]. lia.
Qed.

Lemma upsert_existing E base_uri actor b u w l n :
  notes w = l ++ [n] ->
  Forall (fun n' => exists i, note_id n' = Some i /\ i < default 0 (note_id n)) l ->
  is_Some (note_id n) ->
  note_parent n = None ->
  note_content_url n = u ->
  filter (fun n' => Is_true (String.eqb (note_content_url n') u)) l = [] ->
  upsert E base_uri actor b u w = update_branch E base_uri b n w
  /\ notes (snd (upsert E base_uri actor b u w)) = l ++ [updated_note E b n].
Proof.
  intros Hnotes Hl [pk Hpk] Hparent Hurl Hnone. rewrite Hpk in Hl. cbn in Hl.
  assert (Hget : Note_get u w = (Return n, w)).
  { cbv [Note_get bind get_world lift get_one]. rewrite Hnotes, filter_app, Hnone.
    cbn [app]. rewrite filter_cons, decide_True; [done|].
    rewrite Hurl. apply Is_true_true, String.eqb_refl. }
  assert (Hsave : Note_save E (updated_note E b n) w
                  = (Return (updated_note E b n),
                     set_notes (fun _ => l ++ [updated_note E b n]) w)).
  { unfold Note_save. cbn [updated_note note_id]. rewrite Hpk.
    cbv [bind modify ret]. f_equal.
    - by rewrite <- Hpk.
    - unfold set_notes. rewrite Hnotes, map_app. cbn [map].
      rewrite (replace_row_fresh _ pk l Hl), bool_decide_eq_true_2 by done.
      by rewrite <- Hpk. }
  assert (Hbody : forall w', notes w' = l ++ [updated_note E b n] ->
            notes (snd (send_update_note_to_followers E base_uri (updated_note E b n) w'))
            = l ++ [updated_note E b n]
            /\ forall e, fst (send_update_note_to_followers E base_uri
                                (updated_note E b n) w') = Raise e ->
                 is_DoesNotExist NoteM e = false).
  { intros w' Hw'. rewrite <- Hw'. by apply send_update_notes. }
  assert (Heq : upsert E base_uri actor b u w = update_branch E base_uri b n w).
  { unfold upsert, try_except, update_branch. cbv [bind ret]. rewrite Hget.
    fold (updated_note E b n). rewrite Hsave.
    destruct (Hbody (set_notes (fun _ => l ++ [updated_note E b n]) w) eq_refl)
      as [_ Hx].
    destruct (send_update_note_to_followers _ _ _ _) as [[[]|e] w'']; [done|].
    by rewrite (Hx e eq_refl). }
  split; [exact Heq|]. rewrite Heq. unfold update_branch. cbv [bind ret].
  rewrite Hsave.
  destruct (Hbody (set_notes (fun _ => l ++ [updated_note E b n]) w) eq_refl)
    as [Hn _].
  by destruct (send_update_note_to_followers _ _ _ _) as [[[]|e] w''].
Qed.

Lemma followers_all_frame l rs w w' :
  followers_all l w = (Return rs, w) ->
  followers w' = followers w -> remote_actors w' = remote_actors w ->
  followers_all l w' = (Return rs, w').
Proof.
  cbv [followers_all bind get_world ret]. intros [= <-] -> ->. reflexivity.
Qed.

Lemma deliver_to_followers_run {A} E actor actor_url msg rs (m : M unit) (a : A) w :
  m w = deliver_to_followers E actor actor_url msg w ->
  followers_all (la_id actor) w = (Return rs, w) ->
  fans_out E actor actor_url msg rs ((let! _ := m in ret a) w) a w.
Proof.
  intros Hm Hfollowers reqs Hreqs.
  assert (Hrun : deliver_to_followers E actor actor_url msg w
                 = for_each rs (post_to_follower E (la_private_key actor)
                                  (actor_url +:+ "#main-key") msg) w).
  { unfold deliver_to_followers. unfold bind at 1. by rewrite Hfollowers. }
  destruct (delivery_loop_run E _ _ msg rs reqs w Hreqs) as [Hok Habort].
  unfold bind. rewrite Hm, Hrun. split.
  - intros Hacc. by rewrite (Hok Hacc).
  - intros before req rest Heq Hbefore Hreq.
    by rewrite (Habort before req rest Heq Hbefore Hreq).
Qed.

Section FanOutOfANote.
Context (E : Env) (base_url : string) (note : Note) (actor : LocalActor) (w : World).
Hypothesis Hauthor : note_local_actor note = Some (la_id actor).
Hypothesis Hactor :
  filter (fun a => Is_true (Nat.eqb (la_id a) (la_id actor))) (local_actors w) = [actor].
Hypothesis Hslug : Urls.is_slug (la_preferred_username actor) = true.
Hypothesis Hmentions : mention_finditer E (note_content note) = [].
Hypothesis Hparent : note_parent note = None.

Let actor_url := base_url +:+ "/pub/" +:+ la_preferred_username actor.

Lemma fan_out_head {A} (k : LocalActor -> string -> json -> M A) :
  (let! local_actor := Note_local_actor note in
   match local_actor with
   | None => raise AttributeError
   | Some actor =>
       let! location := lift (get_absolute_url actor) in
       let! object := Note_as_json E note base_url in
       k actor (base_url +:+ location) object
   end) w
  = k actor actor_url (note_document E base_url actor note) w.
Proof.
  assert (Hla : Note_local_actor note w = (Return (Some actor), w)).
  { cbv [Note_local_actor]. rewrite Hauthor.
    cbv [bind LocalActor_get get_world lift get_one ret]. by rewrite Hactor. }
  rewrite (bind_run _ _ _ _ _ Hla). cbv beta iota.
  assert (Hloc : get_absolute_url actor = Return ("/pub/" +:+ la_preferred_username actor)).
  { unfold get_absolute_url, reverse. by rewrite Hslug. }
  rewrite bind_lift, Hloc. cbv beta iota.
  by rewrite (bind_run _ _ _ _ _
                (Note_as_json_plain E base_url actor note w
                   Hauthor Hactor Hslug Hmentions Hparent)).
Qed.

Lemma send_create_run :
  send_create_note_to_followers E base_url note w
  = deliver_to_followers E actor actor_url
      (JObj [("@context", JArr [JStr "https://www.w3.org/ns/activitystreams";
                                JStr "https://w3id.org/security/v1"]);
             ("type", JStr "Create");
             ("id", JStr (base_url +:+ "/" +:+ uuid4 E));
             ("actor", JStr actor_url);
             ("object", note_document E base_url actor note)]) w.
Proof.
  unfold send_create_note_to_followers.
  exact (fan_out_head (fun actor actor_url object =>
           deliver_to_followers E actor actor_url
             (JObj [("@context", JArr [JStr "https://www.w3.org/ns/activitystreams";
                                       JStr "https://w3id.org/security/v1"]);
                    ("type", JStr "Create");
                    ("id", JStr (base_url +:+ "/" +:+ uuid4 E));
                    ("actor", JStr actor_url);
                    ("object", object)]))).
Qed.

Lemma send_update_run :
  send_update_note_to_followers E base_url note w
  = deliver_to_followers E actor actor_url
      (JObj [("@context", JArr [JStr "https://www.w3.org/ns/activitystreams"]);
             ("type", JStr "Update");
             ("id", JStr (note_content_url note +:+ "#updates/"
                            +:+ timestamp E (note_updated_at note)));
             ("actor", JStr actor_url);
             ("object", note_document E base_url actor note);
             ("published", JStr (strftime E (note_published_at note)))]) w.
Proof.
  unfold send_update_note_to_followers.
  exact (fan_out_head (fun actor actor_url object =>
           deliver_to_followers E actor actor_url
             (JObj [("@context", JArr [JStr "https://www.w3.org/ns/activitystreams"]);
                    ("type", JStr "Update");
                    ("id", JStr (note_content_url note +:+ "#updates/"
                                   +:+ timestamp E (note_updated_at note)));
                    ("actor", JStr actor_url);
                    ("object", object);
                    ("published", JStr (strftime E (note_published_at note)))]))).
Qed.

End FanOutOfANote.

Lemma create_branch_run E base_uri actor a u w :
  create_branch E base_uri actor a u w
  = (let! _ := send_create_note_to_followers E base_uri (created_note E actor a u w) in
     ret (created_note E actor a u w))
      (set_notes (fun l => l ++ [created_note E actor a u w]) (set_next_pk S w)).
Proof.
  unfold create_branch, Note_save. cbn [note_id].
  cbv [bind fresh_pk get_world modify ret]. reflexivity.
Qed.

Lemma Note_save_last E b w l n :
  notes w = l ++ [n] ->
  Forall (fun n' => exists i, note_id n' = Some i /\ i < default 0 (note_id n)) l ->
  is_Some (note_id n) ->
  Note_save E (updated_note E b n) w
  = (Return (updated_note E b n), set_notes (fun _ => l ++ [updated_note E b n]) w).
Proof.
  intros Hnotes Hl [pk Hpk]. rewrite Hpk in Hl. cbn in Hl.
  unfold Note_save. cbn [updated_note note_id]. rewrite Hpk.
  cbv [bind modify ret]. f_equal.
  - by rewrite <- Hpk.
  - unfold set_notes. rewrite Hnotes, map_app. cbn [map].
    rewrite (replace_row_fresh _ pk l Hl), bool_decide_eq_true_2 by done.
    by rewrite <- Hpk.
Qed.

Lemma update_branch_run E base_uri b w l n :
  notes w = l ++ [n] ->
  Forall (fun n' => exists i, note_id n' = Some i /\ i < default 0 (note_id n)) l ->
  is_Some (note_id n) ->
  update_branch E base_uri b n w
  = (let! _ := send_update_note_to_followers E base_uri (updated_note E b n) in
     ret (updated_note E b n))
      (set_notes (fun _ => l ++ [updated_note E b n]) w).
Proof.
  intros Hnotes Hl Hpk. unfold update_branch.
  by rewrite (bind_run _ _ _ _ _ (Note_save_last E b w l n Hnotes Hl Hpk)).
Qed.

Lemma stored_author_id (author actor : LocalActor) (rows : list LocalActor) :
  filter (fun x => Is_true (Nat.eqb (la_id x) (la_id actor))) rows = [author] ->
  la_id author = la_id actor.
Proof.
  intros H. assert (Hin : author ∈ filter (fun x => Is_true (Nat.eqb (la_id x) (la_id actor))) rows)
    by (rewrite H; apply list_elem_of_here).
  apply list_elem_of_filter in Hin as [Hin _]. by apply Is_true_true, Nat.eqb_eq in Hin.
Qed.


(** reachable stores are keyed *)
Lemma notes_keyed_next w : notes_keyed w -> notes_keyed (set_next_pk S w).
Proof.
  unfold notes_keyed. cbn [notes set_next_pk next_pk]. intros Hw.
  eapply Forall_impl; [exact Hw|].
  intros n (i & Hi & Hlt). exists i. split; [done|lia].
Qed.

Lemma notes_keyed_follow E r l : keeps notes_keyed (Follower_get_or_create E r l).
Proof.
  intros w Hw. split; [|done].
  pose proof (Follower_get_or_create_run E r l w) as Hrun.
  destruct (filter _ (followers w)) as [|f [|f' fs]]; cbv zeta in Hrun;
    rewrite Hrun; cbn [snd]; try done.
  by apply notes_keyed_next in Hw.
Qed.

Lemma notes_keyed_save E n : keeps notes_keyed (Note_save E n).
Proof.
  intros w Hw. split; [|done]. unfold Note_save, notes_keyed in *.
  destruct (note_id n) as [pk|] eqn:Hid; cbv [bind fresh_pk get_world modify ret];
    cbn [snd notes set_notes set_next_pk next_pk].
  - induction Hw as [|x l Hx _ IH]; [done|]. cbn [map]. constructor; [|exact IH].
    destruct (bool_decide_reflect (note_id x = Some pk)) as [Heq|_]; [|done].
    destruct Hx as (i & Hi & Hlt). exists i. cbn [note_id]. split; [congruence|done].
  - apply Forall_app. split.
    + eapply Forall_impl; [exact Hw|]. intros x (i & Hi & Hlt). exists i. split; [done|lia].
    + constructor; [|done]. eexists. cbn [note_id]. split; [done|lia].
Qed.

Lemma reachable_notes_keyed w : reachable w -> notes_keyed w.
Proof.
  apply keeps_reachable; try done.
  - apply notes_keyed_next.
  - apply notes_keyed_follow.
  - apply notes_keyed_save.
  - constructor.
Qed.

Lemma set_followers_id (f : list Follower -> list Follower) w :
  f (followers w) = followers w -> set_followers f w = w.
Proof. destruct w as [la ra fs ns ls an pk st]. unfold set_followers. cbn. intros H. by rewrite H. Qed.

Lemma filter_none_edges (l r : nat) (fs : list Follower) :
  filter (fun f => Is_true (Nat.eqb (fo_remote_actor f) r && Nat.eqb (fo_following f) l)) fs
  = [] ->
  filter (fun f => Is_true (negb (Nat.eqb (fo_following f) l
                                  && Nat.eqb (fo_remote_actor f) r))) fs = fs.
Proof.
  induction fs as [|f fs IH]; [done|]. rewrite !filter_cons.
  destruct (Nat.eqb (fo_remote_actor f) r && Nat.eqb (fo_following f) l) eqn:Hm.
  - rewrite decide_True by done. done.
  - destruct (decide (Is_true false)) as [[]|_]. intros Hrest.
    rewrite (andb_comm (Nat.eqb (fo_following f) l)), Hm.
    destruct (decide (Is_true (negb false))) as [_|[]]; [|exact I]. by rewrite IH.
Qed.

(** C7 (amended). An [Undo] of a [Follow] that passed verification and
    names the target local actor is turned down with a 404 response when no
    remote actor is stored under the URL that the undone [Follow] names as
    its actor ([to_undo['actor']]; the actor of the [Undo] itself, whose
    signature was verified, is not read), the store being left as it is;
    when a remote actor is stored under that URL and has no follower row
    for the target, the inbox acknowledges with a 200 response and leaves
    the store as it is. *)
Theorem undo_follow_of_unknown_actor_is_rejected
    E depth request username activity to_undo object_url aurl actor la w :
  method request = "POST" ->
  json_loads E (body request) = Some activity ->
  validate_post_request E request activity w = (Return None, w) ->
  get_one LocalActorM (local_actors w) (named username) = Return actor ->
  Json.item activity "type" = Return (JStr "Undo") ->
  Json.item activity "object" = Return to_undo ->
  Json.item to_undo "type" = Return (JStr "Follow") ->
  Json.item to_undo "object" = Return (JStr object_url) ->
  Json.item to_undo "actor" = Return (JStr aurl) ->
  get_by_url E object_url w = (Return (Some la), w) ->
  la_id la = la_id actor ->
  (filter (fun r => Is_true (String.eqb (ra_url r) aurl)) (remote_actors w) = [] ->
     inbox E depth request username w = (Raise Http404, w)
     /\ status (respond (fst (inbox E depth request username w))) = 404%Z)
  /\ (forall R,
        filter (fun r => Is_true (String.eqb (ra_url r) aurl)) (remote_actors w) = [R] ->
        edges (ra_id R) (la_id actor) w = [] ->
        inbox E depth request username w = (Return ok_response, w)
        /\ status (respond (fst (inbox E depth request username w))) = 200%Z).
Proof.
  intros Hpost Hloads Hvalid Hactor Htype Hobj Htt Hto Hta Hurl Hid.
  destruct (inbox_branch E depth request username activity Hloads) as (r & _ & Hr & Hinbox).
  rewrite Hr in Hvalid. injection Hvalid as ->.
  assert (Hrun : inbox E depth request username w = inbox_undo E actor activity w).
  { rewrite Hinbox, Hpost, Hactor. cbn [String.eqb Ascii.eqb Bool.eqb].
    by apply inbox_dispatch_undo. }
  rewrite Hrun. unfold inbox_undo.
  cbv [bind lift ret raise remote_actor_or_404 get_world get_one_or_404 followers_remove modify].
  rewrite Hobj, Htt. cbn [Json.eq_str String.eqb Ascii.eqb Bool.eqb].
  rewrite Hto. cbn [Json.as_str]. rewrite Hurl, Hid, Nat.eqb_refl. cbn [negb].
  rewrite Hta. cbn [Json.as_str].
  split.
  - intros ->. done.
  - intros R -> Hedge. split; [|done]. f_equal.
    apply set_followers_id. apply filter_none_edges. exact Hedge.
Qed.

(** *** The store on concrete runs *)

Lemma acquainted_is_reachable : reachable Fixture.acquainted.
Proof.
  change Fixture.acquainted
    with (run (OpResolveUrl Fixture.federation Fixture.alice_url)
            (run (OpNewLocalActor "bob" "local.example" "pem" "pub") empty_world)).
  repeat constructor.
Qed.

Lemma reachable_inbox E depth request username w :
  reachable w -> reachable (snd (inbox E depth request username w)).
Proof. intros Hw. exact (reachable_run (OpInbox E depth request username) w Hw). Qed.


Lemma follower_edges_are_unique_witness :
  let request := Fixture.inbox_request "follow" in
  let w1 := snd (inbox Fixture.federation 5 request "bob" Fixture.acquainted) in
  follower_unique w1
  /\ map follower_pair (followers w1) = [(2, 1)]
  /\ followers (snd (inbox Fixture.federation 5 request "bob" w1)) = followers w1
  /\ exists w2, inbox Fixture.federation 5 request "bob" w1 = (Return ok_response, w2).
Proof.
  intros request w1.
  destruct follower_edges_are_unique as [Hreach Hdup].
  assert (Hfollow : is_follow_from Fixture.federation request Fixture.alice_url).
  { exists Fixture.follow. repeat split; vm_compute; reflexivity. }
  destruct (Hdup Fixture.federation 5 request "bob" Fixture.alice_url ok_response
              Fixture.acquainted w1) as (R & L & f & _ & _ & _ & Hnoop & Hagain).
  - exact Hfollow.
  - vm_compute. reflexivity.
  - reflexivity.
  - split; [|split; [vm_compute; reflexivity|split; [|exact Hagain]]].
    + apply Hreach. unfold w1. apply reachable_inbox. exact acquainted_is_reachable.
    + apply Hnoop. exact Hfollow.
Defined.

Lemma undo_follow_of_unknown_actor_is_rejected_witness :
  inbox Fixture.federation 5 (Fixture.inbox_request "undo-follow") "bob" Fixture.strangers
  = (Raise Http404, Fixture.strangers)
  /\ status (respond (fst (inbox Fixture.federation 5
                             (Fixture.inbox_request "undo-follow") "bob"
                             Fixture.strangers))) = 404%Z.
Proof.
  refine (proj1 (undo_follow_of_unknown_actor_is_rejected Fixture.federation 5
                   (Fixture.inbox_request "undo-follow") "bob" Fixture.undo_follow
                   (JObj [("type", JStr "Follow"); ("actor", JStr Fixture.alice_url);
                          ("object", JStr "https://local.example/pub/bob")])
                   "https://local.example/pub/bob" Fixture.alice_url
                   Fixture.bob Fixture.bob Fixture.strangers
                   _ _ _ _ _ _ _ _ _ _ _) _);
    vm_compute; reflexivity.
Defined.

(* ===================================================================== *)
(** * Part III. Further properties                                        *)
(* ===================================================================== *)

(** ** The Signature header: parsing *)

Lemma find_sep_is_substring sep s :
  Py.find_sep sep s = None <-> Json.is_substring sep s = false.
Proof.
  induction s as [|c s IH]; cbn [Py.find_sep Json.is_substring].
  - destruct (Py.startswith sep EmptyString); cbn; split; congruence.
  - destruct (Py.startswith sep (String c s)); cbn [orb]; [split; congruence|].
    rewrite <- IH. destruct (Py.find_sep sep s) as [[a b]|]; split; congruence.
Qed.

Lemma occurs_remove_char c s : Py.occurs c (Py.remove_char c s) = false.
Proof.
  induction s as [|a s IH]; cbn [Py.remove_char Py.occurs]; [done|].
  destruct (Ascii.eqb a c) eqn:Hac; [done|]. cbn [Py.occurs]. by rewrite Hac, IH.
Qed.

Abbreviation parse_step :=
  (fun (acc : result (gmap string string)) (x : list string) =>
     let* parsed := acc in
     let* k := Py.index x 0 in
     let* v := Py.index x 1 in
     Return (<[k := Py.remove_char Py.dq v]> parsed)).

Lemma parse_fold_raise (l : list (list string)) e :
  fold_left parse_step l (Raise e) = Raise e.
Proof. induction l as [|x l IH]; cbn [fold_left rbind]; [done|]. apply IH. Qed.

Lemma parse_fold_outcome (parts : list string) :
  forall m : gmap string string,
    (forall k v, m !! k = Some v -> Py.occurs Py.dq v = false) ->
    match fold_left parse_step (map (Py.split_once parameter_separator) parts) (Return m)
    with
    | Return parsed =>
        Forall (fun part => Json.is_substring parameter_separator part = true) parts
        /\ (forall k v, parsed !! k = Some v -> Py.occurs Py.dq v = false)
        /\ (forall k, is_Some (parsed !! k) <->
              is_Some (m !! k)
              \/ exists part v, part ∈ parts
                   /\ Py.find_sep parameter_separator part = Some (k, v))
    | Raise e =>
        e = IndexError
        /\ Exists (fun part => Json.is_substring parameter_separator part = false) parts
    end.
Proof.
  induction parts as [|part parts IH]; intros m Hm; cbn [map fold_left].
  - split; [constructor|]. split; [exact Hm|]. intros k. split; [by left|].
    intros [?|(part & v & Hin & _)]; [done|]. by apply not_elem_of_nil in Hin.
  - destruct (Py.find_sep parameter_separator part) as [[a b]|] eqn:Hfind.
    + assert (Hso : Py.split_once parameter_separator part = [a; b])
        by (unfold Py.split_once; by rewrite Hfind).
      rewrite !Hso. cbn [rbind Py.index nth_error].
      assert (Hsub : Json.is_substring parameter_separator part = true).
      { apply not_false_iff_true. intros H%find_sep_is_substring. congruence. }
      assert (Hm' : forall k v, (<[a := Py.remove_char Py.dq b]> m) !! k = Some v ->
                      Py.occurs Py.dq v = false).
      { intros k v. destruct (decide (k = a)) as [->|Hne].
        - rewrite lookup_insert_eq. intros [= <-]. apply occurs_remove_char.
        - rewrite lookup_insert_ne by done. apply Hm. }
      specialize (IH (<[a := Py.remove_char Py.dq b]> m) Hm').
      destruct (fold_left _ _ _) as [parsed|e].
      * destruct IH as (Hall & Hq & Hkeys).
        split; [by constructor|]. split; [exact Hq|]. intros k. rewrite Hkeys.
        destruct (decide (k = a)) as [->|Hne].
        -- rewrite lookup_insert_eq. split; [|by eauto].
           intros _. right. exists part, b. split; [left|done].
        -- rewrite lookup_insert_ne by done. split.
           ++ intros [?|(p & v & Hin & Hp)]; [by left|].
              right. exists p, v. split; [by right|done].
           ++ intros [?|(p & v & Hin & Hp)]; [by left|].
              apply elem_of_cons in Hin as [->|Hin]; [congruence|].
              right. by exists p, v.
      * destruct IH as [-> Hex]. by split; [|right].
    + assert (Hso : Py.split_once parameter_separator part = [part])
        by (unfold Py.split_once; by rewrite Hfind).
      rewrite !Hso. cbn [rbind Py.index nth_error]. rewrite parse_fold_raise.
      split; [done|]. left. by apply find_sep_is_substring.
Qed.

(** X1. [parse_signature_header] raises exactly when one of the
    comma-separated parts of the header lacks the separator (an equals sign
    followed by a double quote), and what it raises then is [IndexError];
    otherwise it returns a dict whose keys are the texts before the first
    separator of the parts and whose values hold no double quote. *)
Theorem parse_signature_header_outcome (header : string) :
  let parts := Py.split_char "," header in
  match parse_signature_header header with
  | Return parsed =>
      Forall (fun part => Json.is_substring parameter_separator part = true) parts
      /\ (forall k v, parsed !! k = Some v -> Py.occurs Py.dq v = false)
      /\ (forall k, is_Some (parsed !! k) <->
            exists part v, part ∈ parts
              /\ Py.find_sep parameter_separator part = Some (k, v))
  | Raise e =>
      e = IndexError
      /\ Exists (fun part => Json.is_substring parameter_separator part = false) parts
  end.
Proof.
  intros parts. unfold parse_signature_header. fold parts.
  pose proof (parse_fold_outcome parts ∅) as H.
  change ("=" +:+ String Py.dq EmptyString) with parameter_separator.
  destruct (fold_left _ _ _) as [parsed|e].
  - destruct H as (Hall & Hq & Hkeys); [by intros k v; rewrite lookup_empty|].
    split; [done|]. split; [done|]. intros k. rewrite Hkeys. split.
    + intros [[v Hv]|H]; [by rewrite lookup_empty in Hv|done].
    + by right.
  - apply H. intros k v. by rewrite lookup_empty.
Qed.

Lemma occurs_join c sep (xs : list string) :
  Py.occurs c sep = false -> Forall (fun x => Py.occurs c x = false) xs ->
  Py.occurs c (Py.join sep xs) = false.
Proof.
  intros Hsep. induction 1 as [|x xs Hx Hxs IH]; [done|].
  destruct xs as [|y ys]; [done|].
  change (Py.join sep (x :: y :: ys)) with (x +:+ sep +:+ Py.join sep (y :: ys)).
  by rewrite !PyFacts.occurs_app, Hx, Hsep, IH.
Qed.

Lemma split_char_join c (xs : list string) :
  xs <> [] -> Forall (fun x => Py.occurs c x = false) xs ->
  Py.split_char c (Py.join (String c EmptyString) xs) = xs.
Proof.
  intros Hne Hall. induction Hall as [|x xs Hx Hxs IH]; [done|].
  destruct xs as [|y ys].
  - cbn [Py.join]. by apply PyFacts.split_char_no.
  - change (Py.join (String c EmptyString) (x :: y :: ys))
      with (x +:+ String c EmptyString +:+ Py.join (String c EmptyString) (y :: ys)).
    rewrite PyFacts.app_single, PyFacts.split_char_app by done.
    by rewrite IH.
Qed.

(** X2. Parsing inverts building: the Signature header that
    [HttpSignature.build_signature] makes of any list of fields parses back
    to the four parameters it was built from, provided the key id and the
    field names hold no comma and no double quote; and splitting the
    [headers] parameter on spaces gives the field names back when there is
    at least one field and no name holds a space. *)
Theorem parse_inverts_build_signature
    (E : Env) (self : HttpSignature.t) (key_id private_key : string) (sk : PrivateKey) :
  load_pem_private_key E private_key = Some sk ->
  Py.occurs "," key_id = false -> Py.occurs Py.dq key_id = false ->
  Forall (fun name => Py.occurs "," name = false /\ Py.occurs Py.dq name = false)
         (map fst self) ->
  exists header,
    HttpSignature_build_signature E self key_id private_key = Return header
    /\ parse_signature_header header
       = Return (<["signature" :=
                     Base64.b64encode (sign sk (HttpSignature.build_message self))]>
                 (<["headers" := Py.join " " (map fst self)]>
                  (<["algorithm" := "rsa-sha256"]> (<["keyId" := key_id]> ∅))))
    /\ (self <> [] -> Forall (fun name => Py.occurs " " name = false) (map fst self) ->
        Py.split_char " " (Py.join " " (map fst self)) = map fst self).
Proof.
  intros Hload Hk1 Hk2 Hnames.
  unfold HttpSignature_build_signature, sign_message. rewrite Hload. cbn [or_raise rbind].
  eexists. split; [reflexivity|]. split.
  - apply parse_built_header; try done.
    + apply occurs_join; [done|]. eapply Forall_impl; [exact Hnames|]. by intros ? [? ?].
    + apply occurs_join; [done|]. eapply Forall_impl; [exact Hnames|]. by intros ? [? ?].
    + apply Base64Facts.b64encode_occurs. by left.
    + apply Base64Facts.b64encode_occurs. by right.
  - intros Hne Hsp. apply split_char_join; [|done].
    destruct self; [done|]. done.
Qed.

Lemma parse_inverts_build_signature_witness :
  parse_signature_header
    (Fixture.request_signature_header Fixture.alice_key "SHA-256=x")
  = Return (Fixture.request_parsed Fixture.alice_key "SHA-256=x").
Proof.
  destruct (parse_inverts_build_signature Fixture.offline
              [("(request-target)", "post /pub/bob/inbox"); ("host", "local.example");
               ("date", "Wed, 04 Nov 2026 07:00:00 GMT"); ("digest", "SHA-256=x");
               ("content-type", "application/activity+json")]
              Fixture.alice_key "pem" Fixture.rsa_private_key eq_refl eq_refl eq_refl)
    as (header & Hbuild & Hparse & _).
  - repeat constructor.
  - injection Hbuild as <-. exact Hparse.
Defined.

(** ** What [validate] has checked when it succeeds *)

Lemma contains_elem_of x (xs : list string) : Py.contains x xs = true -> x ∈ xs.
Proof.
  unfold Py.contains. intros (y & Hin & Heq)%existsb_exists.
  apply String.eqb_eq in Heq as ->. by apply list_elem_of_In.
Qed.

Lemma collect_fields_values E method url (hs : gmap string string) fields :
  forall b0 b,
    collect_fields E method url hs fields b0 = Return b ->
    exists values,
      Forall2 (fun f v => field_value E method url hs f = Some v) fields values
      /\ b = b0 ++ zip fields values.
Proof.
  unfold collect_fields.
  induction fields as [|f fields IH]; intros b0 b; cbn [fold_left].
  - intros [= <-]. exists []. split; [constructor|]. by rewrite app_nil_r.
  - cbn [rbind]. unfold field_value at 1.
    destruct (String.eqb f "(request-target)") eqn:Hf.
    + intros (values & Hall & ->)%IH. eexists (_ :: values). split.
      * constructor; [|exact Hall]. unfold field_value. by rewrite Hf.
      * unfold HttpSignature.with_field. by rewrite <- app_assoc.
    + unfold header_item. destruct (hs !! Py.lower f) as [v|] eqn:Hv; cbn [rbind].
      * intros (values & Hall & ->)%IH. exists (v :: values). split.
        -- constructor; [|exact Hall]. unfold field_value. by rewrite Hf.
        -- unfold HttpSignature.with_field. by rewrite <- app_assoc.
      * intros Hr. exfalso. clear IH. revert Hr.
        generalize (KeyError f). intros e.
        induction fields as [|g fields IH]; cbn [fold_left rbind]; [done|exact IH].
Qed.

Lemma validate_signature_success E chk method url (hs : gmap string string) digest identity :
  validate_signature E chk method url hs digest = Return (success identity) ->
  exists header parsed declared kid encoded signature values,
    hs !! "signature" = Some header
    /\ parse_signature_header header = Return parsed
    /\ parsed !! "headers" = Some declared
    /\ parsed !! "keyId" = Some kid /\ key_id chk = Some kid
    /\ parsed !! "signature" = Some encoded
    /\ Base64.b64decode encoded = Return signature
    /\ "(request-target)" ∈ Py.split_char " " declared
    /\ "date" ∈ Py.split_char " " declared
    /\ (Py.truthy digest = true -> "digest" ∈ Py.split_char " " declared)
    /\ Forall2 (fun f v => field_value E method url hs f = Some v)
         (Py.split_char " " declared) values
    /\ key_accepts (public_key chk) signature
         (HttpSignature.build_message (zip (Py.split_char " " declared) values))
    /\ identity = controller chk.
Proof.
  unfold validate_signature, header_item.
  change (Py.lower "signature") with "signature".
  destruct (hs !! "signature") as [header|] eqn:Hh; [|done]. cbn [rbind].
  destruct (parse_signature_header header) as [parsed|] eqn:Hp; [|done]. cbn [rbind].
  unfold Py.getitem.
  destruct (parsed !! "headers") as [declared|] eqn:Hd; [|done]. cbn [rbind].
  destruct (Py.contains "(request-target)" _) eqn:Hrt; [|done].
  destruct (Py.contains "date" _) eqn:Hdate; [|done]. cbn [negb orb].
  destruct (Py.truthy digest && negb (Py.contains "digest" _)) eqn:Hdg; [done|].
  destruct (collect_fields _ _ _ _ _ _) as [builder|] eqn:Hc; [|done]. cbn [rbind].
  destruct (parsed !! "keyId") as [kid|] eqn:Hk; [|done]. cbn [rbind].
  destruct (bool_decide (key_id chk = Some kid)) eqn:Hkid; [|done]. cbn [negb].
  apply bool_decide_eq_true_1 in Hkid.
  destruct (parsed !! "signature") as [encoded|] eqn:Hs; [|done]. cbn [rbind].
  destruct (Base64.b64decode encoded) as [signature|] eqn:Hb; [|done]. cbn [rbind].
  apply collect_fields_values in Hc as (values & Hvalues & ->).
  intros Hv. exists header, parsed, declared, kid, encoded, signature, values.
  repeat (split; [done || by apply contains_elem_of|]).
  split.
  { intros Ht. rewrite Ht in Hdg. cbn [andb] in Hdg.
    apply contains_elem_of. by destruct (Py.contains "digest" _). }
  split; [done|].
  unfold verify_with in Hv. unfold key_accepts. cbn [app HttpSignature.new].
  destruct (public_key chk) as [verify|verify|]; [| |done];
    (destruct (verify signature _) eqn:Hver; [|done]); by injection Hv as <-.
Qed.

(** X3. When [validate] returns the success variant, every check has
    passed: the Signature header parsed, its keyId is the key id of the
    checker, its declared fields include the request target and the date,
    its signature decodes from base64, and the public key of the checker
    accepted those bytes over the message rebuilt from the declared fields
    and the headers of this very request; the identity returned is the
    controller of the key.  For a POST the declared fields also include the
    digest, and the digest header, its label upper-cased, is the SHA-256
    digest of the body. *)
Theorem validate_success_is_verified
    (E : Env) (chk : SignatureChecker) (method url : string)
    (hs : gmap string string) (body : option string) (identity : json) :
  validate E chk method url hs body = Return (success identity) ->
  exists header parsed declared kid encoded signature values,
    hs !! "signature" = Some header
    /\ parse_signature_header header = Return parsed
    /\ parsed !! "headers" = Some declared
    /\ parsed !! "keyId" = Some kid /\ key_id chk = Some kid
    /\ parsed !! "signature" = Some encoded
    /\ Base64.b64decode encoded = Return signature
    /\ "(request-target)" ∈ Py.split_char " " declared
    /\ "date" ∈ Py.split_char " " declared
    /\ Forall2 (fun f v => field_value E method url hs f = Some v)
         (Py.split_char " " declared) values
    /\ key_accepts (public_key chk) signature
         (HttpSignature.build_message (zip (Py.split_char " " declared) values))
    /\ identity = controller chk
    /\ (Py.lower method = "post" ->
        "digest" ∈ Py.split_char " " declared
        /\ exists b h, body = Some b /\ hs !! "digest" = Some h
                       /\ normalized_digest h = signed_digest b).
Proof.
  unfold validate. destruct (negb (header_in "signature" hs)); [done|].
  destruct (String.eqb_spec (Py.lower method) "post") as [Hpost|Hnot].
  - destruct body as [b|]; [|done]. cbn [content_digest_sha256 rbind].
    unfold header_item. change (Py.lower "digest") with "digest".
    destruct (hs !! "digest") as [h|] eqn:Hh; [|done]. cbn [rbind].
    destruct (String.eqb_spec ("SHA-256=" +:+ Base64.b64encode (SHA256.sha256 b))
                (Py.upper (Py.take 4 h) +:+ Py.drop 4 h)) as [Heq|Hne]; [|done].
    cbn [negb].
    intros (header & parsed & declared & kid & encoded & signature & values
            & H1 & H2 & H3 & H4 & H5 & H6 & H7 & H8 & H9 & H10 & H11 & H12 & H13)
             %validate_signature_success.
    exists header, parsed, declared, kid, encoded, signature, values.
    repeat (split; [done|]). intros _. split; [by apply H10|].
    exists b, h. by repeat split.
  - intros (header & parsed & declared & kid & encoded & signature & values
            & H1 & H2 & H3 & H4 & H5 & H6 & H7 & H8 & H9 & H10 & H11 & H12 & H13)
             %validate_signature_success.
    exists header, parsed, declared, kid, encoded, signature, values.
    by repeat (split; [done|]).
Qed.

Lemma validate_success_is_verified_witness :
  exists header parsed declared signature values,
    Fixture.request_headers Fixture.alice_key
      "SHA-256=ungWv48Bz+pBQUDeXa4iI7ADYaOWF3qctBD/YfIAFa0=" !! "signature" = Some header
    /\ parse_signature_header header = Return parsed
    /\ parsed !! "headers" = Some declared
    /\ "digest" ∈ Py.split_char " " declared
    /\ key_accepts Fixture.rsa_public_key signature
         (HttpSignature.build_message (zip (Py.split_char " " declared) values)).
Proof.
  destruct (validate_success_is_verified Fixture.offline
              (Fixture.checker Fixture.alice_key) "post" Fixture.inbox_url
              (Fixture.request_headers Fixture.alice_key
                 "SHA-256=ungWv48Bz+pBQUDeXa4iI7ADYaOWF3qctBD/YfIAFa0=")
              (Some "abc") (JStr "https://remote.example/users/alice"))
    as (header & parsed & declared & kid & encoded & signature & values
        & H1 & H2 & H3 & _ & _ & _ & _ & _ & _ & _ & H11 & _ & H13).
  - vm_compute. reflexivity.
  - exists header, parsed, declared, signature, values.
    repeat (split; [done|]). split; [|exact H11]. by apply H13.
Defined.

(** ** The headers [signed_post] sends *)

(** X4. [signed_post] passes the caller's headers through and sets its
    own seven on top: a header of any other name reaches the wire as the
    caller gave it, and each of the seven carries the value [signed_post]
    computes, whatever the caller supplied under that name. *)
Theorem signed_post_headers_override
    (E : Env) (url private_key public_key_url b : string)
    (supplied sent : gmap string string) :
  signed_post_headers E url private_key public_key_url (Some supplied) (Some b)
    = Return sent ->
  (forall name, name ∉ signed_post_header_names -> sent !! name = supplied !! name)
  /\ exists own,
       signed_post_headers E url private_key public_key_url None (Some b) = Return own
       /\ dom own = list_to_set signed_post_header_names
       /\ forall name, name ∈ signed_post_header_names -> sent !! name = own !! name.
Proof.
  unfold signed_post_headers. cbn [content_digest_sha256 rbind default].
  destruct (HttpSignature_build_signature _ _ _ _) as [signature|]; [|done].
  cbn [rbind]. intros [= <-]. split.
  - intros name Hname. unfold signed_post_header_names in Hname.
    rewrite !not_elem_of_cons in Hname.
    destruct Hname as (? & ? & ? & ? & ? & ? & ? & _).
    by rewrite !lookup_insert_ne.
  - eexists. split; [reflexivity|]. split.
    + rewrite !dom_insert_L, dom_empty_L. unfold signed_post_header_names.
      cbn [list_to_set]. set_solver.
    + intros name Hname. unfold signed_post_header_names in Hname.
      rewrite !elem_of_cons in Hname.
      destruct Hname as [->|[->|[->|[->|[->|[->|[->|Hname]]]]]]];
        [..|by apply not_elem_of_nil in Hname];
        repeat first [rewrite lookup_insert_eq | rewrite lookup_insert_ne by done];
        done.
Qed.

Lemma signed_post_headers_override_witness :
  exists sent,
    signed_post_headers Fixture.offline Fixture.inbox_url "pem" Fixture.alice_key
      (Some (<["host" := "evil.example"]> (<["x-trace" := "1"]> ∅))) (Some "abc")
    = Return sent
    /\ sent !! "x-trace" = Some "1" /\ sent !! "host" = Some "local.example".
Proof.
  eexists. split; [reflexivity|].
  destruct (signed_post_headers_override Fixture.offline Fixture.inbox_url "pem"
              Fixture.alice_key "abc"
              (<["host" := "evil.example"]> (<["x-trace" := "1"]> ∅)) _ eq_refl)
    as [Hpass (own & Hown & _ & Hset)].
  split.
  - rewrite Hpass; [done|]. unfold signed_post_header_names.
    rewrite !not_elem_of_cons. repeat split; try done. apply not_elem_of_nil.
  - rewrite (Hset "host"); [|unfold signed_post_header_names; repeat constructor].
    injection Hown as <-. vm_compute. reflexivity.
Defined.

(** ** Routes: [resolve] and [reverse] *)

Lemma filter_bool_ext {A} (p q : A -> bool) (l : list A) :
  (forall x, p x = q x) ->
  filter (fun x => Is_true (p x)) l = filter (fun x => Is_true (q x)) l.
Proof. intros H. apply list_filter_iff. intros x. by rewrite H. Qed.

Section StringFacts.
#[local] Arguments String.append !_ _ / : simpl nomatch.

Lemma startswith_app p s : Py.startswith p (p +:+ s) = true.
Proof.
  induction p as [|c p IH]; cbn [Py.startswith String.append]; [by destruct s|].
  by rewrite Ascii.eqb_refl, IH.
Qed.

Lemma startswith_split p s :
  Py.startswith p s = true -> s = p +:+ Py.drop (String.length p) s.
Proof.
  revert s. induction p as [|c p IH]; intros s; cbn [Py.startswith].
  - by destruct s.
  - destruct s as [|d s]; [done|]. intros [->%Ascii.eqb_eq Hs]%andb_true_iff.
    cbn [String.length Py.drop String.append]. f_equal. by apply IH.
Qed.

Lemma drop_app_length p s : Py.drop (String.length p) (p +:+ s) = s.
Proof. induction p as [|c p IH]; cbn [String.length Py.drop String.append]; [by destruct s|done]. Qed.

Lemma find_sep_split sep s a b :
  Py.find_sep sep s = Some (a, b) -> s = a +:+ sep +:+ b.
Proof.
  revert a b. induction s as [|c s IH]; intros a b; cbn [Py.find_sep].
  - destruct (Py.startswith sep EmptyString) eqn:Hs; [|done].
    intros [= <- <-]. cbn [String.append]. by apply startswith_split.
  - destruct (Py.startswith sep (String c s)) eqn:Hs.
    + intros [= <- <-]. cbn [String.append]. by apply startswith_split.
    + destruct (Py.find_sep sep s) as [[a' b']|]; [|done].
      intros [= <- <-]. cbn [String.append]. f_equal. by apply IH.
Qed.

Lemma find_sep_char_none c s :
  Py.occurs c s = false -> Py.find_sep (String c EmptyString) s = None.
Proof.
  induction s as [|d s IH]; [done|]. cbn [Py.occurs Py.find_sep Py.startswith].
  intros [Hd Hs]%orb_false_iff. rewrite Ascii.eqb_sym, Hd. cbn [andb]. by rewrite IH.
Qed.

Lemma find_sep_char_app c a b :
  Py.occurs c a = false ->
  Py.find_sep (String c EmptyString) (a +:+ String c b) = Some (a, b).
Proof.
  induction a as [|d a IH]; cbn [String.append Py.occurs].
  - intros _. cbn [Py.find_sep Py.startswith]. rewrite Ascii.eqb_refl.
    cbn [andb String.length Py.drop]. by destruct b.
  - intros [Hd Ha]%orb_false_iff. cbn [Py.find_sep Py.startswith].
    rewrite Ascii.eqb_sym, Hd. cbn [andb]. by rewrite IH.
Qed.

Lemma is_slug_no_slash u : Urls.is_slug u = true -> Py.occurs "/" u = false.
Proof.
  unfold Urls.is_slug. intros [_ Hall]%andb_true_iff.
  induction u as [|c u IH]; [done|]. cbn [list_ascii_of_string forallb] in Hall.
  apply andb_true_iff in Hall as [Hc Hu]. cbn [Py.occurs]. rewrite IH by done.
  rewrite orb_false_r. destruct (Ascii.eqb_spec c "/") as [->|]; [|done].
  by vm_compute in Hc.
Qed.

Lemma split_once_slug u : Urls.is_slug u = true -> Py.split_once "/" u = [u].
Proof.
  intros Hu. unfold Py.split_once. by rewrite find_sep_char_none by by apply is_slug_no_slash.
Qed.

Lemma split_once_slug_tail u tail :
  Urls.is_slug u = true -> Py.split_once "/" (u +:+ String "/" tail) = [u; tail].
Proof.
  intros Hu. unfold Py.split_once. by rewrite find_sep_char_app by by apply is_slug_no_slash.
Qed.

Lemma resolve_profile u :
  Urls.is_slug u = true ->
  Urls.resolve ("/pub/" +:+ u)
  = Return {| Urls.url_name := "activitypub-profile"; Urls.username := Some u |}.
Proof.
  intros Hu. cbn [String.append Urls.resolve String.eqb Ascii.eqb Bool.eqb Py.startswith
                  andb Py.drop].
  by rewrite split_once_slug, Hu.
Qed.

Lemma resolve_sub_route u tail :
  Urls.is_slug u = true ->
  Urls.resolve ("/pub/" +:+ u +:+ String "/" tail)
  = if String.eqb tail "followers" then
      Return {| Urls.url_name := "activitypub-followers"; Urls.username := Some u |}
    else if String.eqb tail "inbox" then
      Return {| Urls.url_name := "activitypub-inbox"; Urls.username := Some u |}
    else if String.eqb tail "outbox" then
      Return {| Urls.url_name := "activitypub-outbox"; Urls.username := Some u |}
    else Raise Resolver404.
Proof.
  intros Hu. cbn [String.append Urls.resolve String.eqb Ascii.eqb Bool.eqb Py.startswith
                  andb Py.drop].
  by rewrite split_once_slug_tail, Hu.
Qed.

End StringFacts.

(** X5. [resolve] inverts [reverse] and [reverse] inverts [resolve]: the
    path that [reverse] gives for a route and a username resolves to that
    route with that username, and a path that resolves to a route with a
    username is the path [reverse] gives for them.  In particular no path
    resolves to a username that is not a slug. *)
Theorem resolve_inverts_reverse (name username location : string) :
  reverse name username = Return location
  <-> Urls.resolve location
      = Return {| Urls.url_name := name; Urls.username := Some username |}.
Proof.
  split.
  - unfold reverse. destruct (Urls.is_slug username) eqn:Hu; [|done]. cbn [negb].
    destruct (String.eqb_spec name "activitypub-profile") as [->|_].
    { intros [= <-]. by apply resolve_profile. }
    destruct (String.eqb_spec name "activitypub-followers") as [->|_].
    { intros [= <-]. change ("/pub/" +:+ username +:+ "/followers")
        with ("/pub/" +:+ username +:+ String "/" "followers").
      by rewrite resolve_sub_route. }
    destruct (String.eqb_spec name "activitypub-inbox") as [->|_].
    { intros [= <-]. change ("/pub/" +:+ username +:+ "/inbox")
        with ("/pub/" +:+ username +:+ String "/" "inbox").
      by rewrite resolve_sub_route. }
    destruct (String.eqb_spec name "activitypub-outbox") as [->|_]; [|done].
    intros [= <-]. change ("/pub/" +:+ username +:+ "/outbox")
      with ("/pub/" +:+ username +:+ String "/" "outbox").
    by rewrite resolve_sub_route.
  - unfold Urls.resolve. destruct location as [|c route]; [done|].
    destruct (Ascii.eqb_spec c "/") as [->|Hc].
    2:{ destruct c as [[] [] [] [] [] [] [] []]; try done. }
    destruct (String.eqb route ".well-known/webfinger"); [done|].
    destruct (Py.startswith "pub/" route) eqn:Hpub; [|done].
    apply startswith_split in Hpub. cbn [String.length] in Hpub.
    remember (Py.drop 4 route) as rest eqn:Hrest. clear Hrest. subst route.
    unfold Py.split_once.
    destruct (Py.find_sep "/" rest) as [[slug tail]|] eqn:Hfind.
    + apply find_sep_split in Hfind. subst rest.
      destruct (Urls.is_slug slug) eqn:Hslug; [|done]. cbn [negb].
      unfold reverse.
      destruct (String.eqb_spec tail "followers") as [->|_].
      { intros [= <- <-]. by rewrite Hslug. }
      destruct (String.eqb_spec tail "inbox") as [->|_].
      { intros [= <- <-]. by rewrite Hslug. }
      destruct (String.eqb_spec tail "outbox") as [->|_]; [|done].
      intros [= <- <-]. by rewrite Hslug.
    + destruct (Urls.is_slug rest) eqn:Hslug; [|done].
      intros [= <- <-]. unfold reverse. by rewrite Hslug.
Qed.

(** ** Looking actors up *)

Lemma get_by_url_profile E url username w :
  Urls.resolve (path (urlparse E url))
  = Return {| Urls.url_name := "activitypub-profile"; Urls.username := Some username |} ->
  get_by_url E url w
  = match get_one LocalActorM (local_actors w)
            (named_at username (netloc (urlparse E url))) with
    | Return a => (Return (Some a), w)
    | Raise e => (Raise e, w)
    end.
Proof.
  intros Hres. cbv [get_by_url bind lift ret LocalActor_get get_world].
  rewrite Hres. cbn [Urls.url_name Urls.username String.eqb Ascii.eqb Bool.eqb].
  unfold get_one.
  rewrite (filter_bool_ext _ (named_at username (netloc (urlparse E url)))).
  - by destruct (filter _ _) as [|? [|? ?]].
  - intros x. unfold named_at. f_equal.
    destruct (String.eqb_spec (la_preferred_username x) username) as [->|Hne].
    + by apply bool_decide_eq_true_2.
    + apply bool_decide_eq_false_2. by intros [= ?].
Qed.

(** X6. [get_by_url] finds a local actor by its own account URL and by
    nothing else: with the URL that [account_url] gives for a stored actor
    it returns that actor; for the followers, inbox and outbox URLs of the
    same actor it returns [None]; and for the account URL of a user that is
    not stored it raises [LocalActor.DoesNotExist] rather than returning
    [None].  The store is never touched.  [urlparse] is taken to split the
    URLs into the domain and the path they were built from. *)
Theorem get_by_url_finds_account_url
    (E : Env) (a : LocalActor) (url : string) (w : World) :
  account_url a = Return url ->
  netloc (urlparse E url) = la_domain a ->
  path (urlparse E url) = "/pub/" +:+ la_preferred_username a ->
  filter (fun x => Is_true (named_at (la_preferred_username a) (la_domain a) x))
         (local_actors w) = [a] ->
  get_by_url E url w = (Return (Some a), w)
  /\ (forall tail url',
        tail ∈ ["followers"; "inbox"; "outbox"] ->
        path (urlparse E url') = "/pub/" +:+ la_preferred_username a +:+ "/" +:+ tail ->
        get_by_url E url' w = (Return None, w))
  /\ (forall w',
        filter (fun x => Is_true (named_at (la_preferred_username a) (la_domain a) x))
               (local_actors w') = [] ->
        get_by_url E url w' = (Raise (DoesNotExist LocalActorM), w')).
Proof.
  intros Hurl Hloc Hpath Hrow.
  assert (Hslug : Urls.is_slug (la_preferred_username a) = true).
  { unfold account_url, get_absolute_url, reverse in Hurl.
    by destruct (Urls.is_slug _). }
  assert (Hres : Urls.resolve (path (urlparse E url))
                 = Return {| Urls.url_name := "activitypub-profile";
                             Urls.username := Some (la_preferred_username a) |}).
  { rewrite Hpath. by apply resolve_profile. }
  split; [|split].
  - rewrite (get_by_url_profile E url _ w Hres), Hloc. unfold get_one. by rewrite Hrow.
  - intros tail url' Htail Hpath'.
    cbv [get_by_url bind lift ret LocalActor_get get_world]. rewrite Hpath'.
    change ("/pub/" +:+ la_preferred_username a +:+ "/" +:+ tail)
      with ("/pub/" +:+ la_preferred_username a +:+ String "/" tail).
    rewrite resolve_sub_route by done.
    rewrite !elem_of_cons in Htail.
    destruct Htail as [->|[->|[->|Htail]]]; [done..|by apply not_elem_of_nil in Htail].
  - intros w' Hnone.
    rewrite (get_by_url_profile E url _ w' Hres), Hloc. unfold get_one. by rewrite Hnone.
Qed.

Lemma get_by_url_finds_account_url_witness :
  get_by_url Fixture.offline "https://local.example/pub/bob" Fixture.acquainted
  = (Return (Some Fixture.bob), Fixture.acquainted)
  /\ get_by_url Fixture.offline "https://local.example/pub/bob/inbox" Fixture.acquainted
     = (Return None, Fixture.acquainted)
  /\ get_by_url Fixture.offline "https://local.example/pub/bob" empty_world
     = (Raise (DoesNotExist LocalActorM), empty_world).
Proof.
  destruct (get_by_url_finds_account_url Fixture.offline Fixture.bob
              "https://local.example/pub/bob" Fixture.acquainted
              eq_refl eq_refl eq_refl eq_refl) as (Hfound & Hsub & Hmiss).
  split; [exact Hfound|]. split.
  - apply (Hsub "inbox"); [repeat constructor|reflexivity].
  - by apply Hmiss.
Defined.

(** X7. A remote actor, once resolved by URL, is served from the store:
    after a call of [get_or_create_with_url] that returned a row, a later
    call for the same URL returns the same row and leaves the store as it
    is, in any environment, be the network gone or the profile changed.
    The first call stored at most that one row, and touched no other
    table. *)
Theorem get_or_create_with_url_caches
    (E E' : Env) (url : string) (w w' : World) (R : RemoteActor) :
  get_or_create_with_url E url w = (Return R, w') ->
  get_or_create_with_url E' url w' = (Return R, w')
  /\ ra_url R = url
  /\ (w' = w
      \/ w' = set_remote_actors (fun l => l ++ [R]) (set_next_pk S w)
         /\ ra_id R = next_pk w).
Proof.
  intros Hrun.
  destruct (get_or_create_with_url_success E url w R w' Hrun) as (Hone & _ & _).
  split; [by apply get_or_create_with_url_found|].
  assert (HR : R ∈ filter (fun r => Is_true (String.eqb (ra_url r) url)) (remote_actors w'))
    by (rewrite Hone; left).
  apply list_elem_of_filter in HR as [Hu%Is_true_true%String.eqb_eq _].
  split; [exact Hu|]. revert Hrun.
  cbv [get_or_create_with_url try_except bind RemoteActor_get get_world lift get_one
       RemoteActor_create fresh_pk modify ret raise].
  destruct (filter _ (remote_actors w)) as [|r [|r' rs]]; cbn [is_DoesNotExist].
  - destruct (fetch_remote_profile E (JStr url)); [|done].
    destruct (Json.get _ "preferredUsername") as [[]|]; try done.
    destruct (existsb _ _); [done|]. intros [= <- <-]. by right.
  - intros [= <- <-]. by left.
  - done.
Qed.

Lemma get_or_create_with_url_caches_witness :
  let w' := snd (get_or_create_with_url Fixture.federation Fixture.alice_url
                   Fixture.strangers) in
  get_or_create_with_url Fixture.offline Fixture.alice_url w' = (Return Fixture.alice, w').
Proof.
  intros w'.
  apply (get_or_create_with_url_caches Fixture.federation Fixture.offline
           Fixture.alice_url Fixture.strangers w' Fixture.alice).
  vm_compute. reflexivity.
Defined.

Lemma finger_shape E username domain data :
  finger E username domain = Return data ->
  exists doc profile, data = JObj [("webfinger", doc); ("profile", profile)].
Proof.
  unfold finger.
  destruct (wrapping_request_errors _) as [doc|]; [|done]. cbn [rbind].
  destruct (Json.get_default doc "links" (JArr [])) as [links|]; [|done]. cbn [rbind].
  destruct (Json.iter links) as [items|]; [|done]. cbn [rbind].
  destruct (first_profile_link items) as [link|]; [|done]. cbn [rbind].
  destruct (match link with Some _ => _ | None => _ end) as [profile|]; [|done].
  cbn [rbind]. intros [= <-]. by eexists _, _.
Qed.

(** X8. Resolution by handle keys new rows by the profile URL: when the
    handle is not stored and the profile that [finger] fetched carries an
    [id] under which a row is stored, that row is returned, whatever its
    own handle, and the store is left as it is; when no row is stored under
    that [id], one row is added, holding the handle as it was asked for,
    the [id] as its URL and the fetched profile. *)
Theorem handle_resolution_is_keyed_by_url
    (E : Env) (username domain url : string) (data profile : json) (w : World) :
  filter (fun r => Is_true (String.eqb (ra_username r) username
                            && String.eqb (ra_domain r) domain))
         (remote_actors w) = [] ->
  finger E username domain = Return data ->
  Json.item data "profile" = Return profile ->
  Json.get profile "id" = Return (JStr url) ->
  (forall R,
     filter (fun r => Is_true (String.eqb (ra_url r) url)) (remote_actors w) = [R] ->
     get_or_create_with_username_domain E username domain w = (Return (Some R), w))
  /\ (filter (fun r => Is_true (String.eqb (ra_url r) url)) (remote_actors w) = [] ->
      let row := {| ra_id := next_pk w; ra_username := username; ra_domain := domain;
                    ra_url := url; ra_profile := profile |} in
      get_or_create_with_username_domain E username domain w
      = (Return (Some row), set_remote_actors (fun l => l ++ [row]) (set_next_pk S w))).
Proof.
  intros Hhandle Hfinger Hprofile Hid.
  destruct (finger_shape E username domain data Hfinger) as (doc & p & ->).
  cbn in Hprofile. injection Hprofile as ->.
  split.
  - intros R HR.
    cbv [get_or_create_with_username_domain try_except bind RemoteActor_get get_world
         lift get_one ret raise].
    rewrite Hhandle. cbn [is_DoesNotExist]. rewrite Hfinger. cbn [Json.contains].
    rewrite bool_decide_eq_true_2 by (by eexists). cbn [negb Json.item Json.assoc
      String.eqb Ascii.eqb Bool.eqb].
    rewrite Hid. by rewrite HR.
  - intros Hnone row.
    cbv [get_or_create_with_username_domain try_except bind RemoteActor_get get_world
         lift get_one ret raise RemoteActor_create fresh_pk modify].
    rewrite Hhandle. cbn [is_DoesNotExist]. rewrite Hfinger. cbn [Json.contains].
    rewrite bool_decide_eq_true_2 by (by eexists). cbn [negb Json.item Json.assoc
      String.eqb Ascii.eqb Bool.eqb].
    rewrite Hid. rewrite Hnone. cbn [is_DoesNotExist].
    assert (Hex : existsb (fun r => String.eqb (ra_url r) url) (remote_actors w) = false).
    { apply not_true_is_false. intros (r & Hin & Hr)%existsb_exists.
      assert (r ∈ filter (fun r => Is_true (String.eqb (ra_url r) url)) (remote_actors w)).
      { apply list_elem_of_filter. split; [by apply Is_true_true|by apply list_elem_of_In]. }
      rewrite Hnone in H. by apply not_elem_of_nil in H. }
    by rewrite Hex.
Qed.

Lemma handle_resolution_is_keyed_by_url_witness :
  get_or_create_with_username_domain Scenario.handles "carol" "mirror.example"
    Scenario.followed
  = (Return (Some Scenario.carol), Scenario.followed)
  /\ fst (get_or_create_with_username_domain Scenario.handles "carol" "mirror.example"
            Fixture.acquainted)
     = Return (Some {| ra_id := 3; ra_username := "carol"; ra_domain := "mirror.example";
                       ra_url := Scenario.carol_url;
                       ra_profile := Scenario.carol_profile |}).
Proof.
  split.
  - apply (proj1 (handle_resolution_is_keyed_by_url Scenario.handles "carol"
                    "mirror.example" Scenario.carol_url _ Scenario.carol_profile
                    Scenario.followed eq_refl eq_refl eq_refl eq_refl)).
    reflexivity.
  - rewrite (proj2 (handle_resolution_is_keyed_by_url Scenario.handles "carol"
                      "mirror.example" Scenario.carol_url _ Scenario.carol_profile
                      Fixture.acquainted eq_refl eq_refl eq_refl eq_refl) eq_refl).
    reflexivity.
Defined.

(** ** Fan-out *)

Lemma same_tables_refl w : same_tables w w.
Proof. by repeat split. Qed.

Lemma same_tables_sent w0 f w : same_tables w0 w -> same_tables w0 (set_sent f w).
Proof. by intros H. Qed.

(** X9. [delete_local] deletes nothing: whatever the content URL, the
    environment and the outcome of the deliveries, every table of the store
    holds the same rows afterwards, the note itself included; and for a
    content URL under which no note is stored it returns without sending
    anything. *)
Theorem delete_local_keeps_rows (E : Env) (base_uri content_url : string) (w : World) :
  same_tables w (snd (delete_local E base_uri content_url w))
  /\ (notes_at content_url w = [] ->
      delete_local E base_uri content_url w = (Return tt, w)).
Proof.
  split.
  - assert (H : safe (same_tables w) (fun _ => True) (delete_local E base_uri content_url)).
    { unfold delete_local, Note_get, send_delete_note_to_followers, Note_local_actor,
        LocalActor_get, deliver_to_followers, followers_all, signed_post_to, signed_post,
        requests_post.
      pose proof (same_tables_sent w) as Hsent.
      safe_go. }
    apply H, same_tables_refl.
  - unfold notes_at. intros Hnone.
    cbv [delete_local try_except bind Note_get get_world lift get_one ret].
    by rewrite Hnone.
Qed.


(** X10. The fan-out of [delete_local] for a stored note of a stored
    local actor.  When the user name of the author is no slug, the profile
    URL cannot be reversed: the call raises [NoReverseMatch] and sends
    nothing.  When it is a slug, the loop goes through the followers of the
    author in the order in which [followers.all()] yields them, sending each
    one signed [Delete] to the inbox of its profile: when every delivery is
    accepted, exactly these requests are sent, one per follower; at the
    first delivery that is not accepted the loop stops with the exception of
    that delivery, and the followers after it are sent nothing. *)
Theorem delete_local_fan_out
    (E : Env) (base_uri content_url : string) (w : World)
    (note : Note) (actor : LocalActor) (rs : list RemoteActor) (reqs : list Request) :
  notes_at content_url w = [note] ->
  note_local_actor note = Some (la_id actor) ->
  filter (fun a => Is_true (Nat.eqb (la_id a) (la_id actor))) (local_actors w) = [actor] ->
  followers_all (la_id actor) w = (Return rs, w) ->
  (Urls.is_slug (la_preferred_username actor) = false ->
   delete_local E base_uri content_url w = (Raise NoReverseMatch, w))
  /\ (Urls.is_slug (la_preferred_username actor) = true ->
      let actor_url := base_uri +:+ "/pub/" +:+ la_preferred_username actor in
      Forall2 (fun r req =>
        delivery E (la_private_key actor) (actor_url +:+ "#main-key")
          (json_dumps E (delete_activity actor_url note)) r = Some req) rs reqs ->
      (Forall (fun req => accepted E req = true) reqs ->
       delete_local E base_uri content_url w
       = (Return tt, set_sent (fun l => l ++ reqs) w))
      /\ (forall before req rest,
            reqs = before ++ req :: rest ->
            Forall (fun req => accepted E req = true) before ->
            accepted E req = false ->
            delete_local E base_uri content_url w
            = (Raise (refusal E req), set_sent (fun l => l ++ before ++ [req]) w))).
Proof.
  intros Hnote Hauthor Hactor Hfollowers.
  assert (Hrun : delete_local E base_uri content_url w
                 = match get_absolute_url actor with
                   | Raise e =>
                       if is_DoesNotExist NoteM e then (Return tt, w) else (Raise e, w)
                   | Return location =>
                       match for_each rs
                               (post_to_follower E (la_private_key actor)
                                  ((base_uri +:+ location) +:+ "#main-key")
                                  (delete_activity (base_uri +:+ location) note)) w
                       with
                       | (Raise e, w') =>
                           if is_DoesNotExist NoteM e then (Return tt, w') else (Raise e, w')
                       | r => r
                       end
                   end).
  { unfold notes_at in Hnote.
    unfold delete_local, try_except. unfold bind at 1.
    cbv [Note_get bind get_world lift get_one]. rewrite Hnote.
    unfold send_delete_note_to_followers. unfold bind at 1.
    cbv [Note_local_actor]. rewrite Hauthor.
    cbv [bind LocalActor_get get_world lift get_one ret]. rewrite Hactor.
    destruct (get_absolute_url actor) as [location|e]; [|done].
    unfold deliver_to_followers. unfold bind at 1. rewrite Hfollowers.
    reflexivity. }
  rewrite Hrun. unfold get_absolute_url, reverse. split.
  - by intros ->.
  - cbv zeta. intros -> Hreqs. cbn [negb String.eqb Ascii.eqb Bool.eqb].
    destruct (delivery_loop_run E _ _ _ rs reqs w Hreqs) as [Hok Habort].
    split.
    + intros Hacc. by rewrite (Hok Hacc).
    + intros before req rest Heq Hbefore Hreq.
      rewrite (Habort before req rest Heq Hbefore Hreq).
      unfold refusal. by destruct (net_post E req).
Qed.

Lemma delete_local_fan_out_witness :
  let run E w := delete_local E "https://local.example" "https://local.example/notes/1" w in
  (fst (run Fixture.federation Scenario.followed) = Return tt
   /\ map req_url (sent (snd (run Fixture.federation Scenario.followed)))
      = ["https://remote.example/users/alice/inbox";
         "https://other.example/users/carol/inbox"])
  /\ (fst (run Scenario.alice_is_down Scenario.followed) = Raise (HTTPError 500)
      /\ map req_url (sent (snd (run Scenario.alice_is_down Scenario.followed)))
         = ["https://remote.example/users/alice/inbox"])
  /\ run Fixture.federation Scenario.renamed = (Raise NoReverseMatch, Scenario.renamed).
Proof.
  intros run.
  pose (request_to := fun (E : Env) (r : RemoteActor) =>
    default {| req_url := EmptyString; req_data := None; req_headers := ∅ |}
      (delivery E "pem" "https://local.example/pub/bob#main-key"
         (json_dumps E (delete_activity "https://local.example/pub/bob" Fixture.bob_note))
         r)).
  assert (Hreqs : forall E, E = Fixture.federation \/ E = Scenario.alice_is_down ->
            Forall2 (fun r req =>
              delivery E (la_private_key Fixture.bob)
                (("https://local.example" +:+ "/pub/" +:+ la_preferred_username Fixture.bob)
                   +:+ "#main-key")
                (json_dumps E (delete_activity
                   ("https://local.example" +:+ "/pub/" +:+ la_preferred_username Fixture.bob)
                   Fixture.bob_note)) r = Some req)
              [Fixture.alice; Scenario.carol]
              [request_to E Fixture.alice; request_to E Scenario.carol]).
  { intros E [->| ->]; repeat constructor; vm_compute; reflexivity. }
  split; [|split].
  - unfold run.
    rewrite (proj1 (proj2 (delete_local_fan_out Fixture.federation "https://local.example"
               "https://local.example/notes/1" Scenario.followed Fixture.bob_note
               Fixture.bob [Fixture.alice; Scenario.carol] _
               eq_refl eq_refl eq_refl eq_refl) eq_refl (Hreqs _ (or_introl eq_refl)))).
    + split; [reflexivity|]. vm_compute. reflexivity.
    + repeat constructor.
  - unfold run.
    rewrite (proj2 (proj2 (delete_local_fan_out Scenario.alice_is_down
               "https://local.example"
               "https://local.example/notes/1" Scenario.followed Fixture.bob_note
               Fixture.bob [Fixture.alice; Scenario.carol] _
               eq_refl eq_refl eq_refl eq_refl) eq_refl (Hreqs _ (or_intror eq_refl)))
               [] _ [_] eq_refl).
    + split; vm_compute; reflexivity.
    + constructor.
    + vm_compute. reflexivity.
  - unfold run.
    apply (proj1 (delete_local_fan_out Fixture.federation "https://local.example"
             "https://local.example/notes/1" Scenario.renamed Fixture.bob_note
             Scenario.bob_renamed [Fixture.alice; Scenario.carol] []
             eq_refl eq_refl eq_refl eq_refl)).
    reflexivity.
Defined.

(** ** Remote notes *)


Lemma upsert_remote_run
    E depth base_uri obj doc url full_url attributed t content reply R w :
  Json.item obj "id" = Return (JStr url) ->
  get_object E (JStr url) = Return doc ->
  Json.item doc "id" = Return (JStr full_url) ->
  Json.item doc "attributedTo" = Return (JStr attributed) ->
  (exists published,
     Json.item doc "published" = Return (JStr published)
     /\ strptime E published = Some t) ->
  Json.get_default doc "updated" JNull = Return JNull ->
  Json.item doc "content" = Return (JStr content) ->
  Json.get_default doc "inReplyTo" JNull = Return reply ->
  filter (fun r => Is_true (String.eqb (ra_url r) attributed)) (remote_actors w) = [R] ->
  length (notes_at full_url w) <= 1 ->
  let note := match notes_at full_url w with n :: _ => n | [] => Note_new end in
  upsert_remote E (S depth) base_uri obj w
  = (let! parent :=
       if Json.truthy reply then
         match reply with
         | JStr r =>
             if Py.startswith base_uri r then
               let! p := Note_get r in ret (note_id p)
             else
               let! parent_obj := lift (get_object E reply) in
               let! p := upsert_remote E depth base_uri parent_obj in
               ret (note_id p)
         | _ => raise AttributeError
         end
       else ret (note_parent note) in
     Note_save E {| note_id := note_id note; note_parent := parent;
                    note_local_actor := note_local_actor note;
                    note_remote_actor := Some (ra_id R);
                    note_published_at := t;
                    note_updated_at := note_updated_at note;
                    note_content := content;
                    note_content_url := url |}) w.
Proof.
  intros Hid Hget Hdid Hattr (published & Hpub & Hparse) Hupd Hcontent Hreply
         HR Hlen note.
  cbn [upsert_remote].
  rewrite bind_lift, Hid. cbv beta iota.
  rewrite bind_lift, Hget. cbv beta iota.
  assert (Hnote : try_except
            (let! full_id := lift (Json.item doc "id") in
             let! full_id := lift (Json.as_str full_id) in Note_get full_id)
            (is_DoesNotExist NoteM) (ret Note_new) w = (Return note, w)).
  { cbv [try_except bind lift Note_get get_world get_one ret]. rewrite Hdid.
    cbn [Json.as_str]. unfold note, notes_at in *.
    destruct (filter _ (notes w)) as [|n [|n' ns]]; try done. cbn in Hlen. lia. }
  rewrite (bind_run _ _ _ _ _ Hnote).
  rewrite bind_lift, Hattr. cbv beta iota.
  rewrite bind_lift. cbn [Json.as_str]. cbv beta iota.
  rewrite (bind_run _ _ _ _ _ (get_or_create_with_url_found E attributed w R HR)).
  rewrite bind_lift, Hpub. cbv beta iota.
  rewrite bind_lift. cbn [Json.as_str]. cbv beta iota.
  rewrite bind_lift, Hparse. cbn [or_raise]. cbv beta iota.
  rewrite bind_lift, Hupd. cbv beta iota. cbn [Json.truthy].
  rewrite (bind_run _ _ _ _ _ (eq_refl : ret (note_updated_at note) w = (Return _, w))).
  rewrite bind_lift, Hcontent. cbv beta iota.
  rewrite bind_lift. cbn [Json.as_str]. cbv beta iota.
  rewrite bind_lift. cbv beta iota.
  rewrite bind_lift. cbn [Json.as_str]. cbv beta iota.
  rewrite bind_lift, Hreply. cbv beta iota.
  reflexivity.
Qed.

Lemma upsert_remote_step E depth base_uri obj doc url attributed t content reply R w :
  serves_note E obj doc url attributed t content reply ->
  filter (fun r => Is_true (String.eqb (ra_url r) attributed)) (remote_actors w) = [R] ->
  length (notes_at url w) <= 1 ->
  let note := match notes_at url w with n :: _ => n | [] => Note_new end in
  upsert_remote E (S depth) base_uri obj w
  = (let! parent :=
       if Json.truthy reply then
         match reply with
         | JStr r =>
             if Py.startswith base_uri r then
               let! p := Note_get r in ret (note_id p)
             else
               let! parent_obj := lift (get_object E reply) in
               let! p := upsert_remote E depth base_uri parent_obj in
               ret (note_id p)
         | _ => raise AttributeError
         end
       else ret (note_parent note) in
     Note_save E {| note_id := note_id note; note_parent := parent;
                    note_local_actor := note_local_actor note;
                    note_remote_actor := Some (ra_id R);
                    note_published_at := t;
                    note_updated_at := note_updated_at note;
                    note_content := content;
                    note_content_url := url |}) w.
Proof.
  intros (Hid & Hget & Hdid & Hattr & Hpub & Hupd & Hcontent & Hreply) HR Hlen.
  by apply (upsert_remote_run E depth base_uri obj doc url url attributed t content
              reply R w).
Qed.

(** X11. [upsert_remote] follows the [inReplyTo] chain without a guard:
    for a note document that names itself as the note it replies to, the
    call ends in [RecursionError] whatever the recursion limit [depth] is,
    and nothing is stored. *)
Theorem upsert_remote_reply_cycle
    (E : Env) (base_uri url attributed content : string) (doc : json) (t : Z)
    (R : RemoteActor) (w : World) :
  serves_note E doc doc url attributed t content (JStr url) ->
  url <> EmptyString -> Py.startswith base_uri url = false ->
  filter (fun r => Is_true (String.eqb (ra_url r) attributed)) (remote_actors w) = [R] ->
  length (notes_at url w) <= 1 ->
  forall depth obj,
    Json.item obj "id" = Return (JStr url) ->
    upsert_remote E depth base_uri obj w = (Raise RecursionError, w).
Proof.
  intros Hdoc Hurl Hbase HR Hlen.
  induction depth as [|depth IH]; intros obj Hid; [done|].
  assert (Hobj : serves_note E obj doc url attributed t content (JStr url)).
  { destruct Hdoc as (_ & H). by split. }
  rewrite (upsert_remote_step E depth base_uri obj doc url attributed t content
             (JStr url) R w Hobj HR Hlen).
  cbn [Json.truthy]. destruct url as [|c url']; [done|]. cbn [Py.truthy].
  rewrite Hbase. destruct Hdoc as (Hdid & Hget & _).
  cbv [bind lift]. rewrite Hget. by rewrite (IH doc Hdid).
Qed.

Lemma upsert_remote_reply_cycle_witness :
  upsert_remote Scenario.remote_notes 1000 "https://local.example"
    (JObj [("id", JStr "https://remote.example/notes/8")]) Fixture.acquainted
  = (Raise RecursionError, Fixture.acquainted).
Proof.
  apply (upsert_remote_reply_cycle Scenario.remote_notes "https://local.example"
           "https://remote.example/notes/8" Fixture.alice_url "again"
           Scenario.looping_note 0 Fixture.alice Fixture.acquainted).
  - repeat split; try reflexivity. by exists "2026-11-04T07:00:00Z".
  - done.
  - reflexivity.
  - reflexivity.
  - cbn. lia.
  - reflexivity.
Defined.

(** X12. A remote note whose document names as its id the very id it is
    served under is stored once.  The first [upsert_remote] of such a note
    that replies to nothing adds one row under this id, with the resolved
    remote actor as its only author; its publication date is the time of
    the call, the date of the document being overwritten by the insert.  A
    second [upsert_remote] of the same object updates that row in place,
    and only then does the row carry the publication date of the
    document. *)
Theorem upsert_remote_stores_once
    (E : Env) (depth : nat) (base_uri url attributed content : string)
    (obj doc : json) (t : Z) (R : RemoteActor) (w : World) :
  serves_note E obj doc url attributed t content JNull ->
  filter (fun r => Is_true (String.eqb (ra_url r) attributed)) (remote_actors w) = [R] ->
  notes_keyed w -> notes_at url w = [] ->
  let first := {| note_id := Some (next_pk w); note_parent := None;
                  note_local_actor := None; note_remote_actor := Some (ra_id R);
                  note_published_at := timezone_now E;
                  note_updated_at := timezone_now E;
                  note_content := content; note_content_url := url |} in
  let second := {| note_id := Some (next_pk w); note_parent := None;
                   note_local_actor := None; note_remote_actor := Some (ra_id R);
                   note_published_at := t;
                   note_updated_at := timezone_now E;
                   note_content := content; note_content_url := url |} in
  let w1 := set_notes (fun l => l ++ [first]) (set_next_pk S w) in
  upsert_remote E (S depth) base_uri obj w = (Return first, w1)
  /\ upsert_remote E (S depth) base_uri obj w1
     = (Return second, set_notes (fun _ => notes w ++ [second]) w1).
Proof.
  intros Hdoc HR Hkeyed Hnone first second w1.
  assert (Hat : notes_at url w1 = [first]).
  { unfold notes_at, w1 in *. cbn [notes set_notes set_next_pk].
    rewrite filter_app, Hnone. cbn [app]. rewrite filter_cons. cbn [note_content_url first].
    by rewrite decide_True by (apply Is_true_true, String.eqb_refl). }
  split.
  - rewrite (upsert_remote_step E depth base_uri obj doc url attributed t content
               JNull R w Hdoc HR) by (rewrite Hnone; cbn; lia).
    rewrite Hnone. cbn [Json.truthy Note_new note_id note_parent note_local_actor
                        note_updated_at].
    reflexivity.
  - rewrite (upsert_remote_step E depth base_uri obj doc url attributed t content
               JNull R w1 Hdoc) by (done || (rewrite Hat; cbn; lia)).
    rewrite Hat. cbn [Json.truthy first note_id note_parent note_local_actor
                      note_updated_at].
    cbv [bind ret Note_save modify]. cbn [note_id note_parent note_local_actor
      note_remote_actor note_published_at note_content note_content_url].
    f_equal. unfold set_notes, w1. cbn [notes set_notes set_next_pk].
    rewrite map_app. cbn [map note_id]. rewrite bool_decide_eq_true_2 by done.
    by rewrite (replace_row_fresh _ (next_pk w) (notes w) Hkeyed).
Qed.

Lemma upsert_remote_stores_once_witness :
  let obj := JObj [("id", JStr "https://remote.example/notes/7")] in
  let w1 := snd (upsert_remote Scenario.remote_notes 1 "https://local.example" obj
                   Fixture.acquainted) in
  let w2 := snd (upsert_remote Scenario.remote_notes 1 "https://local.example" obj w1) in
  map note_published_at (notes w1) = [timezone_now Scenario.remote_notes]
  /\ map note_published_at (notes w2) = [0%Z]
  /\ map note_remote_actor (notes w2) = [Some 2]
  /\ map note_local_actor (notes w2) = [None].
Proof.
  intros obj w1 w2.
  destruct (upsert_remote_stores_once Scenario.remote_notes 0 "https://local.example"
              "https://remote.example/notes/7" Fixture.alice_url "good morning"
              obj Scenario.plain_note 0 Fixture.alice Fixture.acquainted)
    as [H1 H2].
  - repeat split; try reflexivity. by exists "2026-11-04T07:00:00Z".
  - reflexivity.
  - constructor.
  - reflexivity.
  - unfold w2, w1. rewrite H1. cbn [snd]. rewrite H2. cbn [snd].
    repeat split; reflexivity.
Defined.

(** X30. A remote note whose document names another id than the one it
    is served under is stored anew at every call.  [upsert_remote] looks
    the note up under the id of the document and stores it under the id of
    the object: when no note is stored under the id of the document, the
    call adds a row under the id of the object, beside the rows that are
    already stored there, and nothing is stored under the id of the
    document, so that the next call finds the store in the same condition
    and adds another row. *)
Theorem upsert_remote_under_another_id
    (E : Env) (depth : nat) (base_uri url full_url attributed content : string)
    (obj doc : json) (t : Z) (R : RemoteActor) (w : World) :
  serves_note_as E obj doc url full_url attributed t content ->
  url <> full_url ->
  filter (fun r => Is_true (String.eqb (ra_url r) attributed)) (remote_actors w) = [R] ->
  notes_at full_url w = [] ->
  let row := {| note_id := Some (next_pk w); note_parent := None;
                note_local_actor := None; note_remote_actor := Some (ra_id R);
                note_published_at := timezone_now E;
                note_updated_at := timezone_now E;
                note_content := content; note_content_url := url |} in
  let w1 := set_notes (fun l => l ++ [row]) (set_next_pk S w) in
  upsert_remote E (S depth) base_uri obj w = (Return row, w1)
  /\ notes_at url w1 = notes_at url w ++ [row]
  /\ notes_at full_url w1 = []
  /\ remote_actors w1 = remote_actors w.
Proof.
  intros (Hid & Hget & Hdid & Hattr & Hpub & Hupd & Hcontent & Hreply) Hne HR Hnone row w1.
  split; [|split; [|split]].
  - rewrite (upsert_remote_run E depth base_uri obj doc url full_url attributed t content
               JNull R w) by (done || (rewrite Hnone; cbn; lia)).
    rewrite Hnone. cbn [Json.truthy Note_new note_id note_parent note_local_actor
                        note_updated_at].
    reflexivity.
  - unfold notes_at, w1. cbn [notes set_notes set_next_pk].
    rewrite filter_app. f_equal. rewrite filter_cons. cbn [note_content_url row].
    by rewrite decide_True by (apply Is_true_true, String.eqb_refl).
  - unfold notes_at, w1 in *. cbn [notes set_notes set_next_pk].
    rewrite filter_app, Hnone. cbn [app]. rewrite filter_cons. cbn [note_content_url row].
    rewrite decide_False; [done|].
    intros Heq%Is_true_true%String.eqb_eq. done.
  - reflexivity.
Qed.

Lemma upsert_remote_under_another_id_witness :
  let obj := JObj [("id", JStr "https://remote.example/old/6")] in
  let w1 := snd (upsert_remote Scenario.remote_notes 1 "https://local.example" obj
                   Fixture.acquainted) in
  let w2 := snd (upsert_remote Scenario.remote_notes 1 "https://local.example" obj w1) in
  map note_content_url (notes w2)
  = ["https://remote.example/old/6"; "https://remote.example/old/6"]
  /\ map note_id (notes w2) = [Some 3; Some 4].
Proof.
  intros obj w1 w2.
  assert (Hdoc : serves_note_as Scenario.remote_notes obj Scenario.moved_note
                   "https://remote.example/old/6" "https://remote.example/notes/6"
                   Fixture.alice_url 0 "moved").
  { repeat split; try reflexivity. by exists "2026-11-04T07:00:00Z". }
  destruct (upsert_remote_under_another_id Scenario.remote_notes 0 "https://local.example"
              "https://remote.example/old/6" "https://remote.example/notes/6"
              Fixture.alice_url "moved" obj Scenario.moved_note 0 Fixture.alice
              Fixture.acquainted Hdoc)
    as (H1 & _ & Hnone1 & HR1); [done|reflexivity|reflexivity|].
  cbv zeta in H1, Hnone1, HR1.
  destruct (upsert_remote_under_another_id Scenario.remote_notes 0 "https://local.example"
              "https://remote.example/old/6" "https://remote.example/notes/6"
              Fixture.alice_url "moved" obj Scenario.moved_note 0 Fixture.alice
              w1 Hdoc)
    as (H2 & _); [done| | |].
  - unfold w1. rewrite H1. reflexivity.
  - unfold w1. rewrite H1. exact Hnone1.
  - unfold w2. rewrite H2. unfold w1. rewrite H1. split; reflexivity.
Defined.

(** ** WebFinger: the client *)

Lemma first_profile_link_app before link after :
  Forall (fun l => first_profile_link [l] = Return None) before ->
  first_profile_link [link] = Return (Some link) ->
  first_profile_link (before ++ link :: after) = Return (Some link).
Proof.
  intros Hbefore Hlink. induction Hbefore as [|l before Hl _ IH]; cbn [app].
  - cbn [first_profile_link] in *.
    destruct (Json.get link "rel") as [r|]; [|done]. cbn [rbind] in *.
    destruct (Json.eq_str r "self"); [|done].
    destruct (Json.get link "type") as [t|]; [|done]. cbn [rbind] in *.
    by destruct (Json.eq_str t "application/activity+json").
  - cbn [first_profile_link] in *.
    destruct (Json.get l "rel") as [r|]; [|done]. cbn [rbind] in *.
    destruct (Json.eq_str r "self"); [|done].
    destruct (Json.get l "type") as [t|]; [|done]. cbn [rbind] in *.
    by destruct (Json.eq_str t "application/activity+json").
Qed.

(** X13. [finger] follows the first link of the WebFinger document
    that has [rel] [self] and type [application/activity+json]: the links
    before it are passed over, the links after it are not looked at,
    whatever they are, and the profile of the result is what
    [fetch_remote_profile] gets for the [href] of that link. *)
Theorem finger_follows_first_self_link
    (E : Env) (username domain : string) (status_code : Z) (doc link href : json)
    (before after : list json) :
  net_get E (webfinger_url username domain) = Response status_code (Some doc) ->
  raise_for_status status_code = Return tt ->
  Json.get_default doc "links" (JArr []) = Return (JArr (before ++ link :: after)) ->
  Forall (fun l => first_profile_link [l] = Return None) before ->
  first_profile_link [link] = Return (Some link) ->
  Json.get link "href" = Return href ->
  finger E username domain
  = let* profile := fetch_remote_profile E href in
    Return (JObj [("webfinger", doc); ("profile", profile)]).
Proof.
  intros Hget Hstatus Hlinks Hbefore Hlink Hhref.
  unfold finger, get_checked. rewrite Hget, Hstatus.
  cbn [rbind response_json or_raise wrapping_request_errors].
  rewrite Hlinks. cbn [rbind Json.iter].
  rewrite (first_profile_link_app before link after Hbefore Hlink). cbn [rbind].
  by rewrite Hhref.
Qed.

Lemma finger_follows_first_self_link_witness :
  finger Scenario.handles "carol" "other.example"
  = Return (JObj [("webfinger", Scenario.carol_webfinger);
                  ("profile", Scenario.carol_profile)]).
Proof.
  apply (finger_follows_first_self_link Scenario.handles "carol" "other.example" 200
           Scenario.carol_webfinger
           (JObj [("rel", JStr "self"); ("type", JStr "application/activity+json");
                  ("href", JStr Scenario.carol_url)])
           (JStr Scenario.carol_url)
           [JObj [("rel", JStr "http://webfinger.net/rel/profile-page");
                  ("type", JStr "text/html");
                  ("href", JStr "https://other.example/@carol")]]
           [JStr "not a link"]); try reflexivity.
  by repeat constructor.
Defined.

(** X14. Which failures of a request the WebFinger client wraps.  A
    connection that fails and an answer with a status from 400 to 599 come
    out of [fetch_remote_profile] and of [finger] as a [WebfingerException]
    that carries the failure, and so does, in [finger], a WebFinger answer
    whose body is no JSON.  [fetch_remote_profile] decodes the body outside
    its [try]: an answer with a passing status and a body that is no JSON
    makes it raise the [JSONDecodeError] of requests as it is, and this is
    the only [RequestException] that either function lets out; [finger]
    lets it out only from the fetch of the profile link, after the WebFinger
    document itself was fetched and decoded. *)
Theorem which_request_errors_are_wrapped (E : Env) :
  (forall url e,
     fetch_remote_profile E url = Raise e -> is_RequestException e = true ->
     e = RequestsJSONDecodeError
     /\ exists u status_code,
          url = JStr u /\ net_get E u = Response status_code None
          /\ raise_for_status status_code = Return tt)
  /\ (forall username domain e,
        finger E username domain = Raise e -> is_RequestException e = true ->
        e = RequestsJSONDecodeError
        /\ exists status_code doc,
             net_get E (webfinger_url username domain) = Response status_code (Some doc)
             /\ raise_for_status status_code = Return tt)
  /\ (forall url,
        match net_get E url with
        | ConnectionFailed =>
            fetch_remote_profile E (JStr url)
            = Raise (WebfingerException RequestException)
        | Response status_code json_body =>
            ((400 <= status_code < 600)%Z ->
             fetch_remote_profile E (JStr url)
             = Raise (WebfingerException (HTTPError status_code)))
            /\ (~ (400 <= status_code < 600)%Z ->
                fetch_remote_profile E (JStr url)
                = match json_body with
                  | Some profile => Return profile
                  | None => Raise RequestsJSONDecodeError
                  end)
        end)
  /\ (forall username domain,
        match net_get E (webfinger_url username domain) with
        | ConnectionFailed =>
            finger E username domain = Raise (WebfingerException RequestException)
        | Response status_code json_body =>
            ((400 <= status_code < 600)%Z ->
             finger E username domain
             = Raise (WebfingerException (HTTPError status_code)))
            /\ (~ (400 <= status_code < 600)%Z -> json_body = None ->
                finger E username domain
                = Raise (WebfingerException RequestsJSONDecodeError))
        end).
Proof.
  assert (Hstatus : forall status_code,
            ((400 <= status_code < 600)%Z ->
             raise_for_status status_code = Raise (HTTPError status_code))
            /\ (~ (400 <= status_code < 600)%Z ->
                raise_for_status status_code = Return tt)).
  { intros s. unfold raise_for_status.
    destruct (Z.leb_spec 400 s), (Z.ltb_spec s 600); cbn [andb]; split; intros; (done || lia). }
  assert (Hfetch : forall url e,
            fetch_remote_profile E url = Raise e -> is_RequestException e = true ->
            e = RequestsJSONDecodeError
            /\ exists u status_code,
                 url = JStr u /\ net_get E u = Response status_code None
                 /\ raise_for_status status_code = Return tt).
  { intros url e. unfold fetch_remote_profile, get_checked.
    destruct url as [| | |u| |]; cbn [wrapping_request_errors is_RequestException rbind];
      try (by intros [= <-]).
    destruct (net_get E u) as [|status_code body] eqn:Hget;
      cbn [wrapping_request_errors is_RequestException rbind]; [by intros [= <-]|].
    destruct (raise_for_status status_code) as [[]|e'] eqn:Hst;
      cbn [wrapping_request_errors rbind].
    - destruct body; cbn [response_json or_raise]; [done|]. intros [= <-] _.
      split; [done|]. by exists u, status_code.
    - destruct (is_RequestException e') eqn:He'; cbn [rbind]; intros [= <-] Hreq;
        [done|congruence]. }
  assert (Hlink : forall links e,
            first_profile_link links = Raise e -> e = AttributeError).
  { induction links as [|l links IH]; intros e; cbn [first_profile_link]; [done|].
    destruct l; cbn [Json.get rbind]; try (by intros [= <-]).
    destruct (Json.eq_str _ _); [|apply IH].
    destruct (Json.eq_str _ _); [done|apply IH]. }
  split; [exact Hfetch|split; [|split]].
  - intros username domain e. unfold finger, get_checked.
    destruct (net_get E _) as [|status_code body];
      cbn [wrapping_request_errors is_RequestException rbind]; [by intros [= <-]|].
    destruct (raise_for_status status_code) as [[]|e'] eqn:Hst;
      cbn [wrapping_request_errors rbind].
    2:{ destruct (is_RequestException e') eqn:He'; cbn [rbind]; intros [= <-] Hreq;
          [done|congruence]. }
    destruct body as [doc|];
      cbn [response_json or_raise wrapping_request_errors is_RequestException rbind];
      [|by intros [= <-]].
    intros Hrun Hreq. cut (e = RequestsJSONDecodeError).
    { intros ->. split; [done|]. by exists status_code, doc. }
    revert Hrun Hreq.
    destruct doc; cbn [Json.get_default rbind]; try (by intros [= <-]).
    destruct (Json.iter _) as [items|e'] eqn:Hiter; cbn [rbind].
    2:{ intros [= <-]. destruct (default _ _); cbn in Hiter; try done;
          by injection Hiter as <-. }
    destruct (first_profile_link items) as [link|e'] eqn:Hfirst; cbn [rbind].
    2:{ intros [= <-]. by apply Hlink in Hfirst as ->. }
    destruct link as [link|]; [|done].
    destruct (Json.get link "href") as [href|e'] eqn:Hhref; cbn [rbind].
    2:{ intros [= <-]. destruct link; cbn in Hhref; try done; by injection Hhref as <-. }
    destruct (fetch_remote_profile E href) as [p|e'] eqn:Hp; cbn [rbind]; [done|].
    intros [= <-] Hreq. by destruct (Hfetch href e' Hp Hreq).
  - intros url. unfold fetch_remote_profile, get_checked.
    destruct (net_get E url) as [|status_code body]; [done|].
    destruct (Hstatus status_code) as [Hbad Hgood]. split.
    + intros Hs. by rewrite (Hbad Hs).
    + intros Hs. rewrite (Hgood Hs). by destruct body.
  - intros username domain. unfold finger, get_checked.
    destruct (net_get E _) as [|status_code body]; [done|].
    destruct (Hstatus status_code) as [Hbad Hgood]. split.
    + intros Hs. by rewrite (Hbad Hs).
    + intros Hs ->. by rewrite (Hgood Hs).
Qed.

(** ** The inbox: verification *)

Lemma item_contains d k v : Json.item d k = Return v -> Json.contains k d = Return true.
Proof.
  destruct d; try done. cbn [Json.item Json.contains].
  destruct (Json.assoc k members) eqn:H; [|done]. intros _.
  rewrite bool_decide_eq_true_2; [done|by eexists].
Qed.



Lemma validate_post_request_passed E request activity w :
  fst (validate_post_request E request activity w) = Return None ->
  method request = "POST"
  /\ exists actor actor_data key_doc checker identity,
       Json.item activity "actor" = Return actor
       /\ fetch_remote_profile E actor = Return actor_data
       /\ Json.get actor_data "publicKey" = Return key_doc
       /\ SignatureChecker_init E key_doc = Return checker
       /\ validate E checker (Py.lower (method request)) (build_absolute_uri request None)
            (headers request) (Some (body request))
          = Return (success identity).
Proof.
  unfold validate_post_request.
  destruct (String.eqb_spec (method request) "POST") as [Hm|]; [|done]. cbn [negb].
  split; [done|]. revert H.
  cbv [bind lift ret raise].
  destruct (Json.contains "actor" activity) as [[]|]; try done. cbn [negb].
  destruct (Json.item activity "actor") as [actor|] eqn:H1; [|done].
  destruct (fetch_remote_profile E actor) as [actor_data|e] eqn:H2.
  2:{ destruct e as [| | | | | | | | | | | | | | | | |cause| |]; try done.
      destruct cause; try done.
      destruct (_ =? _)%Z; [|done].
      destruct (Json.item activity "type") as [t|]; [|done].
      by destruct (Json.eq_str t "Delete"). }
  destruct (Json.get actor_data "publicKey") as [key_doc|] eqn:H3; [|done].
  destruct (SignatureChecker_init E key_doc) as [checker|] eqn:H4; [|done].
  destruct (validate E checker _ _ _ _) as [[identity|]|] eqn:Hv; try done.
  intros _. by exists actor, actor_data, key_doc, checker, identity.
Qed.

(** X16. The inbox acts on verified requests only: whenever a call of
    [inbox] leaves the store or the log of sent requests other than it
    found them, the request was a POST whose body decoded to an activity,
    the profile of the actor of that activity was fetched, and [validate]
    returned the success variant for the request under the key that the
    profile publishes. *)
Theorem inbox_acts_on_verified_requests_only
    (E : Env) (depth : nat) (request : HttpRequest) (username : string) (w : World) :
  snd (inbox E depth request username w) <> w ->
  method request = "POST"
  /\ exists activity actor actor_data key_doc checker identity,
       json_loads E (body request) = Some activity
       /\ Json.item activity "actor" = Return actor
       /\ fetch_remote_profile E actor = Return actor_data
       /\ Json.get actor_data "publicKey" = Return key_doc
       /\ SignatureChecker_init E key_doc = Return checker
       /\ validate E checker "post" (build_absolute_uri request None)
            (headers request) (Some (body request))
          = Return (success identity).
Proof.
  unfold inbox. destruct (String.eqb_spec (method request) "POST") as [Hm|]; [|done].
  destruct (json_loads E (body request)) as [activity|] eqn:Hloads; [|done].
  cbn [or_raise]. rewrite bind_lift. cbv beta iota.
  destruct (validate_post_request_pure E request activity) as (r & Hr & _).
  unfold bind at 1. rewrite Hr.
  destruct r as [[resp|]|e]; try done.
  intros _. split; [done|].
  destruct (validate_post_request_passed E request activity w) as (_ & H).
  { by rewrite Hr. }
  destruct H as (actor & actor_data & key_doc & checker & identity & H1 & H2 & H3 & H4 & H5).
  exists activity, actor, actor_data, key_doc, checker, identity.
  rewrite Hm in H5. by repeat split.
Qed.

Lemma inbox_acts_on_verified_requests_only_witness :
  exists checker identity,
    validate Fixture.federation checker "post" "https://local.example/pub/bob/inbox"
      (headers (Fixture.inbox_request "follow")) (Some "follow")
    = Return (success identity).
Proof.
  destruct (inbox_acts_on_verified_requests_only Fixture.federation 5
              (Fixture.inbox_request "follow") "bob" Fixture.acquainted)
    as (_ & activity & actor & actor_data & key_doc & checker & identity & _ & _ & _ & _ & _ & H).
  - intros Heq.
    assert (Hf : followers (snd (inbox Fixture.federation 5 (Fixture.inbox_request "follow")
                                   "bob" Fixture.acquainted)) <> [])
      by (vm_compute; discriminate).
    apply Hf. by rewrite Heq.
  - by exists checker, identity.
Defined.

(** ** The inbox: reactions *)

Lemma inbox_verified E depth request username activity actor w :
  verified_for E request username activity actor w ->
  inbox E depth request username w = inbox_dispatch E depth request actor activity w
  /\ forall w', local_actors w' = local_actors w ->
       verified_for E request username activity actor w'.
Proof.
  intros (Hm & Hloads & Hv & Hactor).
  destruct (inbox_branch E depth request username activity Hloads) as (r & _ & Hr & Hrun).
  rewrite Hr in Hv. cbn [fst] in Hv. subst r. split.
  - rewrite Hrun, Hm. cbn [String.eqb Ascii.eqb Bool.eqb]. by rewrite Hactor.
  - intros w' Hw'. split; [done|]. split; [done|]. split; [by rewrite Hr|].
    by rewrite Hw'.
Qed.

Lemma m2m_add_twice pair rows : m2m_add pair (m2m_add pair rows) = m2m_add pair rows.
Proof.
  unfold m2m_add. destruct (bool_decide (pair ∈ rows)) eqn:H.
  - by rewrite H.
  - rewrite bool_decide_eq_true_2; [done|]. apply elem_of_app. right. left.
Qed.

Lemma m2m_remove_add pair rows :
  pair ∉ rows -> m2m_remove pair (m2m_add pair rows) = rows.
Proof.
  intros Hnot. unfold m2m_add, m2m_remove.
  rewrite bool_decide_eq_false_2 by done. rewrite filter_app. cbn [filter].
  rewrite filter_cons, decide_False, filter_nil, app_nil_r.
  2:{ rewrite bool_decide_eq_true_2 by done. cbn. tauto. }
  induction rows as [|p rows IH]; [done|].
  apply not_elem_of_cons in Hnot as [Hp Hrows].
  rewrite filter_cons, decide_True, IH; try done.
  rewrite bool_decide_eq_false_2 by done. done.
Qed.

Lemma set_likes_twice f g w : set_likes f (set_likes g w) = set_likes (fun l => f (g l)) w.
Proof. done. Qed.

Lemma set_likes_same f w : f (likes w) = likes w -> set_likes f w = w.
Proof. destruct w. unfold set_likes. cbn. by intros ->. Qed.

Lemma like_run E activity note_url actor_url n nid R w :
  reaction "Like" activity note_url actor_url ->
  notes_at note_url w = [n] -> note_id n = Some nid ->
  filter (fun r => Is_true (String.eqb (ra_url r) actor_url)) (remote_actors w) = [R] ->
  inbox_react E set_likes activity w
  = (Return ok_response, set_likes (m2m_add (nid, ra_id R)) w).
Proof.
  intros (_ & Hobject & Hactor) Hnote Hnid HR. unfold notes_at in Hnote.
  unfold inbox_react. rewrite bind_lift, Hobject. cbv beta iota.
  assert (Hn : note_or_404 (JStr note_url) w = (Return n, w)).
  { cbv [note_or_404 bind lift get_world get_one_or_404]. cbn [Json.as_str].
    by rewrite Hnote. }
  rewrite (bind_run _ _ _ _ _ Hn).
  rewrite bind_lift, Hactor. cbv beta iota.
  rewrite bind_lift. cbn [Json.as_str]. cbv beta iota.
  rewrite (bind_run _ _ _ _ _ (get_or_create_with_url_found E actor_url w R HR)).
  rewrite Hnid. reflexivity.
Qed.

Lemma undo_like_run E actor activity note_url actor_url n nid R w :
  undo_of "Like" activity note_url actor_url ->
  notes_at note_url w = [n] -> note_id n = Some nid ->
  filter (fun r => Is_true (String.eqb (ra_url r) actor_url)) (remote_actors w) = [R] ->
  inbox_undo E actor activity w
  = (Return ok_response, set_likes (m2m_remove (nid, ra_id R)) w).
Proof.
  intros (_ & to_undo & Hto & Htype & Hobject & Hactor) Hnote Hnid HR.
  unfold notes_at in Hnote.
  unfold inbox_undo. rewrite bind_lift, Hto. cbv beta iota.
  rewrite bind_lift, Htype. cbv beta iota.
  cbn [Json.eq_str String.eqb Ascii.eqb Bool.eqb].
  rewrite bind_lift, Hobject. cbv beta iota.
  assert (Hn : note_or_404 (JStr note_url) w = (Return n, w)).
  { cbv [note_or_404 bind lift get_world get_one_or_404]. cbn [Json.as_str].
    by rewrite Hnote. }
  rewrite (bind_run _ _ _ _ _ Hn).
  rewrite bind_lift, Hactor. cbv beta iota.
  assert (Hr : remote_actor_or_404 (JStr actor_url) w = (Return R, w)).
  { cbv [remote_actor_or_404 bind lift get_world get_one_or_404]. cbn [Json.as_str].
    by rewrite HR. }
  rewrite (bind_run _ _ _ _ _ Hr). rewrite Hnid. reflexivity.
Qed.

(** X17. A [Like] is counted once and can be taken back: a verified
    [Like] of a stored note by a stored remote actor adds the pair of note
    and actor to the likes; the same [Like] again changes nothing; a
    verified [Undo] of it removes the pair, and when the actor had not
    liked the note before, the store is then what it was at the start.
    All three requests are acknowledged. *)
Theorem like_then_undo
    (E : Env) (depth : nat) (like_request undo_request : HttpRequest)
    (username note_url actor_url : string) (like undo : json)
    (actor : LocalActor) (n : Note) (nid : nat) (R : RemoteActor) (w : World) :
  verified_for E like_request username like actor w ->
  verified_for E undo_request username undo actor w ->
  reaction "Like" like note_url actor_url ->
  undo_of "Like" undo note_url actor_url ->
  notes_at note_url w = [n] -> note_id n = Some nid ->
  filter (fun r => Is_true (String.eqb (ra_url r) actor_url)) (remote_actors w) = [R] ->
  let w1 := set_likes (m2m_add (nid, ra_id R)) w in
  inbox E depth like_request username w = (Return ok_response, w1)
  /\ inbox E depth like_request username w1 = (Return ok_response, w1)
  /\ inbox E depth undo_request username w1
     = (Return ok_response, set_likes (m2m_remove (nid, ra_id R)) w1)
  /\ ((nid, ra_id R) ∉ likes w -> set_likes (m2m_remove (nid, ra_id R)) w1 = w).
Proof.
  intros Hlike Hundo Hl Hu Hnote Hnid HR w1.
  destruct (inbox_verified E depth like_request username like actor w Hlike)
    as [Hrun Hstay].
  destruct (inbox_verified E depth undo_request username undo actor w Hundo)
    as [_ Hstay'].
  destruct (inbox_verified E depth like_request username like actor w1 (Hstay w1 eq_refl))
    as [Hrun1 _].
  destruct (inbox_verified E depth undo_request username undo actor w1 (Hstay' w1 eq_refl))
    as [Hrun2 _].
  assert (Hdispatch : forall w', inbox_dispatch E depth like_request actor like w'
                                 = inbox_react E set_likes like w').
  { intros w'. destruct Hl as (Ht & _). unfold inbox_dispatch.
    rewrite bind_lift, Ht. reflexivity. }
  assert (Hdispatch' : forall w', inbox_dispatch E depth undo_request actor undo w'
                                  = inbox_undo E actor undo w').
  { intros w'. destruct Hu as (Ht & _). unfold inbox_dispatch.
    rewrite bind_lift, Ht. reflexivity. }
  split; [|split; [|split]].
  - rewrite Hrun, Hdispatch. by eapply like_run.
  - rewrite Hrun1, Hdispatch.
    rewrite (like_run E like note_url actor_url n nid R w1 Hl Hnote Hnid HR).
    f_equal. unfold w1. rewrite set_likes_twice. unfold set_likes. cbn.
    by rewrite m2m_add_twice.
  - rewrite Hrun2, Hdispatch'. by eapply undo_like_run.
  - intros Hnot. unfold w1. rewrite set_likes_twice. apply set_likes_same.
    by apply m2m_remove_add.
Qed.

(** X18. A reaction to a note that is not stored is turned down before
    anything else happens: a verified [Like] or [Announce], or the [Undo]
    of one, whose object is no stored note ends in [Http404], which Django
    answers with a 404 response; the actor is not resolved and the store is
    left as it is. *)
Theorem reaction_to_unknown_note
    (E : Env) (depth : nat) (request : HttpRequest) (username kind note_url actor_url : string)
    (activity : json) (actor : LocalActor) (w : World) :
  verified_for E request username activity actor w ->
  kind = "Like" \/ kind = "Announce" ->
  reaction kind activity note_url actor_url \/ undo_of kind activity note_url actor_url ->
  notes_at note_url w = [] ->
  inbox E depth request username w = (Raise Http404, w)
  /\ status (respond (fst (inbox E depth request username w))) = 404%Z.
Proof.
  intros Hv Hkind Hact Hnone.
  destruct (inbox_verified E depth request username activity actor w Hv) as [Hrun _].
  assert (Hn : note_or_404 (JStr note_url) w = (Raise Http404, w)).
  { unfold notes_at in Hnone.
    cbv [note_or_404 bind lift get_world get_one_or_404]. cbn [Json.as_str].
    by rewrite Hnone. }
  assert (Hgoal : inbox E depth request username w = (Raise Http404, w)).
  { rewrite Hrun. unfold inbox_dispatch.
    destruct Hact as [(Ht & Hobject & _)|(Ht & to_undo & Hto & Ht' & Hobject & _)].
    - rewrite bind_lift, Ht. cbv beta iota.
      destruct Hkind as [-> | ->]; cbn [Json.eq_str String.eqb Ascii.eqb Bool.eqb];
        unfold inbox_react; rewrite bind_lift, Hobject; cbv beta iota;
        unfold bind; by rewrite Hn.
    - rewrite bind_lift, Ht. cbv beta iota.
      cbn [Json.eq_str String.eqb Ascii.eqb Bool.eqb].
      unfold inbox_undo. rewrite bind_lift, Hto. cbv beta iota.
      rewrite bind_lift, Ht'. cbv beta iota.
      destruct Hkind as [-> | ->]; cbn [Json.eq_str String.eqb Ascii.eqb Bool.eqb];
        rewrite bind_lift, Hobject; cbv beta iota; unfold bind; by rewrite Hn. }
  split; [exact Hgoal|]. by rewrite Hgoal.
Qed.

(** X19. Two activities are acknowledged and have no effect: a verified
    [Delete], whatever it names, and a verified [Create] of an object whose
    id starts with the base URI of this site.  The answer is the 200
    response, nothing is stored, removed or sent. *)
Theorem activities_without_effect
    (E : Env) (depth : nat) (request : HttpRequest) (username : string)
    (activity : json) (actor : LocalActor) (w : World) :
  verified_for E request username activity actor w ->
  Json.item activity "type" = Return (JStr "Delete")
  \/ (Json.item activity "type" = Return (JStr "Create")
      /\ exists object id,
           Json.item activity "object" = Return object
           /\ Json.item object "id" = Return (JStr id)
           /\ Py.startswith (request_scheme request +:+ "://" +:+ host request) id = true) ->
  inbox E depth request username w = (Return ok_response, w).
Proof.
  intros Hv Hact.
  destruct (inbox_verified E depth request username activity actor w Hv) as [-> _].
  unfold inbox_dispatch.
  destruct Hact as [Ht|(Ht & object & id & Hobject & Hid & Hown)].
  - by rewrite bind_lift, Ht.
  - rewrite bind_lift, Ht. cbv beta iota.
    cbn [Json.eq_str String.eqb Ascii.eqb Bool.eqb].
    rewrite bind_lift, Hobject. cbv beta iota.
    rewrite bind_lift, Hid. cbv beta iota. by rewrite Hown.
Qed.

(** X20. A [Follow], and the [Undo] of one, is honoured only at the
    inbox of the actor it names: when the object of a verified [Follow] or
    [Undo] of a [Follow] is the URL of another local actor than the one
    whose inbox received it, the answer is a 400 response, no follower row
    is added or removed, no remote actor is resolved and nothing is
    sent. *)
Theorem follow_of_another_actor
    (E : Env) (depth : nat) (request : HttpRequest) (username object_url actor_url : string)
    (activity : json) (actor other : LocalActor) (w : World) :
  verified_for E request username activity actor w ->
  reaction "Follow" activity object_url actor_url
  \/ undo_of "Follow" activity object_url actor_url ->
  get_by_url E object_url w = (Return (Some other), w) ->
  la_id other <> la_id actor ->
  exists resp,
    inbox E depth request username w = (Return resp, w) /\ status resp = 400%Z.
Proof.
  intros Hv Hact Hother Hne.
  destruct (inbox_verified E depth request username activity actor w Hv) as [-> _].
  unfold inbox_dispatch.
  apply Nat.eqb_neq in Hne.
  destruct Hact as [(Ht & Hobject & _)|(Ht & to_undo & Hto & Ht' & Hobject & _)].
  - rewrite bind_lift, Ht. cbv beta iota.
    cbn [Json.eq_str String.eqb Ascii.eqb Bool.eqb].
    unfold inbox_follow. rewrite bind_lift, Hobject. cbv beta iota.
    rewrite bind_lift. cbn [Json.as_str]. cbv beta iota.
    rewrite (bind_run _ _ _ _ _ Hother). rewrite Hne. cbn [negb].
    by eexists.
  - rewrite bind_lift, Ht. cbv beta iota.
    cbn [Json.eq_str String.eqb Ascii.eqb Bool.eqb].
    unfold inbox_undo. rewrite bind_lift, Hto. cbv beta iota.
    rewrite bind_lift, Ht'. cbv beta iota.
    cbn [Json.eq_str String.eqb Ascii.eqb Bool.eqb].
    rewrite bind_lift, Hobject. cbv beta iota.
    rewrite bind_lift. cbn [Json.as_str]. cbv beta iota.
    rewrite (bind_run _ _ _ _ _ Hother). rewrite Hne. cbn [negb].
    by eexists.
Qed.

(** *** The reactions on concrete requests *)

Lemma bob_is_addressed body activity w :
  json_loads Scenario.reactions body = Some activity ->
  fst (validate_post_request Scenario.reactions (Fixture.inbox_request body) activity w)
  = Return None ->
  get_one LocalActorM (local_actors w) (named "bob") = Return Fixture.bob ->
  verified_for Scenario.reactions (Fixture.inbox_request body) "bob" activity Fixture.bob w.
Proof. by repeat split. Qed.

Lemma like_then_undo_witness :
  let like := Fixture.inbox_request "like" in
  let undo := Fixture.inbox_request "undo-like" in
  let w1 := snd (inbox Scenario.reactions 5 like "bob" Fixture.with_note) in
  let w2 := snd (inbox Scenario.reactions 5 like "bob" w1) in
  let w3 := snd (inbox Scenario.reactions 5 undo "bob" w2) in
  likes w1 = [(3, 2)] /\ w2 = w1 /\ w3 = Fixture.with_note.
Proof.
  intros like undo w1 w2 w3.
  destruct (like_then_undo Scenario.reactions 5 like undo "bob"
              "https://local.example/notes/1" Fixture.alice_url
              Scenario.like Scenario.undo_like Fixture.bob Fixture.bob_note 3
              Fixture.alice Fixture.with_note) as (H1 & H2 & H3 & H4).
  - apply bob_is_addressed; vm_compute; reflexivity.
  - apply bob_is_addressed; vm_compute; reflexivity.
  - by repeat split.
  - split; [done|]. exists Scenario.like. by repeat split.
  - reflexivity.
  - reflexivity.
  - reflexivity.
  - unfold w3, w2, w1. rewrite H1. cbn [snd]. rewrite H2. cbn [snd]. rewrite H3. cbn [snd].
    split; [reflexivity|]. split; [reflexivity|]. apply H4. apply not_elem_of_nil.
Defined.

Lemma reaction_to_unknown_note_witness :
  inbox Scenario.reactions 5 (Fixture.inbox_request "announce-unknown") "bob"
    Fixture.with_note
  = (Raise Http404, Fixture.with_note).
Proof.
  apply (reaction_to_unknown_note Scenario.reactions 5
           (Fixture.inbox_request "announce-unknown") "bob" "Announce"
           "https://local.example/notes/404" Fixture.alice_url
           Scenario.announce_unknown Fixture.bob Fixture.with_note).
  - apply bob_is_addressed; vm_compute; reflexivity.
  - by right.
  - left. by repeat split.
  - reflexivity.
Defined.

Lemma activities_without_effect_witness :
  inbox Scenario.reactions 5 (Fixture.inbox_request "delete-actor") "bob"
    Fixture.with_note
  = (Return ok_response, Fixture.with_note).
Proof.
  apply (activities_without_effect Scenario.reactions 5
           (Fixture.inbox_request "delete-actor") "bob" Scenario.delete_actor
           Fixture.bob Fixture.with_note).
  - apply bob_is_addressed; vm_compute; reflexivity.
  - by left.
Defined.

Lemma follow_of_another_actor_witness :
  exists resp,
    inbox Scenario.reactions 5 (Fixture.inbox_request "follow-dave") "bob"
      Scenario.two_locals
    = (Return resp, Scenario.two_locals)
    /\ status resp = 400%Z.
Proof.
  apply (follow_of_another_actor Scenario.reactions 5
           (Fixture.inbox_request "follow-dave") "bob"
           "https://local.example/pub/dave" Fixture.alice_url
           Scenario.follow_dave Fixture.bob Scenario.dave Scenario.two_locals).
  - apply bob_is_addressed; vm_compute; reflexivity.
  - left. by repeat split.
  - reflexivity.
  - discriminate.
Defined.

(** ** The read-only views *)

Lemma actor_or_none_run p w :
  View.actor_or_none p w
  = match get_one LocalActorM (local_actors w) p with
    | Return a => (Return (Some a), w)
    | Raise e => if is_DoesNotExist LocalActorM e then (Return None, w) else (Raise e, w)
    end.
Proof.
  cbv [View.actor_or_none try_except bind LocalActor_get get_world lift ret].
  by destruct (get_one _ _ _).
Qed.

Lemma unchanged_safe {A} (w : World) (m : M A) :
  safe (fun w' => w' = w) (fun _ => True) m -> snd (m w) = w.
Proof. intros H. by apply H. Qed.

(** X21. The webfinger, profile and followers views only read: whatever
    the request and its parameters, and whether they answer or raise, they
    leave the store and the log of sent requests as they found them. *)
Theorem views_are_read_only
    (E : Env) (site : Site) (request : HttpRequest) (GET : gmap string string)
    (username : string) (w : World) :
  snd (View.webfinger E site request GET w) = w
  /\ snd (View.profile site request username w) = w
  /\ snd (View.followers site request GET username w) = w.
Proof.
  split; [|split]; apply unchanged_safe.
  - unfold View.webfinger, View.actor_or_none, LocalActor_get. safe_go.
  - unfold View.profile, View.actor_or_none, LocalActor_get. safe_go.
  - unfold View.followers, View.collection_page, View.actor_or_none, LocalActor_get.
    safe_go.
Qed.

Section AcctFacts.
#[local] Arguments String.append !_ _ / : simpl nomatch.

Lemma is_slug_chars u c :
  Urls.is_slug u = true -> Urls.is_slug_char c = false -> Py.occurs c u = false.
Proof.
  unfold Urls.is_slug. intros [_ Hall]%andb_true_iff Hc.
  induction u as [|x u IH]; [done|]. cbn [list_ascii_of_string forallb] in Hall.
  apply andb_true_iff in Hall as [Hx Hu]. cbn [Py.occurs]. rewrite IH by done.
  rewrite orb_false_r. destruct (Ascii.eqb_spec x c) as [->|]; [congruence|done].
Qed.

Lemma acct_domain_plain d :
  d <> EmptyString -> Py.occurs line_feed d = false -> acct_domain d = Some d.
Proof.
  intros Hd Hlf. unfold acct_domain. destruct d; [done|]. cbn [Py.truthy negb].
  by rewrite Hlf.
Qed.

Lemma acct_match_handle u d :
  Urls.is_slug u = true -> d <> EmptyString -> Py.occurs line_feed d = false ->
  acct_match ("acct:" +:+ u +:+ "@" +:+ d) = Some (u, d).
Proof.
  intros Hu Hd Hlf. unfold acct_match.
  change ("acct:" +:+ u +:+ "@" +:+ d) with ("acct:" +:+ (u +:+ String "@" d)).
  rewrite startswith_app.
  change 5 with (String.length "acct:"). rewrite drop_app_length.
  assert (Hat : Py.occurs "@" u = false) by (by apply is_slug_chars).
  assert (Hnl : Py.occurs line_feed u = false) by (by apply is_slug_chars).
  destruct u as [|c u]; [done|]. simpl.
  cbn [Py.occurs] in Hat, Hnl. apply orb_false_iff in Hat as [_ Hat].
  rewrite (find_sep_char_app "@" u d Hat).
  cbn [Py.occurs]. rewrite Hnl. by rewrite acct_domain_plain.
Qed.

End AcctFacts.

(** X22. The webfinger view answers a query for the handle of a stored
    actor with a document that the resolver of this very code understands:
    the subject is the handle that was asked for, and the link that
    [finger] picks from the links of the answer is the one whose [href] is
    the profile URL of the actor on this site. *)
Theorem webfinger_answers_its_own_client
    (E : Env) (site : Site) (request : HttpRequest) (GET : gmap string string)
    (actor : LocalActor) (w : World) :
  let username := la_preferred_username actor in
  let domain := la_domain actor in
  Urls.is_slug username = true ->
  domain <> EmptyString -> Py.occurs line_feed domain = false ->
  GET !! "resource" = Some ("acct:" +:+ username +:+ "@" +:+ domain) ->
  filter (fun a => Is_true (named_at username domain a)) (local_actors w) = [actor] ->
  exists resp links link,
    View.webfinger E site request GET w = (Return resp, w)
    /\ status resp = 200%Z
    /\ content_type resp = "application/jrd+json"
    /\ Json.item (data resp) "subject"
       = Return (JStr ("acct:" +:+ username +:+ "@" +:+ domain))
    /\ Json.item (data resp) "links" = Return (JArr links)
    /\ first_profile_link links = Return (Some link)
    /\ Json.get link "href"
       = Return (JStr (build_absolute_uri request (Some ("/pub/" +:+ username)))).
Proof.
  intros username domain Hslug Hd Hlf Hres Hrow.
  unfold View.webfinger. rewrite Hres, (acct_match_handle _ _ Hslug Hd Hlf).
  rewrite (bind_run _ _ _ _ _ (eq_refl : ret _ w = (Return _, w))).
  cbv beta iota.
  assert (Hfound : View.actor_or_none
            (fun a => bool_decide (Some (la_preferred_username a) = Some username)
                      && String.eqb (la_domain a) domain) w
          = (Return (Some actor), w)).
  { rewrite actor_or_none_run. unfold get_one.
    rewrite (filter_bool_ext _ (named_at username domain)), Hrow; [done|].
    intros x. unfold named_at. f_equal.
    destruct (String.eqb_spec (la_preferred_username x) username) as [->|Hne].
    - by apply bool_decide_eq_true_2.
    - apply bool_decide_eq_false_2. by intros [= ?]. }
  rewrite (bind_run _ _ _ _ _ Hfound). cbv beta iota.
  unfold reverse. fold username. rewrite Hslug.
  cbn [negb String.eqb Ascii.eqb Bool.eqb]. rewrite bind_lift. cbv beta iota.
  destruct (la_icon site actor request) as [uri|];
    eexists _, _, _; (split; [reflexivity|]); repeat split; reflexivity.
Qed.

Lemma webfinger_answers_its_own_client_witness :
  exists resp link,
    View.webfinger Fixture.offline Scenario.site
      (Scenario.get_request "/.well-known/webfinger")
      (<["resource" := "acct:bob@local.example"]> ∅) Fixture.acquainted
    = (Return resp, Fixture.acquainted)
    /\ Json.item (data resp) "links" = Return (JArr [link])
    /\ Json.get link "href" = Return (JStr "https://local.example/pub/bob").
Proof.
  destruct (webfinger_answers_its_own_client Fixture.offline Scenario.site
              (Scenario.get_request "/.well-known/webfinger")
              (<["resource" := "acct:bob@local.example"]> ∅) Fixture.bob
              Fixture.acquainted eq_refl)
    as (resp & links & link & Hrun & _ & _ & _ & Hlinks & Hfirst & Hhref);
    try done.
  exists resp, link. split; [exact Hrun|].
  vm_compute in Hrun. injection Hrun as <-. vm_compute in Hlinks. injection Hlinks as <-.
  vm_compute in Hfirst. injection Hfirst as <-. by split.
Defined.

(** ** The profile view and the key of outgoing signatures *)

Lemma sent_Follower_get_or_create E r l w :
  sent (snd (Follower_get_or_create E r l w)) = sent w.
Proof.
  pose proof (Follower_get_or_create_run E r l w) as H.
  destruct (filter _ (followers w)) as [|f [|f' fs]]; cbv zeta in H; by rewrite H.
Qed.

Lemma sent_get_or_create_with_url E url w :
  sent (snd (get_or_create_with_url E url w)) = sent w.
Proof.
  cbv [get_or_create_with_url try_except bind RemoteActor_get get_world lift get_one
       RemoteActor_create fresh_pk modify ret raise].
  destruct (filter _ (remote_actors w)) as [|r [|r' rs]]; cbn [is_DoesNotExist]; try done.
  destruct (fetch_remote_profile E (JStr url)); [|done].
  destruct (Json.get _ "preferredUsername") as [[]|]; try done.
  by destruct (existsb _ _).
Qed.

Lemma signed_post_key_id E url private_key kid body w status_code w' :
  Py.occurs "," kid = false -> Py.occurs Py.dq kid = false ->
  signed_post E url private_key kid None (Some body) w = (Return status_code, w') ->
  exists req header parsed,
    sent w' = sent w ++ [req]
    /\ req_headers req !! "signature" = Some header
    /\ parse_signature_header header = Return parsed
    /\ parsed !! "keyId" = Some kid.
Proof.
  intros Hk1 Hk2. unfold signed_post. rewrite bind_lift.
  destruct (load_pem_private_key E private_key) as [sk|] eqn:Hload.
  2:{ unfold signed_post_headers, HttpSignature_build_signature, sign_message.
      rewrite Hload. done. }
  rewrite (signed_post_headers_value E url private_key kid None body sk Hload).
  cbv [requests_post bind modify raise ret].
  destruct (net_post E _) as [|s b]; [done|]. intros [= <- <-].
  eexists _, _, _. split; [reflexivity|]. cbn [req_headers]. split.
  - rewrite lookup_insert_ne by done. apply lookup_insert_eq.
  - split.
    + apply parse_built_header; try done.
      * apply Base64Facts.b64encode_occurs. by left.
      * apply Base64Facts.b64encode_occurs. by right.
    + rewrite !lookup_insert_ne by done. apply lookup_insert_eq.
Qed.

(** X23. The key that the profile view publishes is the key that the
    node signs with.  The profile document of a stored actor carries a
    [publicKey] whose [id] is the profile URL followed by [#main-key] and
    whose owner is the profile URL, so that a checker built from it expects
    exactly this key id; and the [Accept] that the inbox of the same site
    sends in answer to a [Follow] declares exactly this key id in its
    Signature header. *)
Theorem profile_publishes_the_signing_key
    (E : Env) (site : Site) (depth : nat) (profile_request inbox_request : HttpRequest)
    (username label object_url actor_url : string) (activity : json)
    (actor : LocalActor) (pk : PublicKey) (w : World) :
  let profile_url :=
    build_absolute_uri profile_request
      (Some ("/pub/" +:+ la_preferred_username actor)) in
  filter (fun a => Is_true (named username a)) (local_actors w) = [actor] ->
  Urls.is_slug (la_preferred_username actor) = true ->
  ActorChoices_label (la_actor_type site actor) = Return label ->
  load_pem_public_key E (la_public_key actor) = Some pk ->
  request_scheme inbox_request = request_scheme profile_request ->
  host inbox_request = host profile_request ->
  Py.occurs "," profile_url = false -> Py.occurs Py.dq profile_url = false ->
  exists resp key_doc,
    View.profile site profile_request username w = (Return resp, w)
    /\ Json.item (data resp) "id" = Return (JStr profile_url)
    /\ Json.get (data resp) "publicKey" = Return key_doc
    /\ SignatureChecker_init E key_doc
       = Return {| controller := JStr profile_url;
                   key_id := Some (profile_url +:+ "#main-key");
                   public_key := pk |}
    /\ forall answer w',
         verified_for E inbox_request username activity actor w ->
         reaction "Follow" activity object_url actor_url ->
         inbox E depth inbox_request username w = (Return answer, w') ->
         status answer = 200%Z ->
         exists req header parsed,
           sent w' = sent w ++ [req]
           /\ req_headers req !! "signature" = Some header
           /\ parse_signature_header header = Return parsed
           /\ parsed !! "keyId" = Some (profile_url +:+ "#main-key").
Proof.
  intros profile_url Hrow Hslug Hlabel Hpk Hscheme Hhost Hc Hq.
  assert (Hfound : View.actor_or_none (named username) w = (Return (Some actor), w)).
  { rewrite actor_or_none_run. unfold get_one. by rewrite Hrow. }
  assert (Hprofile : exists data0,
            View.profile site profile_request username w
            = (Return (typed_response (JObj data0) "application/activity+json"), w)
            /\ Json.assoc "id" data0 = Some (JStr profile_url)
            /\ Json.assoc "publicKey" data0
               = Some (JObj [("id", JStr (profile_url +:+ "#main-key"));
                             ("owner", JStr profile_url);
                             ("publicKeyPem", JStr (la_public_key actor))])).
  { unfold View.profile. rewrite (bind_run _ _ _ _ _ Hfound). cbv beta iota.
    rewrite bind_lift, Hlabel. cbv beta iota.
    unfold reverse. rewrite Hslug. cbn [negb String.eqb Ascii.eqb Bool.eqb].
    rewrite !bind_lift. cbv beta iota zeta.
    destruct (la_icon site actor profile_request), (la_image site actor profile_request);
      eexists; (split; [reflexivity|]); by split. }
  destruct Hprofile as (data0 & Hrun & Hid & Hkey).
  eexists _, _. split; [exact Hrun|]. cbn [data typed_response Json.item Json.get].
  rewrite Hid, Hkey. cbn [default from_option id]. split; [done|]. split; [done|]. split.
  { unfold SignatureChecker_init. cbn [Json.get Json.assoc String.eqb Ascii.eqb Bool.eqb
      default from_option id rbind]. by rewrite Hpk. }
  intros answer w' Hv Hfollow Hinbox Hstatus.
  destruct (inbox_verified E depth inbox_request username activity actor w Hv) as [Hd _].
  rewrite Hd in Hinbox. destruct Hfollow as (Ht & _ & Hactor).
  rewrite (inbox_dispatch_follow E depth inbox_request actor activity w Ht) in Hinbox.
  destruct (inbox_follow_success E inbox_request actor activity actor_url w answer w'
              Hactor Hinbox Hstatus) as (R & wa & Hgoc & Haccept).
  assert (Hsa : sent wa = sent w).
  { pose proof (sent_get_or_create_with_url E actor_url w) as H. by rewrite Hgoc in H. }
  assert (Hkid : build_absolute_uri inbox_request
                   (Some ("/pub/" +:+ la_preferred_username actor))
                 = profile_url).
  { unfold profile_url, build_absolute_uri. by rewrite Hscheme, Hhost. }
  revert Haccept. unfold inbox_follow_accept.
  pose proof (sent_Follower_get_or_create E (ra_id R) (la_id actor) wa) as Hsf.
  unfold bind at 1.
  destruct (Follower_get_or_create E (ra_id R) (la_id actor) wa) as [[f|e] wb];
    cbn [snd] in Hsf; [|done].
  rewrite bind_lift. unfold reverse. rewrite Hslug.
  cbn [negb String.eqb Ascii.eqb Bool.eqb]. cbv beta iota zeta. rewrite !Hkid.
  rewrite bind_lift.
  destruct (Json.get (ra_profile R) "inbox") as [inbox_url|]; [|done].
  unfold bind at 1.
  destruct (signed_post_to E inbox_url _ _ _ wb) as [[status_code|e] wc] eqn:Hpost;
    [|done].
  rewrite bind_lift. destruct (raise_for_status status_code); [|done].
  intros [= _ <-].
  unfold signed_post_to in Hpost.
  destruct inbox_url as [| | |url| |];
    try (cbv [bind lift raise] in Hpost;
         by destruct (signed_post_headers _ _ _ _ _ _)).
  rewrite <- Hsa, <- Hsf.
  eapply signed_post_key_id; [| |exact Hpost].
  - by rewrite PyFacts.occurs_app, Hc.
  - by rewrite PyFacts.occurs_app, Hq.
Qed.

Lemma profile_publishes_the_signing_key_witness :
  exists resp key_doc,
    View.profile Scenario.site (Scenario.get_request "/pub/bob") "bob" Fixture.acquainted
    = (Return resp, Fixture.acquainted)
    /\ Json.get (data resp) "publicKey" = Return key_doc
    /\ SignatureChecker_init Fixture.federation key_doc
       = Return {| controller := JStr "https://local.example/pub/bob";
                   key_id := Some "https://local.example/pub/bob#main-key";
                   public_key := Fixture.rsa_public_key |}.
Proof.
  destruct (profile_publishes_the_signing_key Fixture.federation Scenario.site 5
              (Scenario.get_request "/pub/bob") (Fixture.inbox_request "follow")
              "bob" "Person" "https://local.example/pub/bob" Fixture.alice_url
              Fixture.follow Fixture.bob Fixture.rsa_public_key Fixture.acquainted
              eq_refl eq_refl eq_refl eq_refl eq_refl eq_refl eq_refl eq_refl)
    as (resp & key_doc & H1 & _ & H3 & H4 & _).
  by exists resp, key_doc.
Defined.

(** ** Collections and their pages *)

Lemma assoc_setitem_eq k v l : Json.assoc k (setitem k v l) = Some v.
Proof.
  induction l as [|[k' v'] l IH]; cbn [setitem Json.assoc].
  - by rewrite String.eqb_refl.
  - destruct (String.eqb k k') eqn:H; cbn [Json.assoc]; by rewrite H.
Qed.

Lemma assoc_setitem_ne k k' v l :
  k <> k' -> Json.assoc k (setitem k' v l) = Json.assoc k l.
Proof.
  intros Hne. induction l as [|[k'' v''] l IH]; cbn [setitem Json.assoc].
  - by rewrite (proj2 (String.eqb_neq _ _) Hne).
  - destruct (String.eqb_spec k' k'') as [->|]; cbn [Json.assoc].
    + by rewrite (proj2 (String.eqb_neq _ _) Hne).
    + by rewrite IH.
Qed.

Lemma page_is_chunk {A} (l : list A) p :
  Paginator.page l 10 p = take 10 (drop ((p - 1) * 10) l).
Proof.
  unfold Paginator.page, Paginator.count.
  destruct (Nat.leb_spec (length l) ((p - 1) * 10 + 10)) as [Hle|Hgt].
  - rewrite (take_ge (drop _ l)) by (rewrite length_drop; lia).
    by rewrite take_ge by (rewrite length_drop; lia).
  - f_equal. lia.
Qed.

Lemma chunks_concat {A} (l : list A) n :
  concat (map (Paginator.page l 10) (seq 1 n)) = take (n * 10) l.
Proof.
  induction n as [|n IH]; [done|].
  rewrite seq_S, map_app, concat_app, IH. cbn [map concat]. rewrite app_nil_r.
  rewrite page_is_chunk. replace (1 + n - 1) with n by lia.
  rewrite take_take_drop. f_equal. lia.
Qed.

Lemma num_pages_enough {A} (l : list A) :
  length l <= Paginator.num_pages l 10 * 10 /\ 1 <= Paginator.num_pages l 10.
Proof.
  unfold Paginator.num_pages, Paginator.count.
  pose proof (Nat.div_mod_eq (Nat.max 1 (length l) + 10 - 1) 10) as H.
  pose proof (Nat.mod_upper_bound (Nat.max 1 (length l) + 10 - 1) 10) as H'.
  lia.
Qed.

Lemma pages_cover {A} (l : list A) :
  concat (map (Paginator.page l 10) (seq 1 (Paginator.num_pages l 10))) = l
  /\ forall p, length (Paginator.page l 10 p) <= 10.
Proof.
  split.
  - rewrite chunks_concat. apply take_ge, num_pages_enough.
  - intros p. rewrite page_is_chunk, length_take. lia.
Qed.

Lemma collection_page_run site {A} (query : list A) (to_json : A -> json)
    url invalid arg data0 n w :
  py_int site arg = Some n ->
  let pages := Paginator.num_pages query 10 in
  View.collection_page site query (fun page => ret (map to_json page)) url invalid arg
    data0 w
  = if (1 <=? n)%Z && (n <=? Z.of_nat pages)%Z then
      (Return (typed_response
         (JObj (setitem "partOf" (JStr url)
                 (setitem "orderedItems"
                    (JArr (map to_json (Paginator.page query 10 (Z.to_nat n))))
                    (setitem "type" (JStr "OrderedCollectionPage")
                       (setitem "id" (JStr (url +:+ "?page=" +:+ str_int n))
                          (if Paginator.has_next query 10 (Z.to_nat n)
                           then setitem "next"
                                  (JStr (url +:+ "?page=" +:+ str_int (n + 1))) data0
                           else data0))))))
         "application/activity+json"), w)
    else (Return (error_response (invalid +:+ str_int n) 404), w).
Proof.
  intros Hint pages. unfold View.collection_page. rewrite bind_lift, Hint.
  cbn [or_raise]. fold pages. by destruct (_ && _).
Qed.

(** X24. The pages of the followers collection cover it: for a stored
    actor, every page number from 1 to the number of pages is answered with
    the URLs of the followers of that page, ten to a page, in the order of
    the query, together with the total and, on every page but the last, the
    link to the next page; the pages one after the other hold every
    follower of the query exactly once; and a page number outside this
    range is answered with a 404. *)
Theorem followers_pages_cover_the_collection
    (site : Site) (request : HttpRequest) (username : string)
    (actor : LocalActor) (w : World) :
  filter (fun a => Is_true (named username a)) (local_actors w) = [actor] ->
  Urls.is_slug (la_preferred_username actor) = true ->
  let query := View.follower_query actor w in
  let pages := Paginator.num_pages query 10 in
  let url := build_absolute_uri request
               (Some ("/pub/" +:+ la_preferred_username actor +:+ "/followers")) in
  (forall GET arg p,
     GET !! "page" = Some arg -> py_int site arg = Some (Z.of_nat p) ->
     1 <= p <= pages ->
     exists resp,
       View.followers site request GET username w = (Return resp, w)
       /\ status resp = 200%Z
       /\ Json.item (data resp) "totalItems" = Return (JNum (Z.of_nat (length query)))
       /\ Json.item (data resp) "orderedItems"
          = Return (JArr (map (fun row => JStr (ra_url (snd row)))
                              (Paginator.page query 10 p)))
       /\ Json.get (data resp) "next"
          = Return (if (p <? pages)%nat
                    then JStr (url +:+ "?page=" +:+ str_int (Z.of_nat p + 1))
                    else JNull))
  /\ (forall GET arg n,
        GET !! "page" = Some arg -> py_int site arg = Some n ->
        (n < 1 \/ Z.of_nat pages < n)%Z ->
        View.followers site request GET username w
        = (Return (error_response ("invalid page number " +:+ str_int n) 404), w))
  /\ concat (map (Paginator.page query 10) (seq 1 pages)) = query
  /\ forall p, length (Paginator.page query 10 p) <= 10.
Proof.
  intros Hrow Hslug query pages url.
  assert (Hfound : View.actor_or_none (named username) w = (Return (Some actor), w)).
  { rewrite actor_or_none_run. unfold get_one. by rewrite Hrow. }
  assert (Hhead : forall GET arg,
            GET !! "page" = Some arg ->
            View.followers site request GET username w
            = View.collection_page site query
                (fun page => ret (map (fun row => JStr (ra_url (snd row))) page))
                url "invalid page number " arg
                [("@context", JStr "https://www.w3.org/ns/activitystreams");
                 ("type", JStr "OrderedCollection");
                 ("totalItems", JNum (Z.of_nat (Paginator.count query)));
                 ("id", JStr url)] w).
  { intros GET arg Harg. unfold View.followers.
    rewrite (bind_run _ _ _ _ _ Hfound). cbv beta iota.
    rewrite (bind_run _ _ _ _ _ (eq_refl : get_world w = (Return w, w))).
    cbv beta zeta. rewrite Harg. unfold reverse. rewrite Hslug.
    cbn [negb String.eqb Ascii.eqb Bool.eqb]. rewrite bind_lift. reflexivity. }
  split; [|split; [|apply pages_cover]].
  - intros GET arg p Harg Hint Hp. rewrite (Hhead GET arg Harg).
    rewrite (collection_page_run site query _ url _ arg _ _ w Hint).
    fold pages.
    rewrite (proj2 (Z.leb_le 1 (Z.of_nat p))), (proj2 (Z.leb_le _ _)) by lia.
    cbn [andb]. rewrite Nat2Z.id. eexists. split; [reflexivity|].
    split; [reflexivity|]. cbn [data typed_response Json.item Json.get].
    split; [|split].
    + rewrite !assoc_setitem_ne by done.
      destruct (Paginator.has_next _ _ _).
      * by rewrite assoc_setitem_ne by done.
      * done.
    + by rewrite assoc_setitem_ne, assoc_setitem_eq by done.
    + rewrite !assoc_setitem_ne by done. unfold Paginator.has_next. fold pages.
      destruct (p <? pages)%nat.
      * by rewrite assoc_setitem_eq.
      * done.
  - intros GET arg n Harg Hint Hn. rewrite (Hhead GET arg Harg).
    rewrite (collection_page_run site query _ url _ arg _ _ w Hint).
    fold pages.
    destruct (Z.leb_spec 1 n), (Z.leb_spec n (Z.of_nat pages)); cbn [andb]; try done.
    lia.
Qed.

Lemma followers_pages_cover_the_collection_witness :
  exists resp,
    View.followers Scenario.site (Scenario.get_request "/pub/bob/followers")
      (<["page" := "1"]> ∅) "bob" Scenario.followed
    = (Return resp, Scenario.followed)
    /\ Json.item (data resp) "orderedItems"
       = Return (JArr [JStr Scenario.carol_url; JStr Fixture.alice_url])
    /\ Json.get (data resp) "next" = Return JNull.
Proof.
  destruct (followers_pages_cover_the_collection Scenario.site
              (Scenario.get_request "/pub/bob/followers") "bob" Fixture.bob
              Scenario.followed eq_refl eq_refl) as (Hpage & _).
  destruct (Hpage (<["page" := "1"]> ∅) "1" 1)
    as (resp & Hrun & _ & _ & Hitems & Hnext).
  - apply lookup_insert_eq.
  - reflexivity.
  - vm_compute. lia.
  - exists resp. split; [exact Hrun|]. split; [exact Hitems|exact Hnext].
Defined.

(** ** The outbox *)

Lemma insert_desc_perm {A} (key : A -> Z) x l : insert_desc key x l ≡ₚ x :: l.
Proof.
  induction l as [|y l IH]; cbn [insert_desc]; [done|].
  destruct (key y <? key x)%Z; [done|]. rewrite IH. apply Permutation_swap.
Qed.

Lemma order_by_desc_perm {A} (key : A -> Z) l : order_by_desc key l ≡ₚ l.
Proof.
  unfold order_by_desc.
  assert (H : forall acc, fold_left (fun sorted x => insert_desc key x sorted) l acc
                          ≡ₚ l ++ acc).
  { induction l as [|x l IH]; intros acc; cbn [fold_left app]; [done|].
    rewrite IH, insert_desc_perm. by rewrite Permutation_middle. }
  rewrite H. by rewrite app_nil_r.
Qed.

Lemma note_query_count actor w :
  length (View.note_query actor w)
  = length (filter (fun n => note_local_actor n = Some (la_id actor)) (notes w)).
Proof.
  unfold View.note_query. apply Permutation_length.
  rewrite (order_by_desc_perm note_published_at (notes w)).
  erewrite list_filter_iff; [reflexivity|]. intros n. cbv beta.
  split; [by intros ?%Is_true_true%bool_decide_eq_true_1|].
  intros ?. by apply Is_true_true, bool_decide_eq_true_2.
Qed.


Lemma for_list_plain {A B} (f : A -> M B) (g : A -> B) (xs : list A) w :
  Forall (fun x => f x w = (Return (g x), w)) xs ->
  for_list xs f w = (Return (map g xs), w).
Proof.
  induction 1 as [|x xs Hx _ IH]; [done|]. cbn [for_list map].
  rewrite (bind_run _ _ _ _ _ Hx). by rewrite (bind_run _ _ _ _ _ IH).
Qed.

(** X25. The outbox counts and lists the notes of its actor only.  For
    a stored actor the collection reports as its total the number of stored
    notes whose local author is that actor, notes of remote authors
    excluded, and links to the first page; a page whose notes mention
    nobody and reply to nothing lists the documents of these notes, and the
    store is left as it is; a page number out of range is answered with a
    404. *)
Theorem outbox_lists_own_notes
    (E : Env) (site : Site) (request : HttpRequest) (GET : gmap string string)
    (username : string) (actor : LocalActor) (w : World) :
  filter (fun a => Is_true (named username a)) (local_actors w) = [actor] ->
  filter (fun a => Is_true (Nat.eqb (la_id a) (la_id actor))) (local_actors w) = [actor] ->
  Urls.is_slug (la_preferred_username actor) = true ->
  let query := View.note_query actor w in
  let pages := Paginator.num_pages query 10 in
  let total := length (filter (fun n => note_local_actor n = Some (la_id actor)) (notes w)) in
  let url := build_absolute_uri request
               (Some ("/pub/" +:+ la_preferred_username actor +:+ "/outbox")) in
  let base_uri := request_scheme request +:+ "://" +:+ host request in
  (GET !! "page" = None ->
   View.outbox E site request GET username w
   = (Return (typed_response
        (JObj [("@context", JStr "https://www.w3.org/ns/activitystreams");
               ("type", JStr "OrderedCollection");
               ("totalItems", JNum (Z.of_nat total));
               ("id", JStr url);
               ("first", JStr (url +:+ "?page=1"))])
        "application/activity+json"), w))
  /\ (forall arg p,
        GET !! "page" = Some arg -> py_int site arg = Some (Z.of_nat p) ->
        1 <= p <= pages ->
        Forall (fun n => mention_finditer E (note_content n) = [] /\ note_parent n = None)
               (Paginator.page query 10 p) ->
        exists resp,
          View.outbox E site request GET username w = (Return resp, w)
          /\ status resp = 200%Z
          /\ Json.item (data resp) "totalItems" = Return (JNum (Z.of_nat total))
          /\ Json.item (data resp) "orderedItems"
             = Return (JArr (map (note_document E base_uri actor)
                                 (Paginator.page query 10 p))))
  /\ (forall arg n,
        GET !! "page" = Some arg -> py_int site arg = Some n ->
        (n < 1 \/ Z.of_nat pages < n)%Z ->
        View.outbox E site request GET username w
        = (Return (error_response ("invalid page number: " +:+ str_int n) 404), w)).
Proof.
  intros Hrow Hid Hslug query pages total url base_uri.
  assert (Hfound : View.actor_or_none (named username) w = (Return (Some actor), w)).
  { rewrite actor_or_none_run. unfold get_one. by rewrite Hrow. }
  assert (Hcount : Paginator.count query = total) by apply note_query_count.
  assert (Hhead : View.outbox E site request GET username w
            = match GET !! "page" with
              | None =>
                  (Return (typed_response
                     (JObj [("@context", JStr "https://www.w3.org/ns/activitystreams");
                            ("type", JStr "OrderedCollection");
                            ("totalItems", JNum (Z.of_nat total));
                            ("id", JStr url);
                            ("first", JStr (url +:+ "?page=1"))])
                     "application/activity+json"), w)
              | Some arg =>
                  View.collection_page site query
                    (fun page => for_list page (fun note => Note_as_json E note base_uri))
                    url "invalid page number: " arg
                    [("@context", JStr "https://www.w3.org/ns/activitystreams");
                     ("type", JStr "OrderedCollection");
                     ("totalItems", JNum (Z.of_nat total));
                     ("id", JStr url)] w
              end).
  { unfold View.outbox.
    rewrite (bind_run _ _ _ _ _ Hfound). cbv beta iota.
    rewrite (bind_run _ _ _ _ _ (eq_refl : get_world w = (Return w, w))).
    cbv beta zeta. unfold reverse. rewrite Hslug.
    cbn [negb String.eqb Ascii.eqb Bool.eqb]. rewrite bind_lift. cbv beta iota.
    fold query. rewrite Hcount. by destruct (GET !! "page"). }
  split; [|split].
  - intros Hnone. by rewrite Hhead, Hnone.
  - intros arg p Harg Hint Hp Hplain. rewrite Hhead, Harg.
    unfold View.collection_page. rewrite bind_lift, Hint. cbn [or_raise].
    fold pages.
    rewrite (proj2 (Z.leb_le 1 (Z.of_nat p))), (proj2 (Z.leb_le _ _)) by lia.
    cbn [andb]. rewrite Nat2Z.id.
    assert (Hitems : for_list (Paginator.page query 10 p)
                       (fun note => Note_as_json E note base_uri) w
                     = (Return (map (note_document E base_uri actor)
                                    (Paginator.page query 10 p)), w)).
    { apply for_list_plain.
      assert (Hsub : Forall (fun n => note_local_actor n = Some (la_id actor))
                       (Paginator.page query 10 p)).
      { rewrite page_is_chunk. apply Forall_take, Forall_drop.
        unfold query, View.note_query. apply Forall_forall. intros n Hn.
        apply list_elem_of_filter in Hn as [Hn _].
        by apply Is_true_true, bool_decide_eq_true_1 in Hn. }
      assert (Hboth := proj2 (Forall_and _ _) (conj Hsub Hplain)).
      eapply Forall_impl; [exact Hboth|].
      intros n [Ha [Hm Hpar]]. by apply Note_as_json_plain. }
    rewrite (bind_run _ _ _ _ _ Hitems).
    eexists. split; [reflexivity|]. split; [reflexivity|].
    cbn [data typed_response Json.item]. split.
    + rewrite !assoc_setitem_ne by done.
      destruct (Paginator.has_next _ _ _).
      * by rewrite assoc_setitem_ne by done.
      * done.
    + by rewrite assoc_setitem_ne, assoc_setitem_eq by done.
  - intros arg n Harg Hint Hn. rewrite Hhead, Harg.
    unfold View.collection_page. rewrite bind_lift, Hint. cbn [or_raise].
    fold pages.
    destruct (Z.leb_spec 1 n), (Z.leb_spec n (Z.of_nat pages)); cbn [andb]; try done.
    lia.
Qed.

Lemma outbox_lists_own_notes_witness :
  exists resp,
    View.outbox Fixture.offline Scenario.site (Scenario.get_request "/pub/bob/outbox")
      (<["page" := "1"]> ∅) "bob" Scenario.mixed
    = (Return resp, Scenario.mixed)
    /\ Json.item (data resp) "totalItems" = Return (JNum 1)
    /\ Json.item (data resp) "orderedItems"
       = Return (JArr [note_document Fixture.offline "https://local.example"
                         Fixture.bob Fixture.bob_note]).
Proof.
  destruct (outbox_lists_own_notes Fixture.offline Scenario.site
              (Scenario.get_request "/pub/bob/outbox") (<["page" := "1"]> ∅) "bob"
              Fixture.bob Scenario.mixed eq_refl eq_refl eq_refl) as (_ & Hpage & _).
  destruct (Hpage "1" 1) as (resp & Hrun & _ & Htotal & Hitems).
  - apply lookup_insert_eq.
  - reflexivity.
  - vm_compute. lia.
  - repeat constructor.
  - exists resp. split; [exact Hrun|]. split; [exact Htotal|exact Hitems].
Defined.

(** ** Mentions in markdown *)

(** X26. [handleMatch] renders a mention that cannot be resolved as
    plain text: it never raises [WebfingerException] or
    [RemoteActor.DoesNotExist]; when the handle is not stored and the
    WebFinger request fails in transport, the result is a span holding the
    matched text, and the store is left as it is; when the handle is
    stored, the result links to the URL of the stored actor, without any
    request. *)
Theorem handleMatch_outcomes (E : Env) (group : nat -> string) (w : World) :
  (forall e, fst (handleMatch E group w) = Raise e ->
     is_WebfingerException e = false /\ is_DoesNotExist RemoteActorM e = false)
  /\ (forall R,
        filter (fun r => Is_true (String.eqb (ra_username r) (group 5)
                                  && String.eqb (ra_domain r) (group 6)))
               (remote_actors w) = [R] ->
        handleMatch E group w
        = (Return (Elem "span" None []
                     [Elem "span" (Some (group 3)) [] [];
                      Elem "a" (Some (group 4))
                        [("class", "ap-mention"); ("href", ra_url R);
                         ("target", "_blank")] [];
                      Elem "span" (Some (group 7)) [] []]), w))
  /\ (filter (fun r => Is_true (String.eqb (ra_username r) (group 5)
                                && String.eqb (ra_domain r) (group 6)))
             (remote_actors w) = [] ->
      match net_get E (webfinger_url (group 5) (group 6)) with
      | ConnectionFailed => True
      | Response status_code _ => (400 <= status_code < 600)%Z
      end ->
      handleMatch E group w = (Return (Elem "span" (Some (group 2)) [] []), w)).
Proof.
  split; [|split].
  - intros e. unfold handleMatch, bind, try_except.
    destruct (get_or_create_with_username_domain E (group 5) (group 6) w)
      as [[[R|]|e'] w']; cbn [fst]; try done.
    destruct (is_DoesNotExist RemoteActorM e' || is_WebfingerException e') eqn:Hc;
      cbn [fst]; [done|].
    intros [= <-]. apply orb_false_iff in Hc. tauto.
  - intros R HR.
    cbv [handleMatch get_or_create_with_username_domain try_except bind RemoteActor_get
         get_world lift get_one ret].
    by rewrite HR.
  - intros Hnone Hnet.
    assert (Hfinger : exists cause,
              finger E (group 5) (group 6) = Raise (WebfingerException cause)).
    { unfold finger, get_checked.
      destruct (net_get E _) as [|status_code body]; [by eexists|].
      unfold raise_for_status.
      rewrite (proj2 (Z.leb_le _ _)), (proj2 (Z.ltb_lt _ _)) by lia. by eexists. }
    destruct Hfinger as [cause Hfinger].
    cbv [handleMatch get_or_create_with_username_domain try_except bind RemoteActor_get
         get_world lift get_one ret].
    rewrite Hnone. cbn [is_DoesNotExist]. by rewrite Hfinger.
Qed.

Lemma handleMatch_outcomes_witness :
  handleMatch Fixture.offline Scenario.mention_groups Fixture.acquainted
  = (Return (Elem "span" None []
               [Elem "span" (Some " ") [] [];
                Elem "a" (Some "@alice@remote.example")
                  [("class", "ap-mention"); ("href", Fixture.alice_url);
                   ("target", "_blank")] [];
                Elem "span" (Some " ") [] []]), Fixture.acquainted)
  /\ handleMatch Fixture.offline Scenario.mention_groups Fixture.strangers
     = (Return (Elem "span" (Some " @alice@remote.example ") [] []), Fixture.strangers).
Proof.
  split.
  - by apply (proj1 (proj2 (handleMatch_outcomes Fixture.offline Scenario.mention_groups
                              Fixture.acquainted)) Fixture.alice).
  - by apply (proj2 (proj2 (handleMatch_outcomes Fixture.offline Scenario.mention_groups
                              Fixture.strangers))).
Defined.

(** X27. [parse_mentions] yields one tag for every match of the
    mention pattern, in the order of the matches, a handle that matches
    twice being tagged twice: when every matched handle is stored, the
    result is the list of the tags of the matches, each with the URL of the
    stored actor, and the store is left as it is. *)
Theorem parse_mentions_tags_every_match
    (E : Env) (content : string) (actors : list RemoteActor) (w : World) :
  Forall2 (fun key R =>
             filter (fun r => Is_true (String.eqb (ra_username r) (fst key)
                                       && String.eqb (ra_domain r) (snd key)))
                    (remote_actors w) = [R])
          (mention_finditer E content) actors ->
  parse_mentions E content w
  = (Return (zip_with mention_tag (mention_finditer E content) actors), w)
  /\ length (zip_with mention_tag (mention_finditer E content) actors)
     = length (mention_finditer E content).
Proof.
  unfold parse_mentions. intros Hall. split.
  - induction Hall as [|key R keys actors HR _ IH]; [done|].
    assert (Hget : get_or_create_with_username_domain E (fst key) (snd key) w
                   = (Return (Some R), w)).
    { cbv [get_or_create_with_username_domain try_except bind RemoteActor_get get_world
           lift get_one ret]. by rewrite HR. }
    rewrite (bind_run _ _ _ _ _ Hget). cbv beta iota.
    by rewrite (bind_run _ _ _ _ _ IH).
  - rewrite length_zip_with. apply Forall2_length in Hall. lia.
Qed.

Lemma parse_mentions_tags_every_match_witness :
  exists tag,
    parse_mentions Scenario.mentioning "hello" Fixture.acquainted
    = (Return [tag; tag], Fixture.acquainted)
    /\ Json.item tag "href" = Return (JStr Fixture.alice_url).
Proof.
  destruct (parse_mentions_tags_every_match Scenario.mentioning "hello"
              [Fixture.alice; Fixture.alice] Fixture.acquainted) as [Hrun _].
  - by repeat constructor.
  - eexists. split; [exact Hrun|reflexivity].
Defined.
